(** * v4m: provisioning and launch of one local virtual machine

    A shallow embedding of [v4m.c].  The program is a straight-line
    pipeline over the file system and a handful of external processes
    ([curl], [cp], [qemu-img], [dd], [openssl], [hdiutil], [rm],
    [qemu-system-aarch64]).  It is embedded as a state monad over a
    [world]: the file system, the state of the C library's pseudo-random
    generator, the wall clock and the trace of everything the program
    did.  What an external process answers is not decided by the program:
    it is read from an environment [Env]. *)

From Stdlib Require Import ZArith String Ascii List Lia.
From stdpp Require Import base option gmap strings pretty list.

Open Scope Z_scope.

(** ** C strings *)

Module CStr.

Definition nl : string := String "010"%char "".
Definition dq : string := String "034"%char "".
Definition esc : string := String "027"%char "".

(** [snprintf(buf, size, ...)]: the formatted text, cut to [size - 1]
    bytes. *)
Definition snprintf (size : nat) (s : string) : string :=
  substring 0 (size - 1) s.

(** [strncpy(dst, src, n)] into a buffer of [n + 1] bytes whose last
    byte is zero: the first [n] bytes of [src]. *)
Definition strncpy (n : nat) (src : string) : string :=
  substring 0 n src.

Definition is_nl (c : ascii) : bool := Ascii.eqb c "010"%char.

(** [s[strcspn(s, "\n")] = 0] *)
Fixpoint cut_at_newline (s : string) : string :=
  match s with
  | EmptyString => EmptyString
  | String c s' => if is_nl c then EmptyString else String c (cut_at_newline s')
  end.

(** One [fgets]: at most [n] bytes from the stream, stopping after a
    newline; the result is the bytes read and the rest of the stream. *)
Fixpoint fgets_go (n : nat) (s : string) : string * string :=
  match n, s with
  | O, _ => (EmptyString, s)
  | _, EmptyString => (EmptyString, EmptyString)
  | S n', String c s' =>
      if is_nl c then (String c EmptyString, s')
      else let (l, r) := fgets_go n' s' in (String c l, r)
  end.

(** [fgets(buf, size, fp)]: [None] is NULL, which leaves the buffer as
    it is.  A size of 0 gives NULL; with a size of 1 nothing is read,
    the buffer is emptied and returned, at the end of the file as well;
    from 2 on, NULL is the end of the file. *)
Definition fgets (size : nat) (stream : string) : option (string * string) :=
  match size with
  | O => None
  | S O => Some (EmptyString, stream)
  | S (S n) =>
      match stream with
      | EmptyString => None
      | _ => Some (fgets_go (S n) stream)
      end
  end.

(** [strrchr(s, c)]: the suffix of [s] that starts at the last [c]. *)
Fixpoint strrchr (c : ascii) (s : string) : option string :=
  match s with
  | EmptyString => None
  | String a s' =>
      match strrchr c s' with
      | Some r => Some r
      | None => if Ascii.eqb a c then Some s else None
      end
  end.

(** [strstr(hay, needle) != NULL] *)
Fixpoint strstr (hay needle : string) : bool :=
  String.prefix needle hay
  || match hay with
     | EmptyString => false
     | String _ hay' => strstr hay' needle
     end.

Definition isspace (c : ascii) : bool :=
  let n := nat_of_ascii c in
  Nat.eqb n 32 || (Nat.leb 9 n && Nat.leb n 13).

Fixpoint skip_space (s : string) : string :=
  match s with
  | String c s' => if isspace c then skip_space s' else s
  | EmptyString => EmptyString
  end.

(** what is left of [s] after the literal [lit], when [s] starts with it *)
Fixpoint strip_prefix (lit s : string) : option string :=
  match lit, s with
  | EmptyString, _ => Some s
  | String a lit', String b s' =>
      if Ascii.eqb a b then strip_prefix lit' s' else None
  | String _ _, EmptyString => None
  end.

(** the scanset conversion of [sscanf] that excludes the double quote:
    the longest run of bytes that are not a double quote *)
Fixpoint scan_not_dq (s : string) : string :=
  match s with
  | EmptyString => EmptyString
  | String c s' =>
      if Ascii.eqb c "034"%char then EmptyString else String c (scan_not_dq s')
  end.

(** [chars[i]] for a string constant; an index outside the constant
    does not occur for the indices the program computes (remainders of
    a non-negative [rand()]). *)
Definition char_at (chars : string) (i : Z) : ascii :=
  match String.get (Z.to_nat i) chars with
  | Some c => c
  | None => "000"%char
  end.

(** [%x] of an [unsigned int] *)
Fixpoint hex_go (fuel : nat) (n : Z) (acc : string) : string :=
  match fuel with
  | O => acc
  | S fuel' =>
      let acc' := String (char_at "0123456789abcdef" (n mod 16)) acc in
      if n / 16 =? 0 then acc' else hex_go fuel' (n / 16) acc'
  end.

Definition fmt_x (v : Z) : string := hex_go 8 (v mod 2 ^ 32) "".

(** zero padding to a minimum width, as in [%02x] and [%02d] *)
Fixpoint zeros (n : nat) : string :=
  match n with
  | O => EmptyString
  | S n' => String "0"%char (zeros n')
  end.

Definition pad0 (width : nat) (s : string) : string :=
  zeros (width - String.length s) +:+ s.

Definition fmt_02x (v : Z) : string := pad0 2 (fmt_x v).

(** [%d] and [%ld] *)
Definition fmt_d (v : Z) : string := pretty v.

Definition fmt_02d (v : Z) : string := pad0 2 (fmt_d v).

(** [gmtime] followed by [strftime(.., "%Y-%m-%dT%H:%M:%SZ", ..)]: the
    civil date of a count of seconds since the epoch. *)
Definition civil_of_days (days : Z) : Z * Z * Z :=
  let z := days + 719468 in
  let era := z / 146097 in
  let doe := z - era * 146097 in
  let yoe := (doe - doe / 1460 + doe / 36524 - doe / 146096) / 365 in
  let doy := doe - (365 * yoe + yoe / 4 - yoe / 100) in
  let mp := (5 * doy + 2) / 153 in
  let d := doy - (153 * mp + 2) / 5 + 1 in
  let m := if mp <? 10 then mp + 3 else mp - 9 in
  let y := yoe + era * 400 + (if m <=? 2 then 1 else 0) in
  (y, m, d).

Definition strftime_iso (t : Z) : string :=
  let '(y, m, d) := civil_of_days (t / 86400) in
  let s := t mod 86400 in
  fmt_d y +:+ "-" +:+ fmt_02d m +:+ "-" +:+ fmt_02d d +:+ "T"
    +:+ fmt_02d (s / 3600) +:+ ":" +:+ fmt_02d (s mod 3600 / 60) +:+ ":"
    +:+ fmt_02d (s mod 60) +:+ "Z".

End CStr.
Import CStr.

(** ** The world the program runs in *)

Inductive node : Type :=
  | File (content : string)
  | Dir.

Global Instance node_eq_dec : EqDecision node.
Proof. solve_decision. Defined.

(** Everything the program does that can be observed from outside, in
    the order it happens (the most recent action is the head of the
    trace). *)
Inductive event : Type :=
  | Stdout (text : string)                 (* printf *)
  | Mkdir (path : string) (status : Z)     (* mkdir(path, 0755) *)
  | Remove (path : string)                 (* remove(path) *)
  | System (cmd : string) (status : Z)     (* system(cmd) *)
  | Popen (cmd : string)                   (* popen(cmd, "r") *)
  | FopenW (path : string) (ok : bool)     (* fopen(path, "w") *)
  | Sleep (seconds : Z).                   (* sleep(seconds) *)

Record world : Type := World {
  fs : gmap string node;   (* the file system, by absolute path *)
  prng : Z;                (* state of the generator behind rand() *)
  clock : Z;               (* time(NULL) *)
  trace : list event
}.

(** The order in which a build evaluates the three arguments of one
    call: the C language leaves it open.  [Args ijk] feeds the first
    argument from the [i]-th evaluation, the second from the [j]-th and
    the third from the [k]-th; [Args123] is left to right, [Args321]
    right to left. *)
Inductive arg_order : Type :=
  | Args123 | Args132 | Args213 | Args231 | Args312 | Args321.

(** the three arguments, from the three values in the order they were
    computed *)
Definition in_order {A} (o : arg_order) (v1 v2 v3 : A) : A * A * A :=
  match o with
  | Args123 => (v1, v2, v3)
  | Args132 => (v1, v3, v2)
  | Args213 => (v2, v1, v3)
  | Args231 => (v2, v3, v1)
  | Args312 => (v3, v1, v2)
  | Args321 => (v3, v2, v1)
  end.

(** What the program reads from its surroundings.  [sh] is [system(3)]:
    the exit status of the command line and what it leaves on the file
    system.  [pipe_out] is [popen(cmd, "r")]: [None] when the pipe cannot
    be created, otherwise everything the child writes to its standard
    output; [pipe_fs] is what that child, a shell on the command line,
    leaves on the file system by the time the pipe is closed.
    [can_write] tells whether [fopen(path, "w")] succeeds.  [args] is
    the order in which the build evaluates the arguments of a call.
    [HOME] is taken to be set.  The clock moves with [sleep] only: the
    time the commands take is left out. *)
Record Env : Type := {
  HOME : string;                                            (* getenv("HOME") *)
  euid : Z;                                                 (* geteuid() *)
  pid : Z;                                                  (* getpid() *)
  rand_step : Z -> Z * Z;                                   (* rand(): value and next state *)
  sh : string -> gmap string node -> Z * gmap string node;
  pipe_out : string -> gmap string node -> option string;
  pipe_fs : string -> gmap string node -> gmap string node;
  can_write : string -> gmap string node -> bool;
  args : arg_order
}.

Definition RAND_MAX : Z := 2147483647.

(** [rand()] answers in [0 .. RAND_MAX]. *)
Definition prng_ok (env : Env) : Prop :=
  forall s, 0 <= fst (rand_step env s) <= RAND_MAX.

(** ** The monad of the program *)

Definition M (A : Type) : Type := world -> A * world.

Definition ret {A} (a : A) : M A := fun w => (a, w).

Definition bind {A B} (m : M A) (k : A -> M B) : M B :=
  fun w => let (a, w') := m w in k a w'.

Notation "x <- m ;; k" := (bind m (fun x => k))
  (at level 100, m at next level, right associativity).
Notation "m ;; k" := (bind m (fun _ => k))
  (at level 100, right associativity).

Definition emit (e : event) : M unit :=
  fun w => (tt, World (fs w) (prng w) (clock w) (e :: trace w)).

Definition get_fs : M (gmap string node) := fun w => (fs w, w).

Definition put_fs (f : gmap string node) : M unit :=
  fun w => (tt, World f (prng w) (clock w) (trace w)).

(** ** System calls and C library *)

Module Sys.

(** the directory part of a path: what precedes its last slash *)
Definition dirname (p : string) : string :=
  match strrchr "/"%char p with
  | None => EmptyString
  | Some r => substring 0 (String.length p - String.length r) p
  end.

(** Paths are compared as they are written: no [.], [..], doubled
    slashes or links are resolved.  The empty directory part stands for
    the root. *)
Definition parent_is_dir (f : gmap string node) (p : string) : bool :=
  match dirname p with
  | EmptyString => true
  | d => bool_decide (f !! d = Some Dir)
  end.

Definition has_entries (f : gmap string node) (p : string) : bool :=
  existsb (fun kv => String.prefix (p +:+ "/") (fst kv)) (map_to_list f).

Definition printf (s : string) : M unit := emit (Stdout s).

Definition time : M Z := fun w => (clock w, w).

Definition sleep (n : Z) : M unit :=
  fun w => (tt, World (fs w) (prng w) (clock w + n) (Sleep n :: trace w)).

(** [srand(seed)]: the seed is converted to [unsigned int]. *)
Definition srand (seed : Z) : M unit :=
  fun w => (tt, World (fs w) (seed mod 2 ^ 32) (clock w) (trace w)).

(** [stat(path, &st) == 0 && S_ISREG(st.st_mode)] and its sibling *)
Definition file_exists (path : string) : M bool :=
  fun w => (match fs w !! path with Some (File _) => true | _ => false end, w).

Definition dir_exists (path : string) : M bool :=
  fun w => (match fs w !! path with Some Dir => true | _ => false end, w).

(** [mkdir(path, 0755)]: fails when the path exists or its parent is
    not a directory. *)
Definition mkdir (path : string) : M Z :=
  f <- get_fs ;;
  match f !! path with
  | Some _ => emit (Mkdir path (-1)) ;; ret (-1)
  | None =>
      if parent_is_dir f path
      then put_fs (<[path := Dir]> f) ;; emit (Mkdir path 0) ;; ret 0
      else emit (Mkdir path (-1)) ;; ret (-1)
  end.

(** [remove(path)]: unlinks a file, removes an empty directory. *)
Definition remove (path : string) : M unit :=
  f <- get_fs ;;
  emit (Remove path) ;;
  match f !! path with
  | Some (File _) => put_fs (delete path f)
  | Some Dir => if has_entries f path then ret tt else put_fs (delete path f)
  | None => ret tt
  end.

(** [fopen(path, "w")]: on success the file is there and empty. *)
Definition fopen_w (env : Env) (path : string) : M bool :=
  f <- get_fs ;;
  if can_write env path f
  then put_fs (<[path := File EmptyString]> f) ;; emit (FopenW path true) ;; ret true
  else emit (FopenW path false) ;; ret false.

(** [fprintf(fp, ...)] on a file opened by [fopen_w] *)
Definition fputs (path : string) (text : string) : M unit :=
  f <- get_fs ;;
  match f !! path with
  | Some (File c) => put_fs (<[path := File (c +:+ text)]> f)
  | _ => ret tt
  end.

(** [fopen(path, "r")] and the whole of what can be read from it; a
    directory opens but yields nothing. *)
Definition fopen_r (path : string) : M (option string) :=
  fun w => (match fs w !! path with
            | Some (File c) => Some c
            | Some Dir => Some EmptyString
            | None => None
            end, w).

Section Env.
Variable env : Env.

Definition rand : M Z :=
  fun w => let (v, s) := rand_step env (prng w) in
           (v, World (fs w) s (clock w) (trace w)).

Definition system (cmd : string) : M Z :=
  f <- get_fs ;;
  let (status, f') := sh env cmd f in
  put_fs f' ;; emit (System cmd status) ;; ret status.

(** [popen(cmd, "r")] up to the [pclose] that follows: between the two
    the program only reads from the pipe, so what the child does to the
    file system is taken to be done when the pipe is opened. *)
Definition popen (cmd : string) : M (option string) :=
  f <- get_fs ;;
  emit (Popen cmd) ;;
  match pipe_out env cmd f with
  | None => ret None
  | Some out => put_fs (pipe_fs env cmd f) ;; ret (Some out)
  end.

End Env.

End Sys.
Import Sys.

(** ** The program *)

Module V4m.

Definition MAX_PATH : nat := 1024.
Definition MAX_LINE : nat := 4096.
Definition MAX_NAME : nat := 256.

Definition DEFAULT_DISTRO : string := "debian12".
Definition DEFAULT_USER : string := "user01".
Definition DEFAULT_MEMORY : string := "4096".
Definition DEFAULT_CPUS : string := "4".
Definition DEFAULT_DISK_SIZE : string := "20G".

Definition RED : string := esc +:+ "[0;31m".
Definition GREEN : string := esc +:+ "[0;32m".
Definition YELLOW : string := esc +:+ "[1;33m".
Definition BLUE : string := esc +:+ "[0;34m".
Definition CYAN : string := esc +:+ "[0;36m".
Definition NC : string := esc +:+ "[0m".

(** the line each logging function prints *)
Definition info_line (message : string) : string :=
  BLUE +:+ "[INFO]" +:+ NC +:+ " " +:+ message +:+ nl.
Definition success_line (message : string) : string :=
  GREEN +:+ "[SUCCESS]" +:+ NC +:+ " " +:+ message +:+ nl.
Definition warning_line (message : string) : string :=
  YELLOW +:+ "[WARNING]" +:+ NC +:+ " " +:+ message +:+ nl.
Definition error_line (message : string) : string :=
  RED +:+ "[ERROR]" +:+ NC +:+ " " +:+ message +:+ nl.

Definition log_info (message : string) : M unit := printf (info_line message).
Definition log_success (message : string) : M unit := printf (success_line message).
Definition log_warning (message : string) : M unit := printf (warning_line message).
Definition log_error (message : string) : M unit := printf (error_line message).

Definition adjectives : list string :=
  ["fast"; "quick"; "smart"; "bright"; "cool";
   "swift"; "agile"; "sharp"; "clever"; "rapid"]%string.

Definition nouns : list string :=
  ["vm"; "box"; "node"; "server"; "instance";
   "machine"; "host"; "system"; "unit"; "engine"]%string.

Definition word_at (words : list string) (i : Z) : string :=
  nth (Z.to_nat i) words EmptyString.

Definition password_chars : string :=
  "ABCDEFGHIJKLMNOPQRSTUVWXYZabcdefghijklmnopqrstuvwxyz0123456789".

Definition get_distro_url (distro : string) : option string :=
  if String.eqb distro "debian12" then
    Some "https://cloud.debian.org/images/cloud/bookworm/latest/debian-12-generic-arm64.qcow2"%string
  else if String.eqb distro "ubuntu22" then
    Some "https://cloud-images.ubuntu.com/releases/22.04/release/ubuntu-22.04-server-cloudimg-arm64.img"%string
  else if String.eqb distro "ubuntu24" then
    Some "https://cloud-images.ubuntu.com/releases/24.04/release/ubuntu-24.04-server-cloudimg-arm64.img"%string
  else None.

(** the text of the command lines the program hands to the shell *)
Definition quoted (s : string) : string := dq +:+ s +:+ dq.

Definition openssl_rand_cmd : string :=
  "openssl rand -base64 12 | tr -d " +:+ quoted "=+/" +:+ " | cut -c1-12".
Definition openssl_passwd_fmt (password : string) : string :=
  "openssl passwd -6 " +:+ quoted password.
Definition curl_fmt (distro_path url : string) : string :=
  "curl -L -o " +:+ quoted distro_path +:+ " " +:+ quoted url +:+ " --progress-bar".
Definition cp_fmt (src dest : string) : string :=
  "cp " +:+ quoted src +:+ " " +:+ quoted dest.
Definition resize_fmt (vm_disk : string) : string :=
  "qemu-img resize " +:+ quoted vm_disk +:+ " " +:+ DEFAULT_DISK_SIZE +:+ " >/dev/null".
Definition efi_fmt (efi_vars : string) : string :=
  "dd if=/dev/zero of=" +:+ quoted efi_vars +:+ " bs=1M count=64 >/dev/null 2>&1".
Definition iso_fmt (cloud_init_iso temp_dir : string) : string :=
  "hdiutil makehybrid -iso -joliet -default-volume-name " +:+ quoted "cidata"
    +:+ " -o " +:+ quoted cloud_init_iso +:+ " " +:+ quoted temp_dir +:+ " >/dev/null 2>&1".
Definition rm_fmt (temp_dir vm_dir : string) : string :=
  "rm -rf " +:+ quoted temp_dir +:+ " " +:+ quoted vm_dir.
Definition rm_temp_fmt (temp_dir : string) : string :=
  "rm -rf " +:+ quoted temp_dir.
Definition qemu_check_cmd : string :=
  "command -v qemu-system-aarch64 >/dev/null 2>&1".
Definition pid_fmt (pid_file : string) : string :=
  "echo $! > " +:+ quoted pid_file.
Definition qemu_fmt
    (efi_vars vm_disk cloud_init_iso bridge_interface vm_mac
     monitor_socket vm_dir log_file : string) : string :=
  "nohup qemu-system-aarch64 "
    +:+ "-machine virt "
    +:+ "-cpu host "
    +:+ "-accel hvf "
    +:+ "-smp " +:+ DEFAULT_CPUS +:+ " "
    +:+ "-m " +:+ DEFAULT_MEMORY +:+ " "
    +:+ "-drive if=pflash,format=raw,file=/opt/homebrew/share/qemu/edk2-aarch64-code.fd,readonly=on "
    +:+ "-drive if=pflash,format=raw,file=" +:+ quoted efi_vars +:+ " "
    +:+ "-drive file=" +:+ quoted vm_disk +:+ ",format=qcow2,if=virtio "
    +:+ "-drive file=" +:+ quoted cloud_init_iso +:+ ",media=cdrom,if=virtio,readonly=on "
    +:+ "-netdev vmnet-bridged,id=net0,ifname=" +:+ bridge_interface +:+ " "
    +:+ "-device virtio-net,netdev=net0,mac=" +:+ vm_mac +:+ " "
    +:+ "-global PIIX4_PM.disable_s3=1 "
    +:+ "-monitor unix:" +:+ quoted monitor_socket +:+ ",server,nowait "
    +:+ "-serial unix:" +:+ quoted (vm_dir +:+ "/console.sock") +:+ ",server,nowait "
    +:+ "-device virtio-serial "
    +:+ "-chardev socket,path=" +:+ quoted (vm_dir +:+ "/qga.sock") +:+ ",server=on,wait=off,id=qga0 "
    +:+ "-device virtserialport,chardev=qga0,name=org.qemu.guest_agent.0 "
    +:+ "-nographic > " +:+ quoted log_file +:+ " 2>&1 &".

(** the documents the program writes *)
Definition user_data_lines (vm_name username hashed_pass : string) : list string :=
  [ "#cloud-config" +:+ nl +:+ nl;
    "# System settings" +:+ nl;
    "hostname: " +:+ vm_name +:+ nl;
    "fqdn: " +:+ vm_name +:+ ".local" +:+ nl;
    "timezone: Europe/Rome" +:+ nl +:+ nl;
    "# Enable SSH password authentication" +:+ nl;
    "ssh_pwauth: true" +:+ nl;
    "disable_root: false" +:+ nl +:+ nl;
    "# Network configuration for DHCP" +:+ nl;
    "network:" +:+ nl;
    "  version: 2" +:+ nl;
    "  ethernets:" +:+ nl;
    "    enp0s1:" +:+ nl;
    "      dhcp4: true" +:+ nl;
    "      dhcp6: true" +:+ nl +:+ nl;
    "# Users" +:+ nl;
    "users:" +:+ nl;
    "  - name: " +:+ username +:+ nl;
    "    sudo: ALL=(ALL) NOPASSWD:ALL" +:+ nl;
    "    groups: [sudo, users]" +:+ nl;
    "    shell: /bin/bash" +:+ nl;
    "    lock_passwd: false" +:+ nl;
    "    passwd: " +:+ hashed_pass +:+ nl;
    "  - name: root" +:+ nl;
    "    lock_passwd: false" +:+ nl;
    "    passwd: " +:+ hashed_pass +:+ nl +:+ nl;
    "# Packages to install" +:+ nl;
    "packages:" +:+ nl;
    "  - openssh-server" +:+ nl;
    "  - sudo" +:+ nl;
    "  - curl" +:+ nl;
    "  - wget" +:+ nl;
    "  - vim" +:+ nl;
    "  - net-tools" +:+ nl;
    "  - htop" +:+ nl;
    "  - avahi-daemon" +:+ nl;
    "  - avahi-utils" +:+ nl +:+ nl;
    "# Commands to run after boot" +:+ nl;
    "runcmd:" +:+ nl;
    "  - systemctl enable ssh" +:+ nl;
    "  - systemctl start ssh" +:+ nl;
    "  - systemctl enable avahi-daemon" +:+ nl;
    "  - systemctl start avahi-daemon" +:+ nl;
    "  - echo " +:+ quoted "VM is ready!" +:+ " > /tmp/vm-ready" +:+ nl +:+ nl;
    "# Final message" +:+ nl;
    "final_message: " +:+ quoted ("VM " +:+ vm_name +:+ " is ready! SSH available on port 22.") +:+ nl
  ].

Definition meta_data_lines (vm_name : string) (now : Z) : list string :=
  [ "instance-id: " +:+ vm_name +:+ "-" +:+ fmt_d now +:+ nl;
    "local-hostname: " +:+ vm_name +:+ nl ].

Definition json_field (key value : string) : string :=
  "    " +:+ quoted key +:+ ": " +:+ quoted value.

Definition vm_info_lines
    (vm_name distro username password vm_mac created : string) : list string :=
  [ "{" +:+ nl;
    json_field "name" vm_name +:+ "," +:+ nl;
    json_field "distro" distro +:+ "," +:+ nl;
    json_field "username" username +:+ "," +:+ nl;
    json_field "password" password +:+ "," +:+ nl;
    json_field "mac" vm_mac +:+ "," +:+ nl;
    json_field "memory" DEFAULT_MEMORY +:+ "," +:+ nl;
    json_field "cpus" DEFAULT_CPUS +:+ "," +:+ nl;
    json_field "disk_size" DEFAULT_DISK_SIZE +:+ "," +:+ nl;
    json_field "created" created +:+ nl;
    "}" +:+ nl ].

(** a run of [fprintf] calls on one open file *)
Fixpoint fprintf_all (path : string) (lines : list string) : M unit :=
  match lines with
  | [] => ret tt
  | l :: lines' => fputs path l ;; fprintf_all path lines'
  end.

Definition box_rule : string :=
  "═══════════════════════════════════════════════════════════".
Definition box_title : string :=
  "                        VM READY                            ".

Section Program.
Variable env : Env.

Definition check_root : M Z :=
  if negb (euid env =? 0) then
    log_error "This script requires sudo privileges for vmnet-bridged networking" ;;
    log_info "Please run with sudo" ;;
    ret 1
  else ret 0.

Definition init_dirs : M unit :=
  let v4m_dir := snprintf MAX_PATH (HOME env +:+ "/.v4m") in
  let distros_dir := snprintf MAX_PATH (v4m_dir +:+ "/distros") in
  let vms_dir := snprintf MAX_PATH (v4m_dir +:+ "/vms") in
  mkdir v4m_dir ;;
  mkdir distros_dir ;;
  mkdir vms_dir ;;
  ret tt.

(** [generate_vm_name(name, size)]: the result is what is left in
    [name]. *)
Definition generate_vm_name (size : nat) : M string :=
  t <- time ;;
  srand t ;;
  r1 <- rand env ;;
  let adj_index := Z.rem r1 10 in
  r2 <- rand env ;;
  let noun_index := Z.rem r2 10 in
  r3 <- rand env ;;
  let num := Z.rem r3 100 in
  ret (snprintf size
         (word_at adjectives adj_index +:+ "-" +:+ word_at nouns noun_index
            +:+ "-" +:+ fmt_d num)).

(** the loop of the fallback branch: twelve times
    [password[i] = chars[rand() % 62]] *)
Fixpoint fill_random (n : nat) : M string :=
  match n with
  | O => ret EmptyString
  | S n' =>
      r <- rand env ;;
      rest <- fill_random n' ;;
      ret (String (char_at password_chars (Z.rem r 62)) rest)
  end.

(** [generate_password(password, size)]: takes what the buffer holds
    on entry and returns what it holds on exit. *)
Definition generate_password (password : string) (size : nat) : M string :=
  fp <- popen env openssl_rand_cmd ;;
  match fp with
  | Some out =>
      match fgets size out with
      | Some (line, _) => ret (cut_at_newline line)
      | None => ret password
      end
  | None =>
      t <- time ;;
      srand t ;;
      fill_random 12
  end.

(** [ensure_distro(distro, distro_path, size)]: [Some p] is the
    return value 0 with [p] left in [distro_path]; [None] is the
    return value 1. *)
Definition ensure_distro (distro : string) (size : nat) : M (option string) :=
  match get_distro_url distro with
  | None => log_error "Unknown distro" ;; ret None
  | Some url =>
      let v4m_dir := snprintf MAX_PATH (HOME env +:+ "/.v4m") in
      let distro_dir := snprintf MAX_PATH (v4m_dir +:+ "/distros/" +:+ distro) in
      let filename :=
        match strrchr "/"%char url with
        | None => url
        | Some r => substring 1 (String.length r - 1) r
        end in
      let distro_path := snprintf size (distro_dir +:+ "/" +:+ filename) in
      e <- file_exists distro_path ;;
      if e then ret (Some distro_path)
      else
        log_info "Downloading distro..." ;;
        mkdir distro_dir ;;
        let command := snprintf (MAX_PATH * 3) (curl_fmt distro_path url) in
        r <- system env command ;;
        if negb (r =? 0) then
          log_error "Failed to download distro" ;;
          remove distro_path ;;
          ret None
        else
          log_success "Downloaded distro" ;;
          ret (Some distro_path)
  end.

(** The three [rand() % 256] are arguments of one call of [snprintf]:
    [r1], [r2] and [r3] are the values in the order they are drawn,
    and the build decides which of them becomes which octet. *)
Definition generate_mac (size : nat) : M string :=
  t <- time ;;
  srand t ;;
  r1 <- rand env ;;
  r2 <- rand env ;;
  r3 <- rand env ;;
  let '(a, b, c) := in_order (args env) (Z.rem r1 256) (Z.rem r2 256) (Z.rem r3 256) in
  ret (snprintf size
         ("52:54:00:" +:+ fmt_02x a +:+ ":" +:+ fmt_02x b +:+ ":" +:+ fmt_02x c)).

(** [hash_password(password, hashed, size)]: [Some h] is the return
    value 0 with [h] left in [hashed]; [None] is the return value 1. *)
Definition hash_password (password : string) (size : nat) : M (option string) :=
  let command := snprintf (MAX_PATH * 2) (openssl_passwd_fmt password) in
  fp <- popen env command ;;
  match fp with
  | None => ret None
  | Some out =>
      match fgets size out with
      | None => ret None
      | Some (line, _) => ret (Some (cut_at_newline line))
      end
  end.

Definition create_cloud_init (vm_name username password vm_dir : string) : M Z :=
  let user_data_path := snprintf MAX_PATH (vm_dir +:+ "/user-data") in
  let meta_data_path := snprintf MAX_PATH (vm_dir +:+ "/meta-data") in
  h <- hash_password password MAX_PATH ;;
  match h with
  | None => log_error "Failed to hash password" ;; ret 1
  | Some hashed_pass =>
      user_data <- fopen_w env user_data_path ;;
      if negb user_data then
        log_error "Failed to create user-data file" ;; ret 1
      else
        fprintf_all user_data_path (user_data_lines vm_name username hashed_pass) ;;
        meta_data <- fopen_w env meta_data_path ;;
        if negb meta_data then
          log_error "Failed to create meta-data file" ;; ret 1
        else
          now <- time ;;
          fprintf_all meta_data_path (meta_data_lines vm_name now) ;;
          ret 0
  end.

Definition copy_file (src dest : string) : M Z :=
  system env (snprintf (MAX_PATH * 3) (cp_fmt src dest)).

Definition get_default_interface (size : nat) : Z * string :=
  (0, strncpy size "en0").

(** [sscanf] of one line against the format made of four blanks, the
    quoted key, a colon, a blank, a double quote, the scanset of all
    bytes but the double quote, a double quote and a comma.  White
    space in the format matches any run of white space, the other
    characters match themselves, and the scanset needs at least one
    byte.  [None]: nothing is assigned and the buffer keeps its
    content.  The scanset has no width: a value longer than the
    buffer overruns it, which is not modelled. *)
Definition sscanf_field (key line : string) : option string :=
  match strip_prefix (quoted key +:+ ":") (skip_space line) with
  | None => None
  | Some r =>
      match strip_prefix dq (skip_space r) with
      | None => None
      | Some v =>
          match scan_not_dq v with
          | EmptyString => None
          | s => Some s
          end
      end
  end.

(** the [while (fgets(line, sizeof(line), fp))] loop of
    [show_vm_info] over what is left of the file; the state is the
    three buffers [username], [password] and [mac] *)
Fixpoint scan_vm_info (fuel : nat) (stream : string)
    (st : string * string * string) : string * string * string :=
  match fuel with
  | O => st
  | S fuel' =>
      match fgets MAX_LINE stream with
      | None => st
      | Some (line, rest) =>
          let '(username, password, mac) := st in
          let st' :=
            if strstr line (quoted "username") then
              (default username (sscanf_field "username" line), password, mac)
            else if strstr line (quoted "password") then
              (username, default password (sscanf_field "password" line), mac)
            else if strstr line (quoted "mac") then
              (username, password, default mac (sscanf_field "mac" line))
            else st in
          scan_vm_info fuel' rest st'
      end
  end.

Definition show_vm_info (vm_name vm_dir : string) : M unit :=
  let vm_info_path := snprintf MAX_PATH (vm_dir +:+ "/vm-info.json") in
  fp <- fopen_r vm_info_path ;;
  match fp with
  | None => ret tt
  | Some content =>
      let '(username, password, mac) :=
        scan_vm_info (S (String.length content)) content
          (EmptyString, EmptyString, EmptyString) in
      printf (nl +:+ CYAN +:+ box_rule +:+ NC +:+ nl) ;;
      printf (CYAN +:+ box_title +:+ NC +:+ nl) ;;
      printf (CYAN +:+ box_rule +:+ NC +:+ nl +:+ nl) ;;
      printf (YELLOW +:+ "VM Information:" +:+ NC +:+ nl) ;;
      printf ("  Name: " +:+ vm_name +:+ nl) ;;
      printf ("  Memory: " +:+ DEFAULT_MEMORY +:+ "MB" +:+ nl) ;;
      printf ("  CPUs: " +:+ DEFAULT_CPUS +:+ nl) ;;
      printf (nl +:+ YELLOW +:+ "Login Credentials:" +:+ NC +:+ nl) ;;
      printf ("  Username: " +:+ username +:+ nl) ;;
      printf ("  Password: " +:+ password +:+ nl) ;;
      printf ("  Root password: " +:+ password +:+ " (same as user)" +:+ nl) ;;
      printf ("  SSH: ssh " +:+ username +:+ "@" +:+ vm_name +:+ ".local" +:+ nl) ;;
      printf (nl +:+ YELLOW +:+ "VM Management:" +:+ NC +:+ nl) ;;
      printf ("  Stop: kill $(cat " +:+ vm_dir +:+ "/vm.pid)" +:+ nl) ;;
      printf nl
  end.

Definition start_vm (vm_name vm_mac vm_dir : string) : M Z :=
  let vm_disk := snprintf MAX_PATH (vm_dir +:+ "/disk.qcow2") in
  let cloud_init_iso := snprintf MAX_PATH (vm_dir +:+ "/cloud-init.iso") in
  let efi_vars := snprintf MAX_PATH (vm_dir +:+ "/efi-vars.fd") in
  let log_file := snprintf MAX_PATH (vm_dir +:+ "/console.log") in
  let monitor_socket := snprintf MAX_PATH (vm_dir +:+ "/monitor.sock") in
  let pid_file := snprintf MAX_PATH (vm_dir +:+ "/vm.pid") in
  let bridge_interface := snd (get_default_interface 16) in
  log_info "Starting VM..." ;;
  fopen_w env log_file ;;
  remove monitor_socket ;;
  let qemu_cmd :=
    snprintf (MAX_PATH * 10)
      (qemu_fmt efi_vars vm_disk cloud_init_iso bridge_interface vm_mac
         monitor_socket vm_dir log_file) in
  result <- system env qemu_cmd ;;
  if negb (result =? 0) then
    log_error "Failed to start QEMU" ;; ret 1
  else
    system env (snprintf MAX_PATH (pid_fmt pid_file)) ;;
    log_success "VM started" ;;
    log_info "Waiting for VM to boot..." ;;
    sleep 60 ;;
    show_vm_info vm_name vm_dir ;;
    ret 0.

Definition create_vm (vm_name distro username password : string) : M Z :=
  let vm_dir := snprintf MAX_PATH (HOME env +:+ "/.v4m/vms/" +:+ vm_name) in
  let vm_disk := snprintf MAX_PATH (vm_dir +:+ "/disk.qcow2") in
  log_info "Creating VM..." ;;
  exists_ <- dir_exists vm_dir ;;
  if exists_ then
    log_error "VM already exists" ;; ret 1
  else
    mkdir vm_dir ;;
    found <- ensure_distro distro MAX_PATH ;;
    match found with
    | None => ret 1
    | Some distro_path =>
        log_info "Setting up VM disk..." ;;
        copied <- copy_file distro_path vm_disk ;;
        if negb (copied =? 0) then
          log_error "Failed to copy disk image" ;; ret 1
        else
          resized <- system env (snprintf (MAX_PATH * 2) (resize_fmt vm_disk)) ;;
          if negb (resized =? 0) then
            log_error "Failed to resize disk" ;; ret 1
          else
            vm_mac <- generate_mac 18 ;;
            let efi_vars := snprintf MAX_PATH (vm_dir +:+ "/efi-vars.fd") in
            system env (snprintf MAX_PATH (efi_fmt efi_vars)) ;;
            log_info "Configuring cloud-init..." ;;
            ci <- create_cloud_init vm_name username password vm_dir ;;
            if negb (ci =? 0) then ret 1
            else
              let cloud_init_iso := snprintf MAX_PATH (vm_dir +:+ "/cloud-init.iso") in
              let temp_dir := snprintf MAX_PATH ("/tmp/cloud-init-" +:+ fmt_d (pid env)) in
              mkdir temp_dir ;;
              let user_data_src := snprintf MAX_PATH (vm_dir +:+ "/user-data") in
              let user_data_dest := snprintf MAX_PATH (temp_dir +:+ "/user-data") in
              let meta_data_src := snprintf MAX_PATH (vm_dir +:+ "/meta-data") in
              let meta_data_dest := snprintf MAX_PATH (temp_dir +:+ "/meta-data") in
              copy_file user_data_src user_data_dest ;;
              copy_file meta_data_src meta_data_dest ;;
              iso <- system env (snprintf (MAX_PATH * 2) (iso_fmt cloud_init_iso temp_dir)) ;;
              if negb (iso =? 0) then
                log_error "Failed to create cloud-init ISO" ;;
                system env (snprintf (MAX_PATH * 2) (rm_fmt temp_dir vm_dir)) ;;
                ret 1
              else
                system env (snprintf MAX_PATH (rm_temp_fmt temp_dir)) ;;
                let vm_info_path := snprintf MAX_PATH (vm_dir +:+ "/vm-info.json") in
                vm_info <- fopen_w env vm_info_path ;;
                (if vm_info then
                   now <- time ;;
                   let created := strftime_iso now in
                   fprintf_all vm_info_path
                     (vm_info_lines vm_name distro username password vm_mac created)
                 else ret tt) ;;
                log_success "VM created successfully" ;;
                start_vm vm_name vm_mac vm_dir
    end.

(** the four buffers [main] fills from the command line *)
Record options : Type := Options {
  o_name : string;
  o_distro : string;
  o_username : string;
  o_password : string
}.

Inductive parsed : Type :=
  | Parsed (o : options)
  | Help
  | Unknown.

(** the argument loop of [main] over [argv[i ..]]; [i + 1 < argc]
    holds when an argument follows the current one *)
Fixpoint parse_args (args : list string) (o : options) : parsed :=
  match args with
  | [] => Parsed o
  | a :: rest =>
      match rest with
      | v :: rest' =>
          if String.eqb a "--name" then
            parse_args rest' (Options (strncpy (MAX_NAME - 1) v) (o_distro o) (o_username o) (o_password o))
          else if String.eqb a "--distro" then
            parse_args rest' (Options (o_name o) (strncpy (MAX_NAME - 1) v) (o_username o) (o_password o))
          else if String.eqb a "--user" then
            parse_args rest' (Options (o_name o) (o_distro o) (strncpy (MAX_NAME - 1) v) (o_password o))
          else if String.eqb a "--pass" then
            parse_args rest' (Options (o_name o) (o_distro o) (o_username o) (strncpy (MAX_NAME - 1) v))
          else if String.eqb a "--help" || String.eqb a "-h" then Help
          else Unknown
      | [] =>
          if String.eqb a "--help" || String.eqb a "-h" then Help else Unknown
      end
  end.

Definition usage (argv0 : string) : list string :=
  [ "Usage: sudo " +:+ argv0 +:+ " [OPTIONS]" +:+ nl +:+ nl;
    "Options:" +:+ nl;
    "  --name NAME     VM name (default: random)" +:+ nl;
    "  --distro DIST   Distribution (default: debian12)" +:+ nl;
    "  --user USER     Username (default: user01)" +:+ nl;
    "  --pass PASS     Password (default: auto-generated)" +:+ nl +:+ nl;
    "Available distros: debian12, ubuntu22, ubuntu24" +:+ nl +:+ nl;
    "Examples:" +:+ nl;
    "  sudo " +:+ argv0 +:+ "                                    # Create VM with all defaults" +:+ nl;
    "  sudo " +:+ argv0 +:+ " --name myvm --user john            # Create VM 'myvm' with user 'john'" +:+ nl;
    "  sudo " +:+ argv0 +:+ " --distro ubuntu22 --pass secret123 # Create Ubuntu VM with custom password" +:+ nl
  ].

Fixpoint printf_all (lines : list string) : M unit :=
  match lines with
  | [] => ret tt
  | l :: lines' => printf l ;; printf_all lines'
  end.

Definition main (argv : list string) : M Z :=
  match parse_args (tl argv) (Options EmptyString DEFAULT_DISTRO DEFAULT_USER EmptyString) with
  | Help => printf_all (usage (hd EmptyString argv)) ;; ret 0
  | Unknown => log_error "Unknown option" ;; ret 1
  | Parsed o =>
      vm_name <- (if Nat.eqb (String.length (o_name o)) 0
                  then generate_vm_name MAX_NAME else ret (o_name o)) ;;
      password <- (if Nat.eqb (String.length (o_password o)) 0
                   then generate_password (o_password o) MAX_NAME
                   else ret (o_password o)) ;;
      root <- check_root ;;
      if negb (root =? 0) then ret 1
      else
        init_dirs ;;
        qemu <- system env qemu_check_cmd ;;
        if negb (qemu =? 0) then
          log_error "QEMU not found. Please install QEMU:" ;;
          log_error "  brew install qemu" ;;
          ret 1
        else
          created <- create_vm vm_name (o_distro o) (o_username o) password ;;
          if negb (created =? 0) then ret 1 else ret 0
  end.

End Program.

End V4m.
Import V4m.

(** ** A reference environment

    An executable environment in which the external commands do what
    their manuals say, used to run the program on concrete inputs.  A
    command line is recognised by splitting it at its double quotes.
    Unless an environment says otherwise, the commands read through a
    pipe leave the file system alone, and the build evaluates arguments
    from left to right.
    [fail_cmd], [fail_pipe] and [fail_write] single out the command
    lines, pipes and files that the environment makes fail. *)

Module Sim.

Fixpoint split_dq (s cur : string) : list string :=
  match s with
  | EmptyString => [String.rev cur]
  | String c s' =>
      if Ascii.eqb c "034"%char then String.rev cur :: split_dq s' EmptyString
      else split_dq s' (String c cur)
  end.

Definition under (p k : string) : bool :=
  String.eqb k p || String.prefix (p +:+ "/") k.

(** [rm -rf p] *)
Definition rm_rf (p : string) (f : gmap string node) : gmap string node :=
  filter (fun kv => under p (fst kv) = false) f.

Definition is_file (f : gmap string node) (p : string) : bool :=
  match f !! p with Some (File _) => true | _ => false end.

Definition create (p content : string) (f : gmap string node) : Z * gmap string node :=
  if parent_is_dir f p && negb (bool_decide (f !! p = Some Dir))
  then (0, <[p := File content]> f) else (1, f).

Definition exec (cmd : string) (f : gmap string node) : Z * gmap string node :=
  match split_dq cmd EmptyString with
  | [c; src; _; dest; _] =>
      if String.eqb c "cp " then
        match f !! src with
        | Some (File content) => create dest content f
        | _ => (1, f)
        end
      else if String.eqb c "curl -L -o " then create src ("image from " +:+ dest) f
      else if String.eqb c "rm -rf " then (0, rm_rf dest (rm_rf src f))
      else (0, f)
  | [c; p; _] =>
      if String.eqb c "qemu-img resize " then (if is_file f p then 0 else 1, f)
      else if String.eqb c "dd if=/dev/zero of=" then create p "<64 MiB of zero bytes>" f
      else if String.eqb c "rm -rf " then (0, rm_rf p f)
      else if String.eqb c "echo $! > " then create p nl f
      else (0, f)
  | [c; _; _; iso; _; temp_dir; _] =>
      if String.eqb c "hdiutil makehybrid -iso -joliet -default-volume-name " then
        if is_file f (temp_dir +:+ "/user-data") && is_file f (temp_dir +:+ "/meta-data")
        then create iso "<iso image>" f else (1, f)
      else (0, f)
  | _ => (0, f)
  end.

(** the generator of the C standard's example [rand] *)
Definition lcg (s : Z) : Z * Z :=
  let s' := (s * 1103515245 + 12345) mod 2 ^ 31 in (s', s').

Definition env (fail_cmd fail_pipe fail_write : string -> bool)
    (hash_out : string -> string) : Env :=
  {| HOME := "/home/u";
     euid := 0;
     pid := 4242;
     rand_step := lcg;
     sh := fun cmd f => if fail_cmd cmd then (1, f) else exec cmd f;
     pipe_out := fun cmd f =>
       if fail_pipe cmd then None
       else if String.prefix "openssl passwd -6 " cmd then Some (hash_out cmd)
       else if String.prefix "openssl rand " cmd then Some ("q7Zt2LmX9aBc" +:+ nl)
       else Some EmptyString;
     pipe_fs := fun _ f => f;
     can_write := fun p f =>
       negb (fail_write p) && parent_is_dir f p && negb (bool_decide (f !! p = Some Dir));
     args := Args123 |}.

Definition never (_ : string) : bool := false.

Definition sha512_crypt : string :=
  "$6$Zq1x$mF0b3kq8QeYw2a7dLr5nT9uVh4sJc6pXyG1oKiWzE0tRbN" +:+ nl.

(** all goes well *)
Definition fair : Env := env never never never (fun _ => sha512_crypt).



(** one thing goes wrong *)
Definition efi_fails : Env :=
  env (String.prefix "dd if=/dev/zero") never never (fun _ => sha512_crypt).
Definition iso_fails : Env :=
  env (String.prefix "hdiutil makehybrid") never never (fun _ => sha512_crypt).
Definition qemu_fails : Env :=
  env (String.prefix "nohup qemu-system-aarch64") never never (fun _ => sha512_crypt).
Definition hash_fails : Env :=
  env never (String.prefix "openssl passwd") never (fun _ => sha512_crypt).
Definition rand_fails : Env :=
  env never (String.prefix "openssl rand") never (fun _ => sha512_crypt).
Definition record_fails : Env :=
  env never never (String.eqb "/home/u/.v4m/vms/demo1/vm-info.json")
    (fun _ => sha512_crypt).

(** the same machine for a user who is not root *)
Definition user : Env :=
  {| HOME := HOME fair; euid := 501; pid := pid fair; rand_step := rand_step fair;
     sh := sh fair; pipe_out := pipe_out fair; pipe_fs := pipe_fs fair;
     can_write := can_write fair; args := args fair |}.

(** the same machine with a build that evaluates arguments from right
    to left *)
Definition right_to_left : Env :=
  {| HOME := HOME fair; euid := euid fair; pid := pid fair; rand_step := rand_step fair;
     sh := sh fair; pipe_out := pipe_out fair; pipe_fs := pipe_fs fair;
     can_write := can_write fair; args := Args321 |}.

(** the same user on a machine where [openssl rand] keeps a seed file
    in the home directory *)
Definition seeding : Env :=
  {| HOME := HOME fair; euid := 501; pid := pid fair; rand_step := rand_step fair;
     sh := sh fair; pipe_out := pipe_out fair;
     pipe_fs := fun cmd f =>
       if String.eqb cmd openssl_rand_cmd then <["/home/u/.rnd" := File "<seed>"]> f else f;
     can_write := can_write fair; args := args fair |}.

(** a machine without the hypervisor *)
Definition no_qemu : Env :=
  env (String.eqb qemu_check_cmd) never never (fun _ => sha512_crypt).

(** a machine on which the download fails *)
Definition offline : Env :=
  env (String.prefix "curl ") never never (fun _ => sha512_crypt).

(** a machine on which the meta-data file cannot be opened for writing *)
Definition meta_fails : Env :=
  env never never (String.eqb "/home/u/.v4m/vms/demo1/meta-data")
    (fun _ => sha512_crypt).


(** A password that closes the quotation and goes on with a command of
    its own: the shell behind the pipe hashes the empty password,
    removes the image cache and prints an empty line. *)
Definition wiping_password : string :=
  dq +:+ "; rm -rf /home/u/.v4m/distros; echo " +:+ dq.
Definition intruder : Env :=
  {| HOME := HOME fair; euid := euid fair; pid := pid fair; rand_step := rand_step fair;
     sh := sh fair;
     pipe_out := fun cmd f =>
       if String.eqb cmd (openssl_passwd_fmt wiping_password) then Some (sha512_crypt +:+ nl)
       else pipe_out fair cmd f;
     pipe_fs := fun cmd f =>
       if String.eqb cmd (openssl_passwd_fmt wiping_password)
       then rm_rf "/home/u/.v4m/distros" f else f;
     can_write := can_write fair; args := args fair |}.

(** a machine on which [init_dirs] has run and nothing else *)
Definition fresh : world :=
  {| fs := list_to_map
             [("/home/u", Dir); ("/tmp", Dir); ("/home/u/.v4m", Dir);
              ("/home/u/.v4m/distros", Dir); ("/home/u/.v4m/vms", Dir)]%string;
     prng := 1;
     clock := 1700000000;
     trace := [] |}.

(** the same machine at another time *)
Definition at_time (t : Z) : world :=
  {| fs := fs fresh; prng := 1; clock := t; trace := [] |}.

(** the same machine with a VM called demo1 on it *)
Definition taken : world :=
  {| fs := <["/home/u/.v4m/vms/demo1/disk.qcow2" := File "<disk>"]>
             (<["/home/u/.v4m/vms/demo1" := Dir]> (fs fresh));
     prng := 1;
     clock := 1700000000;
     trace := [] |}.

(** the same machine with the Debian image in the cache *)
Definition cached : world :=
  {| fs := <["/home/u/.v4m/distros/debian12/debian-12-generic-arm64.qcow2" := File "<image>"]>
             (<["/home/u/.v4m/distros/debian12" := Dir]> (fs fresh));
     prng := 1;
     clock := 1700000000;
     trace := [] |}.

End Sim.

(** ** Vocabulary of the statements *)

(** an error report: a line printed by [log_error] *)
Definition is_error (e : event) : bool :=
  match e with
  | Stdout s => String.prefix (RED +:+ "[ERROR]") s
  | _ => false
  end.

(** the line that closes provisioning, printed just before [start_vm] *)
Definition created_line : string := success_line "VM created successfully".

Definition is_created (e : event) : bool :=
  match e with
  | Stdout s => String.eqb s created_line
  | _ => false
  end.

Definition plain (e : event) : bool := negb (is_error e) && negb (is_created e).

(** a stretch of a run in which no error is reported and provisioning is
    not closed *)
Definition quiet (ev : list event) : Prop := Forall (fun e => plain e = true) ev.

(** the paths and command lines of a run, named *)
Definition vm_dir_of (env : Env) (vm_name : string) : string :=
  snprintf MAX_PATH (HOME env +:+ "/.v4m/vms/" +:+ vm_name).
Definition temp_dir_of (env : Env) : string :=
  snprintf MAX_PATH ("/tmp/cloud-init-" +:+ fmt_d (pid env)).
Definition vm_info_path (env : Env) (vm_name : string) : string :=
  snprintf MAX_PATH (vm_dir_of env vm_name +:+ "/vm-info.json").
Definition hash_cmd (password : string) : string :=
  snprintf (MAX_PATH * 2) (openssl_passwd_fmt password).
Definition efi_cmd (env : Env) (vm_name : string) : string :=
  snprintf MAX_PATH (efi_fmt (snprintf MAX_PATH (vm_dir_of env vm_name +:+ "/efi-vars.fd"))).
Definition iso_cmd (env : Env) (vm_name : string) : string :=
  snprintf (MAX_PATH * 2)
    (iso_fmt (snprintf MAX_PATH (vm_dir_of env vm_name +:+ "/cloud-init.iso")) (temp_dir_of env)).
Definition rollback_cmd (env : Env) (vm_name : string) : string :=
  snprintf (MAX_PATH * 2) (rm_fmt (temp_dir_of env) (vm_dir_of env vm_name)).
Definition qemu_cmd (vm_mac vm_dir : string) : string :=
  snprintf (MAX_PATH * 10)
    (qemu_fmt (snprintf MAX_PATH (vm_dir +:+ "/efi-vars.fd"))
       (snprintf MAX_PATH (vm_dir +:+ "/disk.qcow2"))
       (snprintf MAX_PATH (vm_dir +:+ "/cloud-init.iso"))
       (snd (get_default_interface 16)) vm_mac
       (snprintf MAX_PATH (vm_dir +:+ "/monitor.sock")) vm_dir
       (snprintf MAX_PATH (vm_dir +:+ "/console.log"))).
(** the last component of a URL, as [ensure_distro] takes it *)
Definition basename (url : string) : string :=
  match strrchr "/"%char url with
  | None => url
  | Some r => substring 1 (String.length r - 1) r
  end.
Definition cache_path (env : Env) (distro url : string) : string :=
  snprintf MAX_PATH
    (snprintf MAX_PATH (snprintf MAX_PATH (HOME env +:+ "/.v4m") +:+ "/distros/" +:+ distro)
       +:+ "/" +:+ basename url).
Definition download_cmd (env : Env) (distro url : string) : string :=
  snprintf (MAX_PATH * 3) (curl_fmt (cache_path env distro url) url).

(** how a run of [start_vm] looks from outside *)
Definition start_shape (vm_mac vm_dir : string) (r : Z) (post : list event) : Prop :=
  exists b st mid,
    mid = [Remove (snprintf MAX_PATH (vm_dir +:+ "/monitor.sock"));
           FopenW (snprintf MAX_PATH (vm_dir +:+ "/console.log")) b;
           Stdout (info_line "Starting VM...")]
    /\ ((st <> 0 /\ r = 1
         /\ post = Stdout (error_line "Failed to start QEMU")
                     :: System (qemu_cmd vm_mac vm_dir) st :: mid)
        \/ (st = 0 /\ r = 0
            /\ exists prints st2,
                 quiet prints
                 /\ post = prints ++ Sleep 60
                             :: Stdout (info_line "Waiting for VM to boot...")
                             :: Stdout (success_line "VM started")
                             :: System (snprintf MAX_PATH
                                          (pid_fmt (snprintf MAX_PATH (vm_dir +:+ "/vm.pid")))) st2
                             :: System (qemu_cmd vm_mac vm_dir) st :: mid)).

(** the failures of [create_vm] that end the run with one report *)
Definition fatal_msgs : list string :=
  ["VM already exists"; "Unknown distro"; "Failed to copy disk image";
   "Failed to resize disk"; "Failed to create user-data file";
   "Failed to create meta-data file"]%string.

(** how a run of [create_vm] ends, with [ev] the events of the run, the
    most recent first, and [fs_end] the file system it leaves *)
Inductive create_outcome (env : Env) (vm_name password : string)
    (r : Z) (ev : list event) (fs_end : gmap string node) : Prop :=
  | co_fatal msg body :
      In msg fatal_msgs -> r = 1 ->
      ev = Stdout (error_line msg) :: body -> quiet body ->
      create_outcome env vm_name password r ev fs_end
  | co_download p body :
      r = 1 ->
      ev = Remove p :: Stdout (error_line "Failed to download distro") :: body ->
      quiet body ->
      create_outcome env vm_name password r ev fs_end
  | co_hash body :
      r = 1 ->
      ev = Stdout (error_line "Failed to hash password") :: Popen (hash_cmd password) :: body ->
      quiet body ->
      (exists f, fs_end = snd (sh env (efi_cmd env vm_name) f)
                 \/ fs_end = pipe_fs env (hash_cmd password)
                               (snd (sh env (efi_cmd env vm_name) f))) ->
      create_outcome env vm_name password r ev fs_end
  | co_iso st st' body :
      st <> 0 -> r = 1 ->
      ev = System (rollback_cmd env vm_name) st'
             :: Stdout (error_line "Failed to create cloud-init ISO")
             :: System (iso_cmd env vm_name) st :: body ->
      quiet body ->
      create_outcome env vm_name password r ev fs_end
  | co_launch b vm_mac post pre :
      ev = post ++ Stdout created_line :: FopenW (vm_info_path env vm_name) b :: pre ->
      quiet pre ->
      (exists f, b = can_write env (vm_info_path env vm_name) f) ->
      start_shape vm_mac (vm_dir_of env vm_name) r post ->
      (r = 1 -> exists f, fs_end = snd (sh env (qemu_cmd vm_mac (vm_dir_of env vm_name)) f)) ->
      create_outcome env vm_name password r ev fs_end.


(** the text left in a file by a run of [fprintf] calls *)
Fixpoint cat (lines : list string) : string :=
  match lines with
  | [] => EmptyString
  | l :: lines' => l +:+ cat lines'
  end.

Definition is_digit (c : ascii) : bool :=
  let n := nat_of_ascii c in Nat.leb 48 n && Nat.leb n 57.

Definition is_alnum (c : ascii) : bool :=
  let n := nat_of_ascii c in
  (Nat.leb 48 n && Nat.leb n 57) || (Nat.leb 65 n && Nat.leb n 90)
  || (Nat.leb 97 n && Nat.leb n 122).

(** the format C7 claims for a generated name: adjective, noun and a
    number of two digits *)
Definition two_digit_name (s : string) : Prop :=
  exists a n d1 d2,
    In a adjectives /\ In n nouns /\ is_digit d1 = true /\ is_digit d2 = true
    /\ s = a +:+ "-" +:+ n +:+ "-" +:+ String d1 (String d2 EmptyString).

(** the number of times a trace shows the command line [cmd] run with
    exit status 0 *)
Definition is_download (cmd : string) (e : event) : bool :=
  match e with
  | System c st => String.eqb c cmd && (st =? 0)
  | _ => false
  end.

Definition downloads (cmd : string) (tr : list event) : nat :=
  length (List.filter (is_download cmd) tr).

(** *** Further vocabulary *)

(** every byte of a string passes a test *)
Definition all_chars (test : ascii -> bool) (s : string) : bool :=
  forallb test (list_ascii_of_string s).

Definition is_hex_lower (c : ascii) : bool :=
  let n := nat_of_ascii c in
  (Nat.leb 48 n && Nat.leb n 57) || (Nat.leb 97 n && Nat.leb n 102).

(** a lowercase letter, a digit or a hyphen *)
Definition is_name_char (c : ascii) : bool :=
  let n := nat_of_ascii c in
  (Nat.leb 97 n && Nat.leb n 122) || (Nat.leb 48 n && Nat.leb n 57) || Nat.eqb n 45.

Definition not_nl (c : ascii) : bool := negb (is_nl c).
Definition not_dq (c : ascii) : bool := negb (Ascii.eqb c "034"%char).

(** the four buffers of [main] hold at most [MAX_NAME - 1] bytes *)
Definition fits (o : options) : Prop :=
  (String.length (o_name o) <= MAX_NAME - 1
   /\ String.length (o_distro o) <= MAX_NAME - 1
   /\ String.length (o_username o) <= MAX_NAME - 1
   /\ String.length (o_password o) <= MAX_NAME - 1)%nat.

(** the flags of [main] that take a value *)
Definition value_flags : list string := ["--name"; "--distro"; "--user"; "--pass"]%string.

(** an action that changes nothing on the file system *)
Definition is_output (e : event) : bool :=
  match e with
  | Stdout _ | Popen _ => true
  | _ => false
  end.

(** the number of error reports in a stretch of a run *)
Definition error_count (ev : list event) : nat := length (List.filter is_error ev).

(** one round of the loop of [show_vm_info]: what a line does to the
    three buffers [username], [password] and [mac] *)
Definition scan_line (line : string) (st : string * string * string)
    : string * string * string :=
  let '(username, password, mac) := st in
  if strstr line (quoted "username") then
    (default username (sscanf_field "username" line), password, mac)
  else if strstr line (quoted "password") then
    (username, default password (sscanf_field "password" line), mac)
  else if strstr line (quoted "mac") then
    (username, password, default mac (sscanf_field "mac" line))
  else st.

(** the reference machine with the record of the VM [demo1] of the user
    [alice] in place *)
Definition recorded (password : string) : world :=
  {| fs := <["/home/u/.v4m/vms/demo1/vm-info.json"
               := File (cat (vm_info_lines "demo1" "debian12" "alice" password
                               "52:54:00:12:34:56" "2023-11-14T22:13:20Z"))]>
             (fs Sim.taken);
     prng := 1;
     clock := 1700000000;
     trace := [] |}.

(** the disk of a VM and the two command lines that make it *)
Definition disk_of (env : Env) (vm_name : string) : string :=
  snprintf MAX_PATH (vm_dir_of env vm_name +:+ "/disk.qcow2").
Definition copy_cmd (src dest : string) : string :=
  snprintf (MAX_PATH * 3) (cp_fmt src dest).
Definition resize_cmd (env : Env) (vm_name : string) : string :=
  snprintf (MAX_PATH * 2) (resize_fmt (disk_of env vm_name)).

Definition not_slash (c : ascii) : bool := negb (Ascii.eqb c "/"%char).

(** *** The stages of a run of [create_vm] *)







(** an action that removes something: [remove], or a command line that
    starts with [rm] *)
Definition is_removal (e : event) : bool :=
  match e with
  | Remove _ => true
  | System cmd _ => String.prefix "rm " cmd
  | _ => false
  end.







(** *** The helper that [main] never reaches

    [execute_command] is called from nowhere in the file.  It needs one
    more answer from the surroundings than the rest of the program: the
    wait status that [pclose] returns, here [wait_status].  [output] is
    the buffer of the caller, [None] for a NULL pointer; the result is
    the return value and the buffer as it is left. *)
Definition WEXITSTATUS (status : Z) : Z := Z.land (Z.shiftr status 8) 255.

Definition execute_command (env : Env) (wait_status : string -> gmap string node -> Z)
    (command : string) (output : option string) (output_size : nat)
    : M (Z * option string) :=
  f <- get_fs ;;
  fp <- popen env command ;;
  match fp with
  | None => ret (-1, output)
  | Some out =>
      match output with
      | Some _ =>
          if Nat.ltb 0 output_size then
            match fgets output_size out with
            | None => ret (-1, output)
            | Some (line, _) =>
                ret (WEXITSTATUS (wait_status command f), Some (cut_at_newline line))
            end
          else ret (WEXITSTATUS (wait_status command f), output)
      | None => ret (WEXITSTATUS (wait_status command f), output)
      end
  end.

(** ** Runs and their traces *)

Lemma bind_inv {A B} (m : M A) (k : A -> M B) w r w' :
  bind m k w = (r, w') -> exists a w1, m w = (a, w1) /\ k a w1 = (r, w').
Proof. unfold bind. destruct (m w) as [a w1]. eauto. Qed.

(** one step of a run: the first action of a [bind], then the rest *)
Tactic Notation "bind_step" hyp(H) ident(a) ident(w1) ident(H1) :=
  apply bind_inv in H as (a & w1 & H1 & H).

(** the step of an action that asks nothing of the environment *)
Ltac prim H :=
  unfold log_info, log_error, log_success, printf, emit, dir_exists, file_exists,
    time, srand, sleep, fopen_r, ret in H;
  injection H as <- <-.

Lemma system_inv env cmd w st w1 :
  system env cmd w = (st, w1) ->
  w1 = World (snd (sh env cmd (fs w))) (prng w) (clock w) (System cmd st :: trace w)
  /\ st = fst (sh env cmd (fs w)).
Proof.
  unfold system, bind, get_fs, put_fs, emit, ret.
  destruct (sh env cmd (fs w)) as [s f']. cbn. intros [= <- <-]. done.
Qed.

Lemma mkdir_inv p w st w1 :
  mkdir p w = (st, w1) ->
  exists f, w1 = World f (prng w) (clock w) (Mkdir p st :: trace w)
            /\ ((st = -1 /\ f = fs w)
                \/ (st = 0 /\ fs w !! p = None /\ f = <[p := Dir]> (fs w))).
Proof.
  unfold mkdir, bind, get_fs, put_fs, emit, ret. cbn.
  destruct (fs w !! p) eqn:E.
  - intros [= <- <-]. eauto.
  - destruct (parent_is_dir (fs w) p); cbn; intros [= <- <-]; eauto 10.
Qed.

Lemma remove_inv p w u w1 :
  remove p w = (u, w1) ->
  exists f, w1 = World f (prng w) (clock w) (Remove p :: trace w)
            /\ forall c, f !! p <> Some (File c).
Proof.
  unfold remove, bind, get_fs, put_fs, emit, ret. cbn.
  destruct (fs w !! p) as [[c|]|] eqn:E; [| destruct (has_entries _ _) |]; cbn;
    intros [= <- <-]; eexists; (split; [reflexivity |]); intros c'; cbn;
    rewrite ?lookup_delete_eq, ?E; done.
Qed.

Lemma fopen_w_inv env p w b w1 :
  fopen_w env p w = (b, w1) ->
  b = can_write env p (fs w) /\
  exists f, w1 = World f (prng w) (clock w) (FopenW p b :: trace w)
            /\ (if b then f = <[p := File EmptyString]> (fs w) else f = fs w).
Proof.
  unfold fopen_w, bind, get_fs, put_fs, emit, ret. cbn.
  destruct (can_write env p (fs w)); cbn; intros [= <- <-]; eauto.
Qed.

Lemma popen_inv env cmd w o w1 :
  popen env cmd w = (o, w1) ->
  o = pipe_out env cmd (fs w)
  /\ w1 = World (match o with Some _ => pipe_fs env cmd (fs w) | None => fs w end)
            (prng w) (clock w) (Popen cmd :: trace w).
Proof.
  unfold popen, bind, get_fs, put_fs, emit, ret. cbn.
  destruct (pipe_out env cmd (fs w)); cbn; intros [= <- <-]; done.
Qed.

Lemma rand_inv env w v w1 :
  rand env w = (v, w1) ->
  v = fst (rand_step env (prng w))
  /\ w1 = World (fs w) (snd (rand_step env (prng w))) (clock w) (trace w).
Proof. unfold rand. destruct (rand_step env (prng w)). intros [= <- <-]. done. Qed.

Lemma fputs_inv p l w u w1 :
  fputs p l w = (u, w1) ->
  prng w1 = prng w /\ clock w1 = clock w /\ trace w1 = trace w
  /\ fs w1 = match fs w !! p with
             | Some (File c) => <[p := File (c +:+ l)]> (fs w)
             | _ => fs w
             end.
Proof.
  unfold fputs, bind, get_fs, put_fs, ret. cbn.
  destruct (fs w !! p) as [[c|]|]; intros [= <- <-]; done.
Qed.

Lemma fprintf_all_inv p ls w u w1 :
  fprintf_all p ls w = (u, w1) ->
  prng w1 = prng w /\ clock w1 = clock w /\ trace w1 = trace w.
Proof.
  revert w. induction ls as [|l ls IH]; intros w H.
  - unfold ret in H. injection H as <- <-. done.
  - cbn [fprintf_all] in H. bind_step H a w2 H1.
    apply IH in H as (? & ? & ?).
    apply fputs_inv in H1 as (E1 & E2 & E3 & _). by rewrite <- E1, <- E2, <- E3.
Qed.

Lemma plain_info m : plain (Stdout (info_line m)) = true.
Proof. reflexivity. Qed.

Lemma quiet_app l1 l2 : quiet l1 -> quiet l2 -> quiet (l1 ++ l2).
Proof. apply Forall_app_2. Qed.

Lemma show_vm_info_inv vm_name vm_dir w u w1 :
  show_vm_info vm_name vm_dir w = (u, w1) ->
  exists prints, trace w1 = prints ++ trace w /\ quiet prints.
Proof.
  unfold show_vm_info. intros H. bind_step H fp w2 H1. prim H1.
  destruct (fs w !! _) as [[c|]|].
  3: { prim H. exists []. split; [done | constructor]. }
  all: destruct (scan_vm_info _ _ _) as [[username password] mac];
    repeat (let H' := fresh in
            apply bind_inv in H as (? & ? & H' & H); prim H');
    prim H; cbn [trace];
    eexists [_; _; _; _; _; _; _; _; _; _; _; _; _; _; _]; (split; [reflexivity |]);
    repeat (constructor; [reflexivity |]); constructor.
Qed.

Lemma start_vm_inv env vm_name vm_mac vm_dir w r w1 :
  start_vm env vm_name vm_mac vm_dir w = (r, w1) ->
  exists post,
    trace w1 = post ++ trace w /\ start_shape vm_mac vm_dir r post
    /\ (r = 1 -> exists f, fs w1 = snd (sh env (qemu_cmd vm_mac vm_dir) f)).
Proof.
  unfold start_vm. intros H.
  bind_step H a w2 H1. prim H1.
  bind_step H b w3 H1. apply fopen_w_inv in H1 as (_ & f & -> & _).
  bind_step H a w4 H1. apply remove_inv in H1 as (f' & -> & _).
  bind_step H st w5 H1. apply system_inv in H1 as (-> & Est). cbn [fs prng clock trace] in *.
  destruct (Z.eqb_spec st 0) as [E0|Ne]; cbn [negb] in H.
  - bind_step H st2 w6 H1. apply system_inv in H1 as (-> & _).
    bind_step H a1 w7 H1. prim H1.
    bind_step H a2 w8 H1. prim H1.
    bind_step H a3 w9 H1. prim H1.
    bind_step H a4 w10 H1. apply show_vm_info_inv in H1 as (prints & Ht & Hq).
    prim H. rewrite Ht. cbn [trace].
    eexists (prints ++ [_; _; _; _; _; _; _; _]). split.
    { rewrite <- app_assoc. reflexivity. }
    split; [| discriminate].
    exists b, st, [Remove (snprintf MAX_PATH (vm_dir +:+ "/monitor.sock"));
           FopenW (snprintf MAX_PATH (vm_dir +:+ "/console.log")) b;
           Stdout (info_line "Starting VM...")].
    split; [reflexivity |]. right. repeat split; try done.
    exists prints, st2. split; [done |]. reflexivity.
  - bind_step H a1 w6 H1. prim H1. prim H. cbn [trace].
    eexists [_; _; _; _; _]. split; [reflexivity |]. split; [| intros _; by eexists].
    exists b, st, [Remove (snprintf MAX_PATH (vm_dir +:+ "/monitor.sock"));
           FopenW (snprintf MAX_PATH (vm_dir +:+ "/console.log")) b;
           Stdout (info_line "Starting VM...")].
    split; [reflexivity |]. left. done.
Qed.

(** the three draws of [generate_mac], in the order they are made, and
    the octets they become *)
Lemma generate_mac_eq env size w :
  exists r1 r2 r3 s a b c,
    generate_mac env size w
    = (snprintf size
         ("52:54:00:" +:+ fmt_02x a +:+ ":" +:+ fmt_02x b +:+ ":" +:+ fmt_02x c),
       World (fs w) s (clock w) (trace w))
    /\ in_order (args env) (Z.rem r1 256) (Z.rem r2 256) (Z.rem r3 256) = (a, b, c)
    /\ r1 = fst (rand_step env (clock w mod 2 ^ 32))
    /\ r2 = fst (rand_step env (snd (rand_step env (clock w mod 2 ^ 32))))
    /\ r3 = fst (rand_step env
                   (snd (rand_step env (snd (rand_step env (clock w mod 2 ^ 32))))))
    /\ s = snd (rand_step env
                  (snd (rand_step env (snd (rand_step env (clock w mod 2 ^ 32)))))).
Proof.
  unfold generate_mac, bind, time, srand, rand, ret. cbn [fs prng clock trace].
  destruct (rand_step env (clock w mod 2 ^ 32)) as [v1 s1]. cbn [fs prng clock trace fst snd].
  destruct (rand_step env s1) as [v2 s2]. cbn [fs prng clock trace fst snd].
  destruct (rand_step env s2) as [v3 s3]. cbn [fs prng clock trace fst snd].
  destruct (in_order (args env) (Z.rem v1 256) (Z.rem v2 256) (Z.rem v3 256))
    as [[a b] c] eqn:E.
  exists v1, v2, v3, s3, a, b, c. done.
Qed.

Lemma generate_mac_inv env size w mac w1 :
  generate_mac env size w = (mac, w1) -> trace w1 = trace w.
Proof.
  destruct (generate_mac_eq env size w) as (r1 & r2 & r3 & s & a & b & c & -> & _).
  by intros [= <- <-].
Qed.

Lemma ensure_distro_inv env distro size w res w1 :
  ensure_distro env distro size w = (res, w1) ->
  exists ev, trace w1 = ev ++ trace w
    /\ ((res = None /\ ev = [Stdout (error_line "Unknown distro")])
        \/ (is_Some res /\ quiet ev)
        \/ (res = None /\ exists p body,
              ev = Remove p :: Stdout (error_line "Failed to download distro") :: body
              /\ quiet body)).
Proof.
  unfold ensure_distro. intros H.
  destruct (get_distro_url distro) as [url|].
  2: { bind_step H a w2 H1. prim H1. prim H. eexists [_]. split; [reflexivity |]. by left. }
  bind_step H e w2 H1. prim H1.
  destruct (match fs w !! _ with Some (File _) => true | _ => false end).
  { prim H. exists []. split; [done |]. right; left. split; [by eexists | constructor]. }
  bind_step H a w3 H1. prim H1.
  bind_step H st1 w4 H1. apply mkdir_inv in H1 as (f & -> & _).
  bind_step H st w5 H1. apply system_inv in H1 as (-> & _). cbn [fs prng clock trace] in *.
  destruct (Z.eqb_spec st 0) as [E0|Ne]; cbn [negb] in H.
  - bind_step H a1 w6 H1. prim H1. prim H. cbn [trace].
    eexists [_; _; _; _]. split; [reflexivity |]. right; left.
    split; [by eexists |]. repeat (constructor; [reflexivity |]). constructor.
  - bind_step H a1 w6 H1. prim H1.
    bind_step H a2 w7 H1. apply remove_inv in H1 as (f' & -> & _).
    prim H. cbn [trace].
    eexists [_; _; _; _; _]. split; [reflexivity |]. right; right.
    split; [done |]. eexists _, [_; _; _]. split; [reflexivity |].
    repeat (constructor; [reflexivity |]). constructor.
Qed.

Lemma create_cloud_init_inv env vm_name username password vm_dir w r w1 :
  create_cloud_init env vm_name username password vm_dir w = (r, w1) ->
  exists ev, trace w1 = ev ++ trace w
    /\ ((r = 1 /\ ev = [Stdout (error_line "Failed to hash password"); Popen (hash_cmd password)]
         /\ (fs w1 = fs w \/ fs w1 = pipe_fs env (hash_cmd password) (fs w)))
        \/ (r = 1 /\ exists msg body,
              In msg fatal_msgs /\ ev = Stdout (error_line msg) :: body /\ quiet body)
        \/ (r = 0 /\ quiet ev)).
Proof.
  unfold create_cloud_init, hash_password. intros H.
  bind_step H h w2 H1. bind_step H1 fp w3 H2. apply popen_inv in H2 as (_ & ->).
  assert (Hh : trace w2 = Popen (hash_cmd password) :: trace w
               /\ (fs w2 = fs w \/ fs w2 = pipe_fs env (hash_cmd password) (fs w))).
  { destruct fp as [out|]; [destruct (fgets _ _) as [[line rest]|] |]; prim H1;
      (split; [done |]); cbn [fs]; tauto. }
  destruct Hh as [Hh Hfs].
  destruct h as [hashed|].
  2: { bind_step H a w4 H3. prim H3. prim H. cbn [trace fs]. rewrite Hh.
       eexists [_; _]. split; [reflexivity |]. by left. }
  bind_step H ud w4 H3. apply fopen_w_inv in H3 as (_ & f & -> & _).
  destruct ud; cbn [negb] in H.
  2: { bind_step H a w5 H3. prim H3. prim H. cbn [trace]. rewrite Hh.
       eexists [_; _; _]. split; [reflexivity |]. right; left. split; [done |].
       eexists _, [_; _]. split; [| split; [reflexivity |]].
       - cbn. tauto.
       - repeat (constructor; [reflexivity |]). constructor. }
  bind_step H a w5 H3. apply fprintf_all_inv in H3 as (_ & _ & Ht5). cbn [trace] in Ht5.
  bind_step H md w6 H3. apply fopen_w_inv in H3 as (_ & f' & -> & _).
  destruct md; cbn [negb] in H.
  2: { bind_step H a1 w7 H3. prim H3. prim H. cbn [trace]. rewrite Ht5, Hh.
       eexists [_; _; _; _]. split; [reflexivity |]. right; left. split; [done |].
       eexists _, [_; _; _]. split; [| split; [reflexivity |]].
       - cbn. tauto.
       - repeat (constructor; [reflexivity |]). constructor. }
  bind_step H now w7 H3. prim H3.
  bind_step H a1 w8 H3. apply fprintf_all_inv in H3 as (_ & _ & Ht8). cbn [trace] in Ht8.
  prim H. rewrite Ht8, Ht5, Hh.
  eexists [_; _; _]. split; [reflexivity |]. right; right. split; [done |].
  repeat (constructor; [reflexivity |]). constructor.
Qed.

Ltac quiet_tac :=
  repeat first
    [ apply Forall_nil_2
    | apply Forall_cons_2; [reflexivity |]
    | apply Forall_app_2; [assumption |]
    | assumption ].

Lemma create_vm_inv env vm_name distro username password w r w1 :
  create_vm env vm_name distro username password w = (r, w1) ->
  exists ev, trace w1 = ev ++ trace w /\ create_outcome env vm_name password r ev (fs w1).
Proof.
  unfold create_vm. fold (vm_dir_of env vm_name). intros H.
  bind_step H a w2 H1. prim H1.
  bind_step H ex w3 H1. prim H1. cbn [fs] in H.
  destruct (match fs w !! _ with Some Dir => true | _ => false end).
  { bind_step H a1 w4 H1. prim H1. prim H. cbn [trace].
    eexists [_; _]. split; [reflexivity |].
    eapply co_fatal; [| done | reflexivity | quiet_tac]. cbn; tauto. }
  bind_step H st0 w4 H1. apply mkdir_inv in H1 as (f0 & -> & _).
  bind_step H found w5 H1. apply ensure_distro_inv in H1 as (ev1 & Ht5 & Hd).
  cbn [trace] in Ht5.
  destruct Hd as [[-> ->] | [[[dp ->] Hq1] | (-> & p & body & -> & Hq1)]].
  { prim H. rewrite Ht5. eexists (_ :: _ :: _ :: nil). split; [reflexivity |].
    eapply co_fatal; [| done | reflexivity | quiet_tac]. cbn; tauto. }
  2: { prim H. rewrite Ht5. eexists (_ :: _ :: body ++ [_; _]). split.
       { cbn. rewrite <- app_assoc. reflexivity. }
       eapply co_download; [done | reflexivity | quiet_tac]. }
  bind_step H a1 w6 H1. prim H1.
  bind_step H copied w7 H1. unfold copy_file in H1. apply system_inv in H1 as (-> & _).
  cbn [fs prng clock trace] in *.
  destruct (Z.eqb_spec copied 0) as [E0|Ne]; cbn [negb] in H.
  2: { bind_step H a2 w8 H1. prim H1. prim H. cbn [trace]. rewrite Ht5.
       eexists (_ :: _ :: _ :: ev1 ++ [_; _]). split.
       { cbn. rewrite <- app_assoc. reflexivity. }
       eapply co_fatal; [| done | reflexivity | quiet_tac]. cbn; tauto. }
  bind_step H resized w8 H1. apply system_inv in H1 as (-> & _).
  cbn [fs prng clock trace] in *.
  destruct (Z.eqb_spec resized 0) as [E1|Ne]; cbn [negb] in H.
  2: { bind_step H a2 w9 H1. prim H1. prim H. cbn [trace]. rewrite Ht5.
       eexists (_ :: _ :: _ :: _ :: ev1 ++ [_; _]). split.
       { cbn. rewrite <- app_assoc. reflexivity. }
       eapply co_fatal; [| done | reflexivity | quiet_tac]. cbn; tauto. }
  bind_step H vm_mac w9 H1. apply generate_mac_inv in H1. rename H1 into Ht9. cbn [trace] in Ht9.
  bind_step H efi w10 H1. apply system_inv in H1 as (-> & _).
  bind_step H a2 w11 H1. prim H1. cbn [fs prng clock trace] in *.
  bind_step H ci w12 H1. apply create_cloud_init_inv in H1 as (ev2 & Ht12 & Hc).
  cbn [trace] in Ht12. rewrite Ht9, Ht5 in Ht12.
  destruct Hc as [(-> & -> & Hfs12) | [(-> & msg & body & Hin & -> & Hq2) | [-> Hq2]]].
  { prim H. rewrite Ht12.
    eexists (_ :: _ :: _ :: _ :: _ :: _ :: _ :: ev1 ++ [_; _]). split.
    { cbn. rewrite <- app_assoc. reflexivity. }
    eapply co_hash; [done | reflexivity | quiet_tac |].
    cbn [fs] in Hfs12. eexists. destruct Hfs12 as [-> | ->]; [left | right]; reflexivity. }
  { prim H. rewrite Ht12.
    eexists (_ :: body ++ _ :: _ :: _ :: _ :: _ :: ev1 ++ [_; _]). split.
    { cbn. rewrite <- app_assoc. cbn. rewrite <- app_assoc. reflexivity. }
    eapply co_fatal; [exact Hin | done | reflexivity | quiet_tac]. }
  cbn [Z.eqb negb] in H. fold (temp_dir_of env) in H.
  bind_step H st1 w13 H1. apply mkdir_inv in H1 as (f1 & -> & _).
  bind_step H c1 w14 H1. unfold copy_file in H1. apply system_inv in H1 as (-> & _).
  bind_step H c2 w15 H1. unfold copy_file in H1. apply system_inv in H1 as (-> & _).
  bind_step H iso w16 H1. apply system_inv in H1 as (-> & _).
  cbn [fs prng clock trace] in *. rewrite Ht12 in H.
  destruct (Z.eqb_spec iso 0) as [E2|Ne]; cbn [negb] in H.
  2: { bind_step H a3 w17 H1. prim H1.
       bind_step H st' w18 H1. apply system_inv in H1 as (-> & _).
       prim H. cbn [trace].
       eexists (_ :: _ :: _ :: _ :: _ :: _ :: ev2 ++ _ :: _ :: _ :: _ :: _ :: ev1 ++ [_; _]). split.
       { cbn. rewrite <- app_assoc. cbn. rewrite <- app_assoc. reflexivity. }
       eapply co_iso; [exact Ne | done | reflexivity | quiet_tac]. }
  bind_step H st2 w17 H1. apply system_inv in H1 as (-> & _).
  bind_step H vi w18 H1. apply fopen_w_inv in H1 as (Hvi & f2 & -> & _).
  cbn [fs prng clock trace] in *.
  bind_step H a3 w19 H1.
  assert (Ht19 : trace w19 = FopenW (vm_info_path env vm_name) vi
                   :: System (snprintf MAX_PATH (rm_temp_fmt (temp_dir_of env))) st2
                   :: System (iso_cmd env vm_name) iso
                   :: System (snprintf (MAX_PATH * 3)
                                (cp_fmt (snprintf MAX_PATH (vm_dir_of env vm_name +:+ "/meta-data"))
                                   (snprintf MAX_PATH (temp_dir_of env +:+ "/meta-data")))) c2
                   :: System (snprintf (MAX_PATH * 3)
                                (cp_fmt (snprintf MAX_PATH (vm_dir_of env vm_name +:+ "/user-data"))
                                   (snprintf MAX_PATH (temp_dir_of env +:+ "/user-data")))) c1
                   :: Mkdir (temp_dir_of env) st1
                   :: ev2 ++ Stdout (info_line "Configuring cloud-init...")
                   :: System (efi_cmd env vm_name) efi
                   :: System (snprintf (MAX_PATH * 2)
                                (resize_fmt (snprintf MAX_PATH (vm_dir_of env vm_name +:+ "/disk.qcow2")))) resized
                   :: System (snprintf (MAX_PATH * 3)
                                (cp_fmt dp (snprintf MAX_PATH (vm_dir_of env vm_name +:+ "/disk.qcow2")))) copied
                   :: Stdout (info_line "Setting up VM disk...")
                   :: ev1 ++ [Mkdir (vm_dir_of env vm_name) st0; Stdout (info_line "Creating VM...")]
                        ++ trace w).
  { destruct vi.
    - bind_step H1 now w20 H2. prim H2. apply fprintf_all_inv in H1 as (_ & _ & ->).
      reflexivity.
    - prim H1. reflexivity. }
  clear H1. bind_step H a4 w20 H1. prim H1.
  apply start_vm_inv in H as (post & Ht & Hs & Hfs). cbn [trace] in Ht. rewrite Ht19 in Ht.
  rewrite Ht.
  eexists (post ++ _ :: _ :: _ :: _ :: _ :: _ :: _ :: ev2 ++ _ :: _ :: _ :: _ :: _ :: ev1 ++ [_; _]).
  split.
  { rewrite <- app_assoc. cbn. rewrite <- app_assoc. cbn. rewrite <- app_assoc. reflexivity. }
  eapply co_launch; [reflexivity | quiet_tac | eexists; exact Hvi | exact Hs | exact Hfs].
Qed.

(** *** Runs, stage by stage *)

Lemma fgets_big n stream :
  fgets (S (S n)) stream
  = match stream with
    | EmptyString => None
    | _ => Some (fgets_go (S n) stream)
    end.
Proof. reflexivity. Qed.






(** ** The claims *)

(** *** C5 and C1: the name collision and the unknown distro *)

Lemma get_distro_url_unknown distro :
  distro <> "debian12"%string -> distro <> "ubuntu22"%string -> distro <> "ubuntu24"%string ->
  get_distro_url distro = None.
Proof.
  intros H1 H2 H3. unfold get_distro_url.
  destruct (String.eqb_spec distro "debian12"); [done |].
  destruct (String.eqb_spec distro "ubuntu22"); [done |].
  destruct (String.eqb_spec distro "ubuntu24"); done.
Qed.

(** what [create_vm] does when the directory is there *)
Lemma create_vm_dir_exists env vm_name distro username password w :
  fs w !! vm_dir_of env vm_name = Some Dir ->
  create_vm env vm_name distro username password w
  = (1, World (fs w) (prng w) (clock w)
          (Stdout (error_line "VM already exists")
             :: Stdout (info_line "Creating VM...") :: trace w)).
Proof.
  intros H. unfold create_vm. fold (vm_dir_of env vm_name).
  unfold bind, log_info, log_error, printf, emit, dir_exists, ret.
  cbn [fs prng clock trace]. rewrite H. reflexivity.
Qed.

(** C5.  When the directory of the VM name exists, [create_vm] prints
    its two lines, returns 1 and does nothing else: the file system it
    leaves is the one it found, so nothing is written, created or deleted
    in the existing directory. *)
Theorem create_vm_name_collision env vm_name distro username password w :
  fs w !! vm_dir_of env vm_name = Some Dir ->
  create_vm env vm_name distro username password w
  = (1, World (fs w) (prng w) (clock w)
          (Stdout (error_line "VM already exists")
             :: Stdout (info_line "Creating VM...") :: trace w)).
Proof. apply create_vm_dir_exists. Qed.

Lemma create_vm_name_collision_witness :
  fs Sim.taken !! vm_dir_of Sim.fair "demo1" = Some Dir
  /\ create_vm Sim.fair "demo1" "debian12" "alice" "secret123" Sim.taken
     = (1, World (fs Sim.taken) (prng Sim.taken) (clock Sim.taken)
             (Stdout (error_line "VM already exists")
                :: Stdout (info_line "Creating VM...") :: trace Sim.taken)).
Proof.
  split; [vm_compute; reflexivity |].
  apply create_vm_name_collision. vm_compute. reflexivity.
Defined.

(** C1, as stated, fails: on a machine without a VM called demo1, asking
    for the distro [bogus] creates the directory [vms/demo1] and then
    reports the unknown distro. *)
Lemma unknown_distro_leaves_vm_dir :
  get_distro_url "bogus" = None
  /\ fs Sim.fresh !! "/home/u/.v4m/vms/demo1"%string = None
  /\ fst (create_vm Sim.fair "demo1" "bogus" "alice" "secret123" Sim.fresh) = 1
  /\ fs (snd (create_vm Sim.fair "demo1" "bogus" "alice" "secret123" Sim.fresh))
       !! "/home/u/.v4m/vms/demo1"%string = Some Dir
  /\ trace (snd (create_vm Sim.fair "demo1" "bogus" "alice" "secret123" Sim.fresh))
     = [Stdout (error_line "Unknown distro");
        Mkdir "/home/u/.v4m/vms/demo1" 0;
        Stdout (info_line "Creating VM...")].
Proof. vm_compute. repeat split; reflexivity. Qed.

(** C1, amended.  For a distro that is not in the catalog,
    [ensure_distro] reports the unknown distro, returns 1 and leaves the
    file system as it is.  [create_vm] returns 1 as well, but it resolves
    the distro only after [mkdir] of the VM directory: when no VM of that
    name exists, the run is the [mkdir] followed by the report, and the
    file system is left either unchanged (the [mkdir] failed) or with the
    one new, empty directory [vms/<name>]. *)
Theorem unknown_distro_fails env vm_name distro username password w :
  distro <> "debian12"%string -> distro <> "ubuntu22"%string -> distro <> "ubuntu24"%string ->
  ensure_distro env distro MAX_PATH w
  = (None, World (fs w) (prng w) (clock w)
             (Stdout (error_line "Unknown distro") :: trace w))
  /\ exists w',
       create_vm env vm_name distro username password w = (1, w')
       /\ ((fs w !! vm_dir_of env vm_name = Some Dir /\ fs w' = fs w)
           \/ (fs w !! vm_dir_of env vm_name <> Some Dir
               /\ exists st,
                    trace w' = Stdout (error_line "Unknown distro")
                                 :: Mkdir (vm_dir_of env vm_name) st
                                 :: Stdout (info_line "Creating VM...") :: trace w
                    /\ ((st = -1 /\ fs w' = fs w)
                        \/ (st = 0 /\ fs w !! vm_dir_of env vm_name = None
                            /\ fs w' = <[vm_dir_of env vm_name := Dir]> (fs w))))).
Proof.
  intros H1 H2 H3. pose proof (get_distro_url_unknown distro H1 H2 H3) as Hu.
  assert (He : forall w0, ensure_distro env distro MAX_PATH w0
                          = (None, World (fs w0) (prng w0) (clock w0)
                                     (Stdout (error_line "Unknown distro") :: trace w0))).
  { intros w0. unfold ensure_distro. rewrite Hu. reflexivity. }
  split; [apply He |].
  destruct (decide (fs w !! vm_dir_of env vm_name = Some Dir)) as [Hd|Hd].
  { eexists. split; [apply create_vm_dir_exists; exact Hd |]. left. done. }
  destruct (create_vm env vm_name distro username password w) as [r w'] eqn:H.
  unfold create_vm in H. fold (vm_dir_of env vm_name) in H.
  bind_step H a w2 E1. prim E1.
  bind_step H ex w3 E1. prim E1. cbn [fs] in H.
  destruct (fs w !! vm_dir_of env vm_name) as [[c|]|] eqn:E; [| done |].
  all: bind_step H st w4 E1; apply mkdir_inv in E1 as (f & -> & Hf);
    bind_step H found w5 E1; rewrite He in E1; injection E1 as <- <-;
    prim H; exists (World f (prng w) (clock w)
                      (Stdout (error_line "Unknown distro")
                         :: Mkdir (vm_dir_of env vm_name) st
                         :: Stdout (info_line "Creating VM...") :: trace w));
    (split; [reflexivity |]); right; (split; [done |]); exists st;
    (split; [reflexivity |]); cbn [fs trace] in *; rewrite ?E in Hf; exact Hf.
Qed.

Lemma unknown_distro_fails_witness :
  ensure_distro Sim.fair "bogus" MAX_PATH Sim.fresh
  = (None, World (fs Sim.fresh) (prng Sim.fresh) (clock Sim.fresh)
             (Stdout (error_line "Unknown distro") :: trace Sim.fresh))
  /\ exists w',
       create_vm Sim.fair "demo1" "bogus" "alice" "secret123" Sim.fresh = (1, w')
       /\ ((fs Sim.fresh !! vm_dir_of Sim.fair "demo1" = Some Dir /\ fs w' = fs Sim.fresh)
           \/ (fs Sim.fresh !! vm_dir_of Sim.fair "demo1" <> Some Dir
               /\ exists st,
                    trace w' = Stdout (error_line "Unknown distro")
                                 :: Mkdir (vm_dir_of Sim.fair "demo1") st
                                 :: Stdout (info_line "Creating VM...") :: trace Sim.fresh
                    /\ ((st = -1 /\ fs w' = fs Sim.fresh)
                        \/ (st = 0 /\ fs Sim.fresh !! vm_dir_of Sim.fair "demo1" = None
                            /\ fs w' = <[vm_dir_of Sim.fair "demo1" := Dir]> (fs Sim.fresh))))).
Proof.
  apply (unknown_distro_fails Sim.fair "demo1" "bogus" "alice" "secret123" Sim.fresh);
    discriminate.
Defined.

(** *** C2: what is left after a failure *)


Lemma is_removal_commands env vm_name distro url vm_mac src dest st :
  is_removal (System (efi_cmd env vm_name) st) = false
  /\ is_removal (System (resize_cmd env vm_name) st) = false
  /\ is_removal (System (copy_cmd src dest) st) = false
  /\ is_removal (System (download_cmd env distro url) st) = false
  /\ is_removal (System (iso_cmd env vm_name) st) = false
  /\ is_removal (System (qemu_cmd vm_mac (vm_dir_of env vm_name)) st) = false.
Proof. repeat split; reflexivity. Qed.






(** The command line that starts the hypervisor ends in [&]: the shell
    puts the hypervisor into the background and exits with 0 whether or
    not the hypervisor comes up, so the status that [start_vm] checks
    is that of the shell.  A hypervisor that fails to start is not
    among the failures above. *)
Example qemu_runs_in_background :
  let cmd := qemu_cmd "52:54:00:39:7e:df" "/home/u/.v4m/vms/demo1" in
  substring (String.length cmd - 7) 7 cmd = " 2>&1 &"%string.
Proof. vm_compute. reflexivity. Qed.

(** the three failures of C2 on the reference machine: after a failed
    hashing and after a failed start the disk of the VM is still there *)
Example hash_failure_keeps_vm_dir :
  let run := create_vm Sim.hash_fails "demo1" "debian12" "alice" "secret123" Sim.fresh in
  fst run = 1
  /\ hd_error (trace (snd run)) = Some (Stdout (error_line "Failed to hash password"))
  /\ fs (snd run) !! "/home/u/.v4m/vms/demo1"%string = Some Dir
  /\ is_Some (fs (snd run) !! "/home/u/.v4m/vms/demo1/disk.qcow2"%string).
Proof. vm_compute. repeat split. by eexists. Qed.

Example start_failure_keeps_vm_dir :
  let run := create_vm Sim.qemu_fails "demo1" "debian12" "alice" "secret123" Sim.fresh in
  fst run = 1
  /\ hd_error (trace (snd run)) = Some (Stdout (error_line "Failed to start QEMU"))
  /\ fs (snd run) !! "/home/u/.v4m/vms/demo1"%string = Some Dir
  /\ is_Some (fs (snd run) !! "/home/u/.v4m/vms/demo1/disk.qcow2"%string)
  /\ is_Some (fs (snd run) !! "/home/u/.v4m/vms/demo1/cloud-init.iso"%string).
Proof. vm_compute. repeat split; by eexists. Qed.

(** *** C3: the firmware variable store *)

(** C3.  The exit status of the [dd] that allocates the firmware
    variable store is dropped: on a machine where that command fails,
    the run goes on to the guest configuration, launches the hypervisor
    and returns 0, with no [efi-vars.fd] in the VM directory. *)
Theorem efi_failure_is_ignored :
  let run := create_vm Sim.efi_fails "demo1" "debian12" "alice" "secret123" Sim.fresh in
  fst run = 0
  /\ In (System (efi_cmd Sim.efi_fails "demo1") 1) (trace (snd run))
  /\ fs (snd run) !! "/home/u/.v4m/vms/demo1/efi-vars.fd"%string = None
  /\ In (Stdout (info_line "Configuring cloud-init...")) (trace (snd run))
  /\ is_Some (fs (snd run) !! "/home/u/.v4m/vms/demo1/user-data"%string)
  /\ In (System (qemu_cmd "52:54:00:39:7e:df" (vm_dir_of Sim.efi_fails "demo1")) 0)
       (trace (snd run))
  /\ forallb (fun e => negb (is_error e)) (trace (snd run)) = true.
Proof. vm_compute. intuition. by eexists. Qed.

(** *** C8: the metadata record *)






Example vm_info_failure_run :
  In (Stdout created_line)
    (trace (snd (create_vm Sim.record_fails "demo1" "debian12" "alice" "secret123" Sim.fresh))).
Proof. vm_compute. tauto. Qed.

(** *** Strings *)

Lemma append_assoc (a b c : string) : (a +:+ b) +:+ c = a +:+ (b +:+ c).
Proof.
  induction a as [|x a IH]; [reflexivity |].
  change (String x ((a +:+ b) +:+ c) = String x (a +:+ (b +:+ c))). by rewrite IH.
Qed.

Lemma length_append (a b : string) :
  String.length (a +:+ b) = (String.length a + String.length b)%nat.
Proof.
  induction a as [|x a IH]; [reflexivity |].
  change (S (String.length (a +:+ b)) = S (String.length a + String.length b)). by rewrite IH.
Qed.

Lemma substring_all (n : nat) (s : string) :
  (String.length s <= n)%nat -> substring 0 n s = s.
Proof.
  revert n. induction s as [|x s IH]; intros n H.
  - destruct n; reflexivity.
  - destruct n as [|n]; [cbn in H; lia |].
    cbn [substring]. rewrite IH; [reflexivity | cbn in H; lia].
Qed.

(** *** C4: the image cache *)

Lemma downloads_cons_ok cmd tr : downloads cmd (System cmd 0 :: tr) = S (downloads cmd tr).
Proof. unfold downloads. cbn. rewrite String.eqb_refl. reflexivity. Qed.

Lemma downloads_cons_ko cmd st tr : st <> 0 -> downloads cmd (System cmd st :: tr) = downloads cmd tr.
Proof.
  intros H. unfold downloads. cbn. rewrite String.eqb_refl.
  apply Z.eqb_neq in H. rewrite H. reflexivity.
Qed.

Lemma downloads_stdout cmd s tr : downloads cmd (Stdout s :: tr) = downloads cmd tr.
Proof. reflexivity. Qed.

Lemma downloads_mkdir cmd p st tr : downloads cmd (Mkdir p st :: tr) = downloads cmd tr.
Proof. reflexivity. Qed.

Lemma downloads_remove cmd p tr : downloads cmd (Remove p :: tr) = downloads cmd tr.
Proof. reflexivity. Qed.

(** the three ways a call of [ensure_distro] for a catalogued distro
    goes: the image is there; it is fetched; the fetch fails *)
Lemma ensure_distro_known env distro url w :
  get_distro_url distro = Some url ->
  ((exists c, fs w !! cache_path env distro url = Some (File c))
   /\ ensure_distro env distro MAX_PATH w = (Some (cache_path env distro url), w))
  \/ ((forall c, fs w !! cache_path env distro url <> Some (File c))
      /\ exists w' f,
           ensure_distro env distro MAX_PATH w = (Some (cache_path env distro url), w')
           /\ fst (sh env (download_cmd env distro url) f) = 0
           /\ fs w' = snd (sh env (download_cmd env distro url) f)
           /\ downloads (download_cmd env distro url) (trace w')
              = S (downloads (download_cmd env distro url) (trace w)))
  \/ ((forall c, fs w !! cache_path env distro url <> Some (File c))
      /\ exists w',
           ensure_distro env distro MAX_PATH w = (None, w')
           /\ (forall c, fs w' !! cache_path env distro url <> Some (File c))
           /\ downloads (download_cmd env distro url) (trace w')
              = downloads (download_cmd env distro url) (trace w)).
Proof.
  intros Hu.
  destruct (ensure_distro env distro MAX_PATH w) as [res w'] eqn:H.
  unfold ensure_distro in H. rewrite Hu in H.
  fold (basename url) in H. fold (cache_path env distro url) in H.
  fold (download_cmd env distro url) in H.
  bind_step H e w2 H1. prim H1.
  destruct (fs w !! cache_path env distro url) as [[c|]|] eqn:E.
  { prim H. left. split; [by eexists | done]. }
  all: right.
  all: bind_step H a w3 H1; prim H1.
  all: bind_step H st1 w4 H1; apply mkdir_inv in H1 as (f & -> & _).
  all: bind_step H st w5 H1; apply system_inv in H1 as (-> & Est).
  all: cbn [fs prng clock trace] in *.
  all: destruct (Z.eqb_spec st 0) as [E0|Ne]; cbn [negb] in H.
  1,3: bind_step H a1 w6 H1; prim H1; prim H; left; (split; [intros c0; discriminate |]);
    eexists _, f; (split; [reflexivity |]); cbn [fs trace];
    (split; [congruence |]); (split; [reflexivity |]);
    rewrite E0, downloads_stdout, downloads_cons_ok, downloads_mkdir, downloads_stdout;
    reflexivity.
  all: bind_step H a1 w6 H1; prim H1;
    bind_step H a2 w7 H1; apply remove_inv in H1 as (f' & -> & Hf');
    prim H; right; (split; [intros c0; discriminate |]);
    eexists; (split; [reflexivity |]); cbn [fs trace];
    (split; [exact Hf' |]);
    rewrite downloads_remove, downloads_stdout, downloads_cons_ko by exact Ne;
    rewrite downloads_mkdir, downloads_stdout; reflexivity.
Qed.

Lemma cache_path_plain env distro url :
  get_distro_url distro = Some url ->
  (String.length (HOME env) <= 900)%nat ->
  cache_path env distro url
  = HOME env +:+ "/.v4m" +:+ "/distros/" +:+ distro +:+ "/" +:+ basename url.
Proof.
  intros Hu Hlen.
  assert (Hb : (String.length distro <= 8 /\ String.length (basename url) <= 50)%nat).
  { revert Hu. unfold get_distro_url.
    destruct (String.eqb_spec distro "debian12") as [-> |];
      [intros [= <-]; vm_compute; lia |].
    destruct (String.eqb_spec distro "ubuntu22") as [-> |];
      [intros [= <-]; vm_compute; lia |].
    destruct (String.eqb_spec distro "ubuntu24") as [-> |];
      [intros [= <-]; vm_compute; lia | discriminate]. }
  destruct Hb as [Hd Hb]. unfold cache_path, snprintf, MAX_PATH.
  rewrite (substring_all _ (HOME env +:+ "/.v4m"))
    by (rewrite length_append; change (String.length "/.v4m") with 5%nat; lia).
  rewrite (substring_all _ ((HOME env +:+ "/.v4m") +:+ "/distros/" +:+ distro))
    by (rewrite !length_append; change (String.length "/.v4m") with 5%nat;
        change (String.length "/distros/") with 9%nat; lia).
  rewrite substring_all
    by (rewrite !length_append; change (String.length "/.v4m") with 5%nat;
        change (String.length "/distros/") with 9%nat;
        change (String.length "/") with 1%nat; lia).
  by rewrite !append_assoc.
Qed.

(** C4.  For a catalogued distro whose image is in the cache,
    [ensure_distro] returns the path of the cached file and leaves the
    world as it found it: no message, no directory, no download.  The
    path is [<home>/.v4m/distros/<distro>/<basename of the URL>] (for a
    home directory that leaves room in the buffers).  And when a
    download that exits with 0 leaves the file it was asked for, a
    second call after a successful first one is such a cache hit, and
    two calls in a row complete the download at most once. *)
Theorem ensure_distro_cache_hit env distro url :
  get_distro_url distro = Some url ->
  ((String.length (HOME env) <= 900)%nat ->
   cache_path env distro url
   = HOME env +:+ "/.v4m" +:+ "/distros/" +:+ distro +:+ "/" +:+ basename url)
  /\ (forall w c,
     fs w !! cache_path env distro url = Some (File c) ->
     ensure_distro env distro MAX_PATH w = (Some (cache_path env distro url), w))
  /\ ((forall f,
         fst (sh env (download_cmd env distro url) f) = 0 ->
         exists c,
           snd (sh env (download_cmd env distro url) f) !! cache_path env distro url
           = Some (File c)) ->
      forall w,
        let run1 := ensure_distro env distro MAX_PATH w in
        let run2 := ensure_distro env distro MAX_PATH (snd run1) in
        (is_Some (fst run1) -> run2 = run1)
        /\ (downloads (download_cmd env distro url) (trace (snd run2))
            <= S (downloads (download_cmd env distro url) (trace w)))%nat).
Proof.
  intros Hu. split; [apply cache_path_plain, Hu |]. split.
  - intros w c Hc.
    destruct (ensure_distro_known env distro url w Hu)
      as [[_ H] | [[Hno _] | [Hno _]]]; [exact H | |]; exfalso; exact (Hno c Hc).
  - intros Hcurl w run1 run2. subst run2 run1.
    destruct (ensure_distro_known env distro url w Hu)
      as [[_ H] | [(_ & w1 & f & H & Hst & Hfs & Hd) | (_ & w1 & H & Hnf & Hd)]];
      rewrite H; cbn [fst snd].
    + rewrite H. cbn [snd]. split; [done | lia].
    + destruct (Hcurl f Hst) as [c Hc]. rewrite <- Hfs in Hc.
      destruct (ensure_distro_known env distro url w1 Hu)
        as [[_ H2] | [[Hno _] | [Hno _]]]; [| exfalso; exact (Hno c Hc) ..].
      rewrite H2. cbn [snd]. split; [done | lia].
    + split; [intros [? [=]] |].
      destruct (ensure_distro_known env distro url w1 Hu)
        as [[_ H2] | [(_ & w2 & f2 & H2 & _ & _ & Hd2) | (_ & w2 & H2 & _ & Hd2)]];
        rewrite H2; cbn [snd]; lia.
Qed.

Lemma fair_download_leaves_file f :
  fst (sh Sim.fair (download_cmd Sim.fair "debian12"
         "https://cloud.debian.org/images/cloud/bookworm/latest/debian-12-generic-arm64.qcow2") f) = 0 ->
  exists c,
    snd (sh Sim.fair (download_cmd Sim.fair "debian12"
           "https://cloud.debian.org/images/cloud/bookworm/latest/debian-12-generic-arm64.qcow2") f)
      !! cache_path Sim.fair "debian12"
           "https://cloud.debian.org/images/cloud/bookworm/latest/debian-12-generic-arm64.qcow2"
    = Some (File c).
Proof.
  set (cmd := download_cmd _ _ _). vm_compute in cmd. subst cmd.
  set (p := cache_path _ _ _). vm_compute in p. subst p.
  unfold Sim.fair, Sim.env, sh. change (Sim.never _) with false. cbv iota.
  unfold Sim.exec.
  set (l := Sim.split_dq _ _). vm_compute in l. subst l. cbv iota beta.
  set (b := String.eqb _ _). vm_compute in b. subst b. cbv iota.
  set (b := String.eqb _ _). vm_compute in b. subst b. cbv iota.
  unfold Sim.create.
  destruct (_ && _); cbn [fst snd]; [| discriminate].
  intros _. eexists. apply lookup_insert_eq.
Qed.

Lemma ensure_distro_cache_hit_witness :
  get_distro_url "debian12"
  = Some "https://cloud.debian.org/images/cloud/bookworm/latest/debian-12-generic-arm64.qcow2"%string
  /\ ensure_distro Sim.fair "debian12" MAX_PATH Sim.cached
     = (Some "/home/u/.v4m/distros/debian12/debian-12-generic-arm64.qcow2"%string, Sim.cached)
  /\ (let run1 := ensure_distro Sim.fair "debian12" MAX_PATH Sim.fresh in
      let run2 := ensure_distro Sim.fair "debian12" MAX_PATH (snd run1) in
      (is_Some (fst run1) -> run2 = run1)
      /\ (downloads (download_cmd Sim.fair "debian12"
                       "https://cloud.debian.org/images/cloud/bookworm/latest/debian-12-generic-arm64.qcow2")
            (trace (snd run2))
          <= S (downloads (download_cmd Sim.fair "debian12"
                  "https://cloud.debian.org/images/cloud/bookworm/latest/debian-12-generic-arm64.qcow2")
                  (trace Sim.fresh)))%nat).
Proof.
  destruct (ensure_distro_cache_hit Sim.fair "debian12"
              "https://cloud.debian.org/images/cloud/bookworm/latest/debian-12-generic-arm64.qcow2"
              eq_refl) as (_ & Hhit & Htwice).
  split; [reflexivity |]. split.
  - exact (Hhit Sim.cached "<image>"%string eq_refl).
  - exact (Htwice fair_download_leaves_file Sim.fresh).
Defined.

Example two_calls_one_download :
  let run1 := ensure_distro Sim.fair "debian12" MAX_PATH Sim.fresh in
  let run2 := ensure_distro Sim.fair "debian12" MAX_PATH (snd run1) in
  is_Some (fst run1) /\ trace (snd run2) = trace (snd run1)
  /\ downloads (download_cmd Sim.fair "debian12"
                  "https://cloud.debian.org/images/cloud/bookworm/latest/debian-12-generic-arm64.qcow2")
       (trace (snd run2)) = 1%nat.
Proof. vm_compute. repeat split. by eexists. Qed.

(** *** C6: the user-data document *)

Lemma fprintf_all_content p ls w u w1 c :
  fprintf_all p ls w = (u, w1) ->
  fs w !! p = Some (File c) ->
  fs w1 = <[p := File (c +:+ cat ls)]> (fs w).
Proof.
  revert w c. induction ls as [|l ls IH]; intros w c H Hc.
  - unfold ret in H. injection H as <- <-. cbn [cat].
    replace (c +:+ "") with c.
    + symmetry. by apply insert_id.
    + clear. induction c as [|x c IH]; [reflexivity |].
      change (String x c = String x (c +:+ "")). by rewrite <- IH.
  - cbn [fprintf_all] in H. bind_step H a w2 H1.
    apply fputs_inv in H1 as (_ & _ & _ & Hf). rewrite Hc in Hf.
    erewrite (IH w2 (c +:+ l)); [| exact H | rewrite Hf; apply lookup_insert_eq].
    rewrite Hf, insert_insert_eq. cbn [cat]. by rewrite append_assoc.
Qed.





(** *** C7: generated names *)

Lemma rem_bounds r n : 0 <= r -> 0 < n -> 0 <= Z.rem r n < n.
Proof. intros. apply Z.rem_bound_pos; lia. Qed.

Lemma word_at_In words i :
  0 <= i < Z.of_nat (length words) -> In (word_at words i) words.
Proof. intros H. unfold word_at. apply nth_In. lia. Qed.

Lemma fmt_d_digits k :
  0 <= k < 100 ->
  (k < 10 -> String.length (fmt_d k) = 1%nat) /\ (10 <= k -> String.length (fmt_d k) = 2%nat).
Proof.
  intros H.
  assert (Hall : forallb (fun n => if Z.of_nat n <? 10
                                   then Nat.eqb (String.length (fmt_d (Z.of_nat n))) 1
                                   else Nat.eqb (String.length (fmt_d (Z.of_nat n))) 2)
                   (seq 0 100) = true) by (vm_compute; reflexivity).
  rewrite forallb_forall in Hall. specialize (Hall (Z.to_nat k)).
  rewrite Z2Nat.id in Hall by lia.
  assert (Hin : In (Z.to_nat k) (seq 0 100)) by (apply in_seq; lia).
  specialize (Hall Hin).
  destruct (Z.ltb_spec k 10); apply Nat.eqb_eq in Hall; split; intros; lia || done.
Qed.

Lemma word_lengths :
  Forall (fun a => (String.length a <= 6)%nat) adjectives
  /\ Forall (fun n => (String.length n <= 8)%nat) nouns.
Proof. split; repeat constructor; cbn; lia. Qed.

(** C7, as stated, fails: the number is printed with [%d], and a number
    below ten has one digit. *)
Lemma one_digit_name :
  fst (generate_vm_name Sim.fair MAX_NAME (Sim.at_time 1700000008)) = "bright-host-3"%string
  /\ ~ two_digit_name (fst (generate_vm_name Sim.fair MAX_NAME (Sim.at_time 1700000008))).
Proof.
  assert (E : fst (generate_vm_name Sim.fair MAX_NAME (Sim.at_time 1700000008))
              = "bright-host-3"%string) by (vm_compute; reflexivity).
  split; [exact E |]. rewrite E.
  intros (a & n & d1 & d2 & Ha & Hn & _ & _ & H).
  unfold adjectives in Ha. unfold nouns in Hn. cbn [In] in Ha, Hn.
  repeat (destruct Ha as [<-|Ha]; [| try contradiction]);
    repeat (destruct Hn as [<-|Hn]; [| try contradiction]);
    cbv in H; discriminate H.
Qed.

(** C7, amended.  Each of the two word lists has ten items.  With a
    [rand()] that answers in its range, a generated name is an
    adjective of the first list, a hyphen, a noun of the second, a
    hyphen, and a number from 0 to 99 in decimal without padding: one
    digit below ten, two digits from ten on. *)
Theorem generated_name_format env w :
  prng_ok env ->
  length adjectives = 10%nat /\ length nouns = 10%nat
  /\ exists a n k,
       In a adjectives /\ In n nouns /\ 0 <= k < 100
       /\ fst (generate_vm_name env MAX_NAME w) = a +:+ "-" +:+ n +:+ "-" +:+ fmt_d k
       /\ (k < 10 -> String.length (fmt_d k) = 1%nat)
       /\ (10 <= k -> String.length (fmt_d k) = 2%nat).
Proof.
  intros Hok. split; [reflexivity |]. split; [reflexivity |].
  destruct (generate_vm_name env MAX_NAME w) as [name w'] eqn:H.
  unfold generate_vm_name in H.
  bind_step H t w2 H1. prim H1.
  bind_step H u w3 H1. prim H1.
  bind_step H r1 w4 H1. apply rand_inv in H1 as (E1 & ->).
  bind_step H r2 w5 H1. apply rand_inv in H1 as (E2 & ->).
  bind_step H r3 w6 H1. apply rand_inv in H1 as (E3 & ->).
  prim H. cbn [fst].
  assert (B1 : 0 <= Z.rem r1 10 < 10) by (apply rem_bounds; [rewrite E1; apply Hok | lia]).
  assert (B2 : 0 <= Z.rem r2 10 < 10) by (apply rem_bounds; [rewrite E2; apply Hok | lia]).
  assert (B3 : 0 <= Z.rem r3 100 < 100) by (apply rem_bounds; [rewrite E3; apply Hok | lia]).
  exists (word_at adjectives (Z.rem r1 10)), (word_at nouns (Z.rem r2 10)), (Z.rem r3 100).
  assert (Ha : In (word_at adjectives (Z.rem r1 10)) adjectives) by (apply word_at_In; exact B1).
  assert (Hn : In (word_at nouns (Z.rem r2 10)) nouns) by (apply word_at_In; exact B2).
  destruct (fmt_d_digits _ B3) as [D1 D2].
  split; [exact Ha |]. split; [exact Hn |]. split; [exact B3 |].
  split; [| split; assumption].
  apply substring_all.
  destruct word_lengths as [La Ln].
  apply list_elem_of_In in Ha, Hn.
  apply (proj1 (Forall_forall _ _) La) in Ha. apply (proj1 (Forall_forall _ _) Ln) in Hn.
  rewrite !length_append. change (String.length "-") with 1%nat.
  unfold MAX_NAME. destruct (Z.ltb_spec (Z.rem r3 100) 10); [rewrite D1 | rewrite D2]; lia.
Qed.

Lemma generated_name_format_witness :
  length adjectives = 10%nat /\ length nouns = 10%nat
  /\ exists a n k,
       In a adjectives /\ In n nouns /\ 0 <= k < 100
       /\ fst (generate_vm_name Sim.fair MAX_NAME (Sim.at_time 1700000008))
          = a +:+ "-" +:+ n +:+ "-" +:+ fmt_d k
       /\ (k < 10 -> String.length (fmt_d k) = 1%nat)
       /\ (10 <= k -> String.length (fmt_d k) = 2%nat).
Proof.
  apply (generated_name_format Sim.fair (Sim.at_time 1700000008)).
  intros s. unfold Sim.fair, Sim.env, rand_step, Sim.lcg. cbn [fst]. unfold RAND_MAX.
  pose proof (Z.mod_pos_bound (s * 1103515245 + 12345) (2 ^ 31) eq_refl). lia.
Defined.

(** *** C10: the fallback of generate_password *)

Lemma fill_random_seeded env n w1 w2 :
  prng w1 = prng w2 ->
  fst (fill_random env n w1) = fst (fill_random env n w2)
  /\ prng (snd (fill_random env n w1)) = prng (snd (fill_random env n w2)).
Proof.
  revert w1 w2. induction n as [|n IH]; intros w1 w2 H; [done |].
  cbn [fill_random]. unfold bind, rand. rewrite H.
  destruct (rand_step env (prng w2)) as [v s].
  specialize (IH (World (fs w1) s (clock w1) (trace w1)) (World (fs w2) s (clock w2) (trace w2))
                eq_refl).
  destruct (fill_random env n _) as [r1 u1], (fill_random env n _) as [r2 u2].
  cbn in *. destruct IH as [-> ->]. done.
Qed.

Lemma password_chars_alnum i :
  0 <= i < 62 -> is_alnum (char_at password_chars i) = true.
Proof.
  intros H.
  assert (Hall : forallb (fun n => is_alnum (char_at password_chars (Z.of_nat n))) (seq 0 62)
                 = true) by (vm_compute; reflexivity).
  rewrite forallb_forall in Hall. specialize (Hall (Z.to_nat i)).
  rewrite Z2Nat.id in Hall by lia. apply Hall, in_seq. lia.
Qed.

Lemma fill_random_shape env n w :
  prng_ok env ->
  String.length (fst (fill_random env n w)) = n
  /\ Forall (fun c => is_alnum c = true) (list_ascii_of_string (fst (fill_random env n w))).
Proof.
  intros Hok. revert w. induction n as [|n IH]; intros w; [split; [done | constructor] |].
  cbn [fill_random]. unfold bind, rand.
  pose proof (Hok (prng w)) as Hr.
  destruct (rand_step env (prng w)) as [v s]. cbn [fst] in Hr.
  specialize (IH (World (fs w) s (clock w) (trace w))).
  destruct (fill_random env n _) as [r u]. cbn in *. destruct IH as [IH1 IH2].
  split; [by rewrite IH1 |]. constructor; [| exact IH2].
  apply password_chars_alnum, rem_bounds; lia.
Qed.

(** what [generate_password] returns when [popen] gives NULL *)
Lemma generate_password_fallback env password size w :
  pipe_out env openssl_rand_cmd (fs w) = None ->
  fst (generate_password env password size w)
  = fst (fill_random env 12
           (World (fs w) (clock w mod 2 ^ 32) (clock w) (Popen openssl_rand_cmd :: trace w))).
Proof.
  intros H. destruct (generate_password env password size w) as [r w'] eqn:E.
  unfold generate_password in E.
  bind_step E fp w2 H1. apply popen_inv in H1 as (-> & ->). rewrite H in E.
  bind_step E t w3 H1. prim H1.
  bind_step E u w4 H1. prim H1.
  cbn [fs prng clock trace] in E. rewrite E. reflexivity.
Qed.

(** C10.  In the branch taken when [popen] gives NULL, the password is
    a function of the time that seeds the generator: two calls that read
    the same time return the same password, whatever the generator, the
    buffers and the rest of the two worlds were before; it has twelve
    characters, each a letter or a digit. *)
Theorem fallback_password_deterministic env w1 w2 buf1 buf2 size1 size2 :
  prng_ok env ->
  pipe_out env openssl_rand_cmd (fs w1) = None ->
  pipe_out env openssl_rand_cmd (fs w2) = None ->
  clock w1 = clock w2 ->
  fst (generate_password env buf1 size1 w1) = fst (generate_password env buf2 size2 w2)
  /\ String.length (fst (generate_password env buf1 size1 w1)) = 12%nat
  /\ Forall (fun c => is_alnum c = true)
       (list_ascii_of_string (fst (generate_password env buf1 size1 w1))).
Proof.
  intros Hok H1 H2 Hc.
  rewrite (generate_password_fallback env buf1 size1 w1 H1),
    (generate_password_fallback env buf2 size2 w2 H2).
  split.
  - apply fill_random_seeded. cbn [prng]. by rewrite Hc.
  - apply fill_random_shape, Hok.
Qed.

Lemma fallback_password_deterministic_witness :
  fst (generate_password Sim.rand_fails "" MAX_NAME Sim.fresh)
  = fst (generate_password Sim.rand_fails "" MAX_NAME Sim.cached)
  /\ String.length (fst (generate_password Sim.rand_fails "" MAX_NAME Sim.fresh)) = 12%nat
  /\ Forall (fun c => is_alnum c = true)
       (list_ascii_of_string (fst (generate_password Sim.rand_fails "" MAX_NAME Sim.fresh))).
Proof.
  apply (fallback_password_deterministic Sim.rand_fails Sim.fresh Sim.cached
           "" "" MAX_NAME MAX_NAME).
  - intros s. unfold Sim.rand_fails, Sim.env, rand_step, Sim.lcg. cbn [fst]. unfold RAND_MAX.
    pose proof (Z.mod_pos_bound (s * 1103515245 + 12345) (2 ^ 31) eq_refl). lia.
  - reflexivity.
  - reflexivity.
  - reflexivity.
Defined.

Example fallback_password_value :
  fst (generate_password Sim.rand_fails "" MAX_NAME Sim.fresh) = "f0BSjkrghWB8"%string.
Proof. vm_compute. reflexivity. Qed.

(** *** C9: empty values on the command line *)




Example empty_name_run :
  fst (main Sim.fair ["v4m"; "--name"; ""; "--pass"; ""]%string Sim.fresh) = 0
  /\ In (Mkdir "/home/u/.v4m/vms/swift-node-31" 0)
       (trace (snd (main Sim.fair ["v4m"; "--name"; ""; "--pass"; ""]%string Sim.fresh)))
  /\ In (Popen (hash_cmd "q7Zt2LmX9aBc"))
       (trace (snd (main Sim.fair ["v4m"; "--name"; ""; "--pass"; ""]%string Sim.fresh))).
Proof. vm_compute. intuition. Qed.


(** ** More of the program *)

(** *** Reading lines *)





(** the hashing command is a shell on a line that holds the password:
    what it does to the file system is for the password to say *)
Example hashing_can_remove_files :
  let run := hash_password Sim.intruder Sim.wiping_password MAX_PATH Sim.fresh in
  fst run = Some "$6$Zq1x$mF0b3kq8QeYw2a7dLr5nT9uVh4sJc6pXyG1oKiWzE0tRbN"%string
  /\ fs Sim.fresh !! "/home/u/.v4m/distros"%string = Some Dir
  /\ fs (snd run) !! "/home/u/.v4m/distros"%string = None.
Proof. vm_compute. done. Qed.

(** *** generate_password when the pipe opens *)



Example generate_password_small_buffers :
  fst (generate_password Sim.fair "old" 1 Sim.fresh) = EmptyString
  /\ fst (generate_password Sim.fair "old" 0 Sim.fresh) = "old"%string
  /\ fst (generate_password Sim.fair "old" 2 Sim.fresh) = "q"%string.
Proof. vm_compute. done. Qed.

(** *** generate_mac *)

Lemma fmt_02x_octet v :
  0 <= v < 256 ->
  String.length (fmt_02x v) = 2%nat /\ all_chars is_hex_lower (fmt_02x v) = true.
Proof.
  intros H.
  assert (Hall : forallb (fun n => Nat.eqb (String.length (fmt_02x (Z.of_nat n))) 2
                                   && all_chars is_hex_lower (fmt_02x (Z.of_nat n)))
                   (seq 0 256) = true) by (vm_compute; reflexivity).
  rewrite forallb_forall in Hall. specialize (Hall (Z.to_nat v)).
  rewrite Z2Nat.id in Hall by lia.
  assert (Hin : In (Z.to_nat v) (seq 0 256)) by (apply in_seq; lia).
  apply Hall, andb_true_iff in Hin as [H1 H2]. apply Nat.eqb_eq in H1. done.
Qed.

(** X3.  With a [rand()] that answers in its range, the address made by
    [generate_mac] for the 18-byte buffer of [create_vm] is the prefix
    [52:54:00] and three octets, each of two lowercase hexadecimal
    digits, separated by colons: seventeen bytes, nothing cut. *)
Theorem generate_mac_format env w :
  prng_ok env ->
  exists a b c,
    fst (generate_mac env 18 w)
    = "52:54:00:" +:+ fmt_02x a +:+ ":" +:+ fmt_02x b +:+ ":" +:+ fmt_02x c
    /\ String.length (fst (generate_mac env 18 w)) = 17%nat
    /\ (0 <= a < 256 /\ 0 <= b < 256 /\ 0 <= c < 256)
    /\ (String.length (fmt_02x a) = 2 /\ String.length (fmt_02x b) = 2
        /\ String.length (fmt_02x c) = 2)%nat
    /\ all_chars is_hex_lower (fmt_02x a) = true
    /\ all_chars is_hex_lower (fmt_02x b) = true
    /\ all_chars is_hex_lower (fmt_02x c) = true.
Proof.
  intros Hok.
  destruct (generate_mac_eq env 18 w) as (r1 & r2 & r3 & s & a & b & c & -> & Ho & E1 & E2 & E3 & _).
  cbn [fst].
  assert (B1 : 0 <= Z.rem r1 256 < 256) by (apply rem_bounds; [rewrite E1; apply Hok | lia]).
  assert (B2 : 0 <= Z.rem r2 256 < 256) by (apply rem_bounds; [rewrite E2; apply Hok | lia]).
  assert (B3 : 0 <= Z.rem r3 256 < 256) by (apply rem_bounds; [rewrite E3; apply Hok | lia]).
  assert (Ba : 0 <= a < 256 /\ 0 <= b < 256 /\ 0 <= c < 256).
  { destruct (args env); cbn [in_order] in Ho; injection Ho as <- <- <-; done. }
  destruct Ba as (Ba & Bb & Bc).
  destruct (fmt_02x_octet _ Ba) as [L1 X1], (fmt_02x_octet _ Bb) as [L2 X2],
    (fmt_02x_octet _ Bc) as [L3 X3].
  exists a, b, c.
  assert (Hlen : String.length ("52:54:00:" +:+ fmt_02x a +:+ ":"
                                 +:+ fmt_02x b +:+ ":" +:+ fmt_02x c)
                 = 17%nat).
  { rewrite !length_append, L1, L2, L3. reflexivity. }
  assert (Hs : snprintf 18 ("52:54:00:" +:+ fmt_02x a +:+ ":"
                              +:+ fmt_02x b +:+ ":" +:+ fmt_02x c)
               = "52:54:00:" +:+ fmt_02x a +:+ ":"
                   +:+ fmt_02x b +:+ ":" +:+ fmt_02x c).
  { apply substring_all. rewrite Hlen. cbn. lia. }
  rewrite Hs. repeat split; try done; lia.
Qed.

Lemma generate_mac_format_witness :
  exists a b c,
    fst (generate_mac Sim.fair 18 Sim.fresh)
    = "52:54:00:" +:+ fmt_02x a +:+ ":" +:+ fmt_02x b +:+ ":" +:+ fmt_02x c
    /\ String.length (fst (generate_mac Sim.fair 18 Sim.fresh)) = 17%nat
    /\ (0 <= a < 256 /\ 0 <= b < 256 /\ 0 <= c < 256)
    /\ (String.length (fmt_02x a) = 2 /\ String.length (fmt_02x b) = 2
        /\ String.length (fmt_02x c) = 2)%nat
    /\ all_chars is_hex_lower (fmt_02x a) = true
    /\ all_chars is_hex_lower (fmt_02x b) = true
    /\ all_chars is_hex_lower (fmt_02x c) = true.
Proof.
  apply (generate_mac_format Sim.fair Sim.fresh).
  intros s. unfold Sim.fair, Sim.env, rand_step, Sim.lcg. cbn [fst]. unfold RAND_MAX.
  pose proof (Z.mod_pos_bound (s * 1103515245 + 12345) (2 ^ 31) eq_refl). lia.
Defined.

(** *** generate_vm_name *)

Lemma generate_vm_name_value env w :
  prng_ok env ->
  exists i j k,
    (i < 10 /\ j < 10 /\ k < 100)%nat
    /\ fst (generate_vm_name env MAX_NAME w)
       = snprintf MAX_NAME
           (word_at adjectives (Z.of_nat i) +:+ "-" +:+ word_at nouns (Z.of_nat j)
              +:+ "-" +:+ fmt_d (Z.of_nat k)).
Proof.
  intros Hok. destruct (generate_vm_name env MAX_NAME w) as [name w'] eqn:H.
  unfold generate_vm_name in H.
  bind_step H t w2 H1. prim H1.
  bind_step H u w3 H1. prim H1.
  bind_step H r1 w4 H1. apply rand_inv in H1 as (E1 & ->).
  bind_step H r2 w5 H1. apply rand_inv in H1 as (E2 & ->).
  bind_step H r3 w6 H1. apply rand_inv in H1 as (E3 & ->).
  prim H. cbn [fst].
  assert (B1 : 0 <= Z.rem r1 10 < 10) by (apply rem_bounds; [rewrite E1; apply Hok | lia]).
  assert (B2 : 0 <= Z.rem r2 10 < 10) by (apply rem_bounds; [rewrite E2; apply Hok | lia]).
  assert (B3 : 0 <= Z.rem r3 100 < 100) by (apply rem_bounds; [rewrite E3; apply Hok | lia]).
  exists (Z.to_nat (Z.rem r1 10)), (Z.to_nat (Z.rem r2 10)), (Z.to_nat (Z.rem r3 100)).
  rewrite !Z2Nat.id by lia. split; [lia | reflexivity].
Qed.

(** X4.  With a [rand()] that answers in its range, a generated name is made
    of lowercase letters, digits and hyphens only, and has between nine
    and eighteen bytes: it holds no slash, quote, blank or dot, so it is
    one path component and passes unchanged through the quoted command
    lines, and the buffer of [main] does not cut it. *)
Theorem generated_name_is_safe env w :
  prng_ok env ->
  all_chars is_name_char (fst (generate_vm_name env MAX_NAME w)) = true
  /\ (9 <= String.length (fst (generate_vm_name env MAX_NAME w)) <= 18)%nat.
Proof.
  intros Hok. destruct (generate_vm_name_value env w Hok) as (i & j & k & Hb & ->).
  assert (Hall : forallb (fun i => forallb (fun j => forallb (fun k =>
                   let s := snprintf MAX_NAME
                              (word_at adjectives (Z.of_nat i) +:+ "-"
                                 +:+ word_at nouns (Z.of_nat j) +:+ "-" +:+ fmt_d (Z.of_nat k)) in
                   all_chars is_name_char s
                   && Nat.leb 9 (String.length s) && Nat.leb (String.length s) 18)
                   (seq 0 100)) (seq 0 10)) (seq 0 10) = true)
    by (vm_compute; reflexivity).
  rewrite forallb_forall in Hall. specialize (Hall i). rewrite forallb_forall in Hall.
  assert (Hi : In i (seq 0 10)) by (apply in_seq; lia).
  specialize (Hall Hi j). rewrite forallb_forall in Hall.
  assert (Hj : In j (seq 0 10)) by (apply in_seq; lia).
  specialize (Hall Hj k).
  assert (Hk : In k (seq 0 100)) by (apply in_seq; lia).
  apply Hall in Hk. cbv zeta in Hk.
  apply andb_true_iff in Hk as [Hk H3]. apply andb_true_iff in Hk as [H1 H2].
  apply Nat.leb_le in H2, H3. done.
Qed.

Lemma generated_name_is_safe_witness :
  all_chars is_name_char (fst (generate_vm_name Sim.fair MAX_NAME Sim.fresh)) = true
  /\ (9 <= String.length (fst (generate_vm_name Sim.fair MAX_NAME Sim.fresh)) <= 18)%nat.
Proof.
  apply (generated_name_is_safe Sim.fair Sim.fresh).
  intros s. unfold Sim.fair, Sim.env, rand_step, Sim.lcg. cbn [fst]. unfold RAND_MAX.
  pose proof (Z.mod_pos_bound (s * 1103515245 + 12345) (2 ^ 31) eq_refl). lia.
Defined.

(** *** The command line *)

Lemma parse_args_app_le n pre rest o o' :
  (length pre <= n)%nat ->
  parse_args pre o = Parsed o' ->
  parse_args (pre ++ rest) o = parse_args rest o'.
Proof.
  revert pre o. induction n as [|n IH]; intros pre o Hn H.
  - destruct pre; [| cbn in Hn; lia]. cbn in H. by injection H as <-.
  - destruct pre as [|a [|v pre]].
    + cbn in H. by injection H as <-.
    + cbn in H. destruct (_ || _); discriminate.
    + cbn [parse_args] in H. cbn [app parse_args].
      assert (Hl : (length pre <= n)%nat) by (cbn in Hn; lia).
      destruct (String.eqb a "--name"); [exact (IH _ _ Hl H) |].
      destruct (String.eqb a "--distro"); [exact (IH _ _ Hl H) |].
      destruct (String.eqb a "--user"); [exact (IH _ _ Hl H) |].
      destruct (String.eqb a "--pass"); [exact (IH _ _ Hl H) |].
      destruct (_ || _); discriminate.
Qed.

(** X5.  Parsing goes from left to right and composes: when a beginning of
    the command line parses to some options, the rest is parsed from
    these options.  So the last occurrence of a flag wins, and its value
    is cut to 255 bytes. *)
Theorem parse_args_app pre rest o o' :
  parse_args pre o = Parsed o' ->
  parse_args (pre ++ rest) o = parse_args rest o'
  /\ (forall v,
        parse_args (pre ++ ["--name"; v]%string) o
        = Parsed (Options (substring 0 255 v) (o_distro o') (o_username o') (o_password o'))
        /\ parse_args (pre ++ ["--distro"; v]%string) o
           = Parsed (Options (o_name o') (substring 0 255 v) (o_username o') (o_password o'))
        /\ parse_args (pre ++ ["--user"; v]%string) o
           = Parsed (Options (o_name o') (o_distro o') (substring 0 255 v) (o_password o'))
        /\ parse_args (pre ++ ["--pass"; v]%string) o
           = Parsed (Options (o_name o') (o_distro o') (o_username o') (substring 0 255 v))).
Proof.
  intros H. split; [exact (parse_args_app_le _ pre rest o o' (le_n _) H) |].
  intros v. rewrite !(parse_args_app_le _ pre _ o o' (le_n _) H). done.
Qed.

Lemma parse_args_app_witness :
  parse_args (["--name"; "a"; "--user"; "bob"]%string ++ ["--name"; "b"]%string)
    (Options "" DEFAULT_DISTRO DEFAULT_USER "")
  = parse_args ["--name"; "b"]%string (Options "a" DEFAULT_DISTRO "bob" "")
  /\ (forall v,
        parse_args (["--name"; "a"; "--user"; "bob"]%string ++ ["--name"; v]%string)
          (Options "" DEFAULT_DISTRO DEFAULT_USER "")
        = Parsed (Options (substring 0 255 v) DEFAULT_DISTRO "bob" "")
        /\ parse_args (["--name"; "a"; "--user"; "bob"]%string ++ ["--distro"; v]%string)
             (Options "" DEFAULT_DISTRO DEFAULT_USER "")
           = Parsed (Options "a" (substring 0 255 v) "bob" "")
        /\ parse_args (["--name"; "a"; "--user"; "bob"]%string ++ ["--user"; v]%string)
             (Options "" DEFAULT_DISTRO DEFAULT_USER "")
           = Parsed (Options "a" DEFAULT_DISTRO (substring 0 255 v) "")
        /\ parse_args (["--name"; "a"; "--user"; "bob"]%string ++ ["--pass"; v]%string)
             (Options "" DEFAULT_DISTRO DEFAULT_USER "")
           = Parsed (Options "a" DEFAULT_DISTRO "bob" (substring 0 255 v))).
Proof.
  apply (parse_args_app ["--name"; "a"; "--user"; "bob"]%string ["--name"; "b"]%string
           (Options "" DEFAULT_DISTRO DEFAULT_USER "") (Options "a" DEFAULT_DISTRO "bob" "")).
  reflexivity.
Defined.

Lemma length_substring_le n s : (String.length (substring 0 n s) <= n)%nat.
Proof.
  revert s. induction n as [|n IH]; intros s; [destruct s; cbn; lia |].
  destruct s as [|c s]; [cbn; lia |]. cbn [substring String.length]. specialize (IH s). lia.
Qed.

Lemma parse_args_fits_le n args o o' :
  (length args <= n)%nat -> fits o -> parse_args args o = Parsed o' -> fits o'.
Proof.
  revert args o. induction n as [|n IH]; intros args o Hn Hf H.
  - destruct args; [| cbn in Hn; lia]. cbn in H. by injection H as <-.
  - destruct args as [|a [|v args]].
    + cbn in H. by injection H as <-.
    + cbn in H. destruct (_ || _); discriminate.
    + cbn [parse_args] in H.
      assert (Hl : (length args <= n)%nat) by (cbn in Hn; lia).
      pose proof (length_substring_le (MAX_NAME - 1) v) as Hv.
      destruct Hf as (F1 & F2 & F3 & F4).
      destruct (String.eqb a "--name");
        [refine (IH _ _ Hl _ H); unfold fits, strncpy; cbn [o_name o_distro o_username o_password]; done |].
      destruct (String.eqb a "--distro");
        [refine (IH _ _ Hl _ H); unfold fits, strncpy; cbn [o_name o_distro o_username o_password]; done |].
      destruct (String.eqb a "--user");
        [refine (IH _ _ Hl _ H); unfold fits, strncpy; cbn [o_name o_distro o_username o_password]; done |].
      destruct (String.eqb a "--pass");
        [refine (IH _ _ Hl _ H); unfold fits, strncpy; cbn [o_name o_distro o_username o_password]; done |].
      destruct (_ || _); discriminate.
Qed.

(** X6.  Whatever the command line, the name, distro, user and password that
    [main] works with hold at most 255 bytes each: an argument of any
    length is cut, the 256-byte buffers are never overrun. *)
Theorem parsed_options_fit argv o :
  parse_args (tl argv) (Options EmptyString DEFAULT_DISTRO DEFAULT_USER EmptyString) = Parsed o ->
  fits o.
Proof.
  apply (parse_args_fits_le _ _ _ _ (le_n _)). unfold fits. cbn. lia.
Qed.

Lemma parsed_options_fit_witness :
  fits (Options "demo1" "ubuntu22" DEFAULT_USER "").
Proof.
  apply (parsed_options_fit ["v4m"; "--name"; "demo1"; "--distro"; "ubuntu22"]%string).
  reflexivity.
Defined.

Lemma printf_all_run lines w :
  printf_all lines w
  = (tt, World (fs w) (prng w) (clock w) (rev (map Stdout lines) ++ trace w)).
Proof.
  revert w. induction lines as [|l lines IH]; intros w; [by destruct w |].
  cbn [printf_all]. unfold bind, printf, emit. rewrite IH. cbn [fs prng clock trace map rev].
  by rewrite <- app_assoc.
Qed.

(** X7.  A flag that takes a value and stands last, without one, is an
    unknown option: [main] prints that one error and returns 1 before it
    generates, checks or creates anything. *)
Theorem flag_without_value env prog pre flag o w :
  parse_args pre (Options EmptyString DEFAULT_DISTRO DEFAULT_USER EmptyString) = Parsed o ->
  In flag value_flags ->
  main env (prog :: pre ++ [flag]) w
  = (1, World (fs w) (prng w) (clock w) (Stdout (error_line "Unknown option") :: trace w)).
Proof.
  intros Hp Hf. unfold main. cbn [tl].
  rewrite (parse_args_app_le _ pre [flag] _ o (le_n _) Hp).
  assert (Hu : parse_args [flag] o = Unknown).
  { unfold value_flags in Hf. cbn [In] in Hf.
    destruct Hf as [<- | [<- | [<- | [<- | []]]]]; reflexivity. }
  rewrite Hu. reflexivity.
Qed.

Lemma flag_without_value_witness :
  main Sim.fair ("v4m"%string :: ["--user"; "alice"]%string ++ ["--name"]%string) Sim.fresh
  = (1, World (fs Sim.fresh) (prng Sim.fresh) (clock Sim.fresh)
          (Stdout (error_line "Unknown option") :: trace Sim.fresh)).
Proof.
  apply (flag_without_value Sim.fair "v4m" ["--user"; "alice"]%string "--name"
           (Options "" DEFAULT_DISTRO "alice" "") Sim.fresh).
  - reflexivity.
  - cbn. tauto.
Defined.

(** X8.  [--help] (or [-h]) after well-formed options ends the run at once:
    [main] prints the usage with the name it was called by and returns
    0, whatever follows on the command line, without a root check and
    without touching the file system. *)
Theorem help_ends_the_run env prog pre h rest o w :
  parse_args pre (Options EmptyString DEFAULT_DISTRO DEFAULT_USER EmptyString) = Parsed o ->
  h = "--help"%string \/ h = "-h"%string ->
  main env (prog :: pre ++ h :: rest) w
  = (0, World (fs w) (prng w) (clock w) (rev (map Stdout (usage prog)) ++ trace w)).
Proof.
  intros Hp Hh. unfold main. cbn [tl hd].
  rewrite (parse_args_app_le _ pre (h :: rest) _ o (le_n _) Hp).
  assert (Hu : parse_args (h :: rest) o = Help).
  { destruct Hh as [-> | ->]; destruct rest; reflexivity. }
  rewrite Hu. unfold bind. rewrite printf_all_run. reflexivity.
Qed.

Lemma help_ends_the_run_witness :
  main Sim.fair ("v4m"%string :: ["--name"; "demo1"]%string ++ "-h"%string :: ["--bogus"]%string) Sim.fresh
  = (0, World (fs Sim.fresh) (prng Sim.fresh) (clock Sim.fresh)
          (rev (map Stdout (usage "v4m")) ++ trace Sim.fresh)).
Proof.
  apply (help_ends_the_run Sim.fair "v4m" ["--name"; "demo1"]%string "-h" ["--bogus"]%string
           (Options "demo1" DEFAULT_DISTRO DEFAULT_USER "") Sim.fresh).
  - reflexivity.
  - right. reflexivity.
Defined.

(** *** The requirements of main *)

Lemma fill_random_frame env n w :
  fs (snd (fill_random env n w)) = fs w
  /\ clock (snd (fill_random env n w)) = clock w
  /\ trace (snd (fill_random env n w)) = trace w.
Proof.
  revert w. induction n as [|n IH]; intros w; [done |].
  cbn [fill_random]. unfold bind, rand.
  destruct (rand_step env (prng w)) as [v s].
  specialize (IH (World (fs w) s (clock w) (trace w))).
  destruct (fill_random env n _) as [r u]. cbn in *. exact IH.
Qed.

Lemma generate_vm_name_frame env size w :
  fs (snd (generate_vm_name env size w)) = fs w
  /\ clock (snd (generate_vm_name env size w)) = clock w
  /\ trace (snd (generate_vm_name env size w)) = trace w.
Proof.
  destruct (generate_vm_name env size w) as [name w'] eqn:H.
  unfold generate_vm_name in H.
  bind_step H t w2 H1. prim H1.
  bind_step H u w3 H1. prim H1.
  bind_step H r1 w4 H1. apply rand_inv in H1 as (_ & ->).
  bind_step H r2 w5 H1. apply rand_inv in H1 as (_ & ->).
  bind_step H r3 w6 H1. apply rand_inv in H1 as (_ & ->).
  prim H. done.
Qed.

Lemma generate_password_frame env buf size w :
  (fs (snd (generate_password env buf size w)) = fs w
   \/ fs (snd (generate_password env buf size w)) = pipe_fs env openssl_rand_cmd (fs w))
  /\ clock (snd (generate_password env buf size w)) = clock w
  /\ trace (snd (generate_password env buf size w)) = Popen openssl_rand_cmd :: trace w.
Proof.
  destruct (generate_password env buf size w) as [p w'] eqn:H.
  unfold generate_password in H.
  bind_step H fp w2 H1. apply popen_inv in H1 as (_ & ->).
  destruct fp as [out|].
  - destruct (fgets size out) as [[line rest]|]; unfold ret in H; injection H as <- <-;
      cbn [snd fs clock trace]; tauto.
  - bind_step H t w3 H1. prim H1.
    bind_step H u w4 H1. prim H1.
    pose proof (fill_random_frame env 12
                  (World (fs w) (clock w mod 2 ^ 32) (clock w) (Popen openssl_rand_cmd :: trace w)))
      as Hf.
    cbn [fs prng clock trace] in H. rewrite H in Hf. cbn [snd fs clock trace] in Hf |- *.
    tauto.
Qed.

(** the defaults of [main]: what is generated before the checks *)
Lemma main_defaults_frame env o (w : world) :
  exists vm_name password w2 ev,
    ((vm_name <- (if Nat.eqb (String.length (o_name o)) 0
                  then generate_vm_name env MAX_NAME else ret (o_name o)) ;;
      password <- (if Nat.eqb (String.length (o_password o)) 0
                   then generate_password env (o_password o) MAX_NAME
                   else ret (o_password o)) ;;
      ret (vm_name, password)) w) = ((vm_name, password), w2)
    /\ (fs w2 = fs w
        \/ (o_password o = EmptyString
            /\ fs w2 = pipe_fs env openssl_rand_cmd (fs w)))
    /\ clock w2 = clock w /\ trace w2 = ev ++ trace w
    /\ (ev = [] \/ ev = [Popen openssl_rand_cmd]).
Proof.
  unfold bind at 1.
  destruct (if Nat.eqb (String.length (o_name o)) 0
            then generate_vm_name env MAX_NAME else ret (o_name o)) as [n w1] eqn:Hn.
  assert (H1 : fs w1 = fs w /\ clock w1 = clock w /\ trace w1 = trace w).
  { destruct (Nat.eqb _ 0).
    - pose proof (generate_vm_name_frame env MAX_NAME w) as Hf. by rewrite Hn in Hf.
    - unfold ret in Hn. by injection Hn as <- <-. }
  unfold bind at 1.
  destruct (if Nat.eqb (String.length (o_password o)) 0
            then generate_password env (o_password o) MAX_NAME
            else ret (o_password o)) as [p w2] eqn:Hp.
  destruct H1 as (F1 & C1 & T1).
  destruct (Nat.eqb (String.length (o_password o)) 0) eqn:Hl.
  - pose proof (generate_password_frame env (o_password o) MAX_NAME w1) as Hf.
    rewrite Hp in Hf. cbn [snd] in Hf. destruct Hf as (F2 & C2 & T2).
    assert (He : o_password o = EmptyString)
      by (destruct (o_password o); [done | discriminate Hl]).
    exists n, p, w2, [Popen openssl_rand_cmd]. unfold ret.
    rewrite C2, T2, C1, T1, <- F1. split; [done |]. split; [| eauto].
    destruct F2 as [-> | ->]; [by left | by right].
  - unfold ret in Hp. injection Hp as <- <-.
    exists n, (o_password o), w1, []. unfold ret. rewrite F1, C1, T1. eauto 10.
Qed.

(** X9.  Without root privileges [main] returns 1 after its two lines about
    sudo and leaves the file system as it found it: no directory of the
    state tree is made.  The only thing done before the check is the
    generation of the defaults, which opens the [openssl] pipe when no
    password was given; the pipe of that fixed command line is taken
    to leave the file system alone.  Without that assumption, the file
    system is the one the run found or the one that pipe left. *)
Theorem not_root_touches_nothing env argv o w :
  euid env <> 0 ->
  parse_args (tl argv) (Options EmptyString DEFAULT_DISTRO DEFAULT_USER EmptyString) = Parsed o ->
  fst (main env argv w) = 1
  /\ ((forall f, pipe_fs env openssl_rand_cmd f = f) -> fs (snd (main env argv w)) = fs w)
  /\ (fs (snd (main env argv w)) = fs w
      \/ (o_password o = EmptyString
          /\ fs (snd (main env argv w)) = pipe_fs env openssl_rand_cmd (fs w)))
  /\ exists ev,
       trace (snd (main env argv w))
       = Stdout (info_line "Please run with sudo")
           :: Stdout (error_line "This script requires sudo privileges for vmnet-bridged networking")
           :: ev ++ trace w
       /\ (ev = [] \/ ev = [Popen openssl_rand_cmd]).
Proof.
  intros Hroot Hp. unfold main. rewrite Hp.
  destruct (main_defaults_frame env o w) as (n & p & w2 & ev & Hd & F & C & T & Hev).
  unfold bind in Hd |- *.
  destruct ((if Nat.eqb (String.length (o_name o)) 0
             then generate_vm_name env MAX_NAME else ret (o_name o)) w) as [n' w1].
  destruct ((if Nat.eqb (String.length (o_password o)) 0
             then generate_password env (o_password o) MAX_NAME
             else ret (o_password o)) w1) as [p' w2'].
  unfold ret in Hd. injection Hd as -> -> ->.
  unfold check_root. apply Z.eqb_neq in Hroot. rewrite Hroot. cbn [negb].
  unfold bind, log_error, log_info, printf, emit, ret.
  cbn [fst snd fs prng clock trace Z.eqb negb].
  rewrite T. split; [done |]. split; [| split; [exact F | eauto]].
  intros Hn. destruct F as [-> | [_ ->]]; [done | apply Hn].
Qed.

Lemma not_root_touches_nothing_witness :
  fst (main Sim.user ["v4m"; "--name"; "demo1"]%string Sim.fresh) = 1
  /\ fs (snd (main Sim.user ["v4m"; "--name"; "demo1"]%string Sim.fresh)) = fs Sim.fresh
  /\ exists ev,
       trace (snd (main Sim.user ["v4m"; "--name"; "demo1"]%string Sim.fresh))
       = Stdout (info_line "Please run with sudo")
           :: Stdout (error_line "This script requires sudo privileges for vmnet-bridged networking")
           :: ev ++ trace Sim.fresh
       /\ (ev = [] \/ ev = [Popen openssl_rand_cmd]).
Proof.
  destruct (not_root_touches_nothing Sim.user ["v4m"; "--name"; "demo1"]%string
              (Options "demo1" DEFAULT_DISTRO DEFAULT_USER "") Sim.fresh)
    as (H1 & H2 & _ & H3).
  - discriminate.
  - reflexivity.
  - split; [exact H1 |]. split; [| exact H3]. apply H2. intros f. reflexivity.
Defined.

(** on a machine where [openssl] keeps a seed file in the home
    directory, that file is what a run without root leaves behind *)
Example not_root_seed_file :
  let run := main Sim.seeding ["v4m"; "--name"; "demo1"]%string Sim.fresh in
  fst run = 1
  /\ fs Sim.fresh !! "/home/u/.rnd"%string = None
  /\ fs (snd run) !! "/home/u/.rnd"%string = Some (File "<seed>")
  /\ fs (snd run) !! "/home/u/.v4m/vms/demo1"%string = None.
Proof. vm_compute. done. Qed.

Lemma init_dirs_inv env w u w1 :
  init_dirs env w = (u, w1) ->
  exists s1 s2 s3,
    prng w1 = prng w /\ clock w1 = clock w
    /\ trace w1
       = Mkdir (snprintf MAX_PATH (snprintf MAX_PATH (HOME env +:+ "/.v4m") +:+ "/vms")) s3
           :: Mkdir (snprintf MAX_PATH (snprintf MAX_PATH (HOME env +:+ "/.v4m") +:+ "/distros")) s2
           :: Mkdir (snprintf MAX_PATH (HOME env +:+ "/.v4m")) s1 :: trace w
    /\ (forall p x, fs w !! p = Some x -> fs w1 !! p = Some x)
    /\ (forall p x, fs w1 !! p = Some x ->
          fs w !! p = Some x
          \/ (fs w !! p = None /\ x = Dir
              /\ In p [snprintf MAX_PATH (HOME env +:+ "/.v4m");
                       snprintf MAX_PATH (snprintf MAX_PATH (HOME env +:+ "/.v4m") +:+ "/distros");
                       snprintf MAX_PATH (snprintf MAX_PATH (HOME env +:+ "/.v4m") +:+ "/vms")])).
Proof.
  unfold init_dirs. intros H.
  bind_step H s1 w2 H1. apply mkdir_inv in H1 as (f1 & -> & Hf1).
  bind_step H s2 w3 H1. apply mkdir_inv in H1 as (f2 & -> & Hf2).
  bind_step H s3 w4 H1. apply mkdir_inv in H1 as (f3 & -> & Hf3).
  prim H. cbn [fs prng clock trace] in *. exists s1, s2, s3.
  split; [done |]. split; [done |]. split; [done |].
  assert (K : forall (f g : gmap string node) q,
            ((exists s : Z, s = -1 /\ g = f) \/ (f !! q = None /\ g = <[q := Dir]> f)) ->
            (forall p x, f !! p = Some x -> g !! p = Some x)
            /\ (forall p x, g !! p = Some x ->
                  f !! p = Some x \/ (f !! p = None /\ x = Dir /\ p = q))).
  { intros f g q [(_ & _ & ->) | (Hn & ->)]; [by eauto |]. split.
    - intros p x Hp. destruct (decide (q = p)) as [<- | Hne]; [congruence |].
      by rewrite lookup_insert_ne.
    - intros p x Hp. destruct (decide (q = p)) as [<- | Hne].
      + rewrite lookup_insert_eq in Hp. injection Hp as <-. by right.
      + rewrite lookup_insert_ne in Hp by done. by left. }
  destruct (K (fs w) f1 _ ltac:(destruct Hf1 as [[? ?] | (_ & ? & ?)]; eauto)) as [A1 B1].
  destruct (K f1 f2 _ ltac:(destruct Hf2 as [[? ?] | (_ & ? & ?)]; eauto)) as [A2 B2].
  destruct (K f2 f3 _ ltac:(destruct Hf3 as [[? ?] | (_ & ? & ?)]; eauto)) as [A3 B3].
  split; [by eauto |].
  intros p x Hp. cbn [In].
  destruct (B3 p x Hp) as [H3 | (N3 & -> & ->)].
  - destruct (B2 p x H3) as [H2 | (N2 & -> & ->)].
    + destruct (B1 p x H2) as [H1 | (N1 & -> & ->)]; [by left | right; by eauto].
    + right. split; [| by eauto].
      match goal with |- ?l = None => destruct l eqn:E; [| done] end.
      apply A1 in E. congruence.
  - right. split; [| by eauto 6].
    match goal with |- ?l = None => destruct l eqn:E; [| done] end.
    apply A1, A2 in E. congruence.
Qed.

(** X10.  [init_dirs] only adds: whatever is on the file system stays as it is
    (an existing file or directory is never replaced), and what it adds
    is a directory at one of its three paths, [.v4m], [.v4m/distros] and
    [.v4m/vms] under the home directory. *)
Theorem init_dirs_only_adds env w :
  (forall p x, fs w !! p = Some x -> fs (snd (init_dirs env w)) !! p = Some x)
  /\ (forall p x,
        fs (snd (init_dirs env w)) !! p = Some x ->
        fs w !! p = Some x
        \/ (fs w !! p = None /\ x = Dir
            /\ In p [snprintf MAX_PATH (HOME env +:+ "/.v4m");
                     snprintf MAX_PATH (snprintf MAX_PATH (HOME env +:+ "/.v4m") +:+ "/distros");
                     snprintf MAX_PATH (snprintf MAX_PATH (HOME env +:+ "/.v4m") +:+ "/vms")])).
Proof.
  destruct (init_dirs env w) as [u w1] eqn:H.
  apply init_dirs_inv in H as (s1 & s2 & s3 & _ & _ & _ & A & B). done.
Qed.

Example init_dirs_on_empty_home :
  map fst (map_to_list (fs (snd (init_dirs Sim.fair
                                   (World {["/home/u"%string := Dir]} 1 0 [])))))
  = ["/home/u/.v4m/vms"; "/home/u/.v4m/distros"; "/home/u/.v4m"; "/home/u"]%string.
Proof. vm_compute. reflexivity. Qed.

(** X11.  When the hypervisor is not installed, [main] returns 1 after
    [init_dirs] and two error lines: [create_vm] is not entered, so no
    VM directory is made and nothing is downloaded. *)
Theorem no_qemu_no_vm env argv o w :
  euid env = 0 ->
  parse_args (tl argv) (Options EmptyString DEFAULT_DISTRO DEFAULT_USER EmptyString) = Parsed o ->
  (forall f, fst (sh env qemu_check_cmd f) <> 0) ->
  fst (main env argv w) = 1
  /\ exists st s1 s2 s3 ev,
       st <> 0
       /\ trace (snd (main env argv w))
          = Stdout (error_line "  brew install qemu")
              :: Stdout (error_line "QEMU not found. Please install QEMU:")
              :: System qemu_check_cmd st
              :: Mkdir (snprintf MAX_PATH (snprintf MAX_PATH (HOME env +:+ "/.v4m") +:+ "/vms")) s3
              :: Mkdir (snprintf MAX_PATH (snprintf MAX_PATH (HOME env +:+ "/.v4m") +:+ "/distros")) s2
              :: Mkdir (snprintf MAX_PATH (HOME env +:+ "/.v4m")) s1
              :: ev ++ trace w
       /\ (ev = [] \/ ev = [Popen openssl_rand_cmd]).
Proof.
  intros Hroot Hp Hq. unfold main. rewrite Hp.
  destruct (main_defaults_frame env o w) as (n & p & w2 & ev & Hd & F & C & T & Hev).
  unfold bind in Hd |- *.
  destruct ((if Nat.eqb (String.length (o_name o)) 0
             then generate_vm_name env MAX_NAME else ret (o_name o)) w) as [n' w1].
  destruct ((if Nat.eqb (String.length (o_password o)) 0
             then generate_password env (o_password o) MAX_NAME
             else ret (o_password o)) w1) as [p' w2'].
  unfold ret in Hd. injection Hd as -> -> ->.
  unfold check_root. rewrite Hroot. unfold ret. cbn [Z.eqb negb].
  destruct (init_dirs env w2) as [u w3] eqn:Hi.
  apply init_dirs_inv in Hi as (s1 & s2 & s3 & _ & _ & T3 & _).
  destruct (system env qemu_check_cmd w3) as [st w4] eqn:Hs.
  apply system_inv in Hs as (-> & Hst).
  assert (Hne : st <> 0) by (rewrite Hst; apply Hq).
  apply Z.eqb_neq in Hne as Hb. rewrite Hb. cbn [negb].
  unfold log_error, printf, emit. cbn [fst snd fs prng clock trace].
  split; [done |]. exists st, s1, s2, s3, ev.
  split; [done |]. split; [| done]. cbn [trace]. rewrite T3, T. reflexivity.
Qed.

Lemma no_qemu_no_vm_witness :
  fst (main Sim.no_qemu ["v4m"; "--name"; "demo1"]%string Sim.fresh) = 1
  /\ exists st s1 s2 s3 ev,
       st <> 0
       /\ trace (snd (main Sim.no_qemu ["v4m"; "--name"; "demo1"]%string Sim.fresh))
          = Stdout (error_line "  brew install qemu")
              :: Stdout (error_line "QEMU not found. Please install QEMU:")
              :: System qemu_check_cmd st
              :: Mkdir (snprintf MAX_PATH
                          (snprintf MAX_PATH (HOME Sim.no_qemu +:+ "/.v4m") +:+ "/vms")) s3
              :: Mkdir (snprintf MAX_PATH
                          (snprintf MAX_PATH (HOME Sim.no_qemu +:+ "/.v4m") +:+ "/distros")) s2
              :: Mkdir (snprintf MAX_PATH (HOME Sim.no_qemu +:+ "/.v4m")) s1
              :: ev ++ trace Sim.fresh
       /\ (ev = [] \/ ev = [Popen openssl_rand_cmd]).
Proof.
  apply (no_qemu_no_vm Sim.no_qemu ["v4m"; "--name"; "demo1"]%string
           (Options "demo1" DEFAULT_DISTRO DEFAULT_USER "") Sim.fresh).
  - reflexivity.
  - reflexivity.
  - intros f. vm_compute. discriminate.
Defined.

(** *** Exit codes and error reports *)

Lemma error_count_app a b : error_count (a ++ b) = (error_count a + error_count b)%nat.
Proof. unfold error_count. by rewrite List.filter_app, length_app. Qed.

Lemma error_count_quiet ev : quiet ev -> error_count ev = 0%nat.
Proof.
  unfold error_count. induction 1 as [|e ev He _ IH]; [reflexivity |].
  cbn [List.filter]. unfold plain in He.
  destruct (is_error e); [discriminate | exact IH].
Qed.

Lemma error_count_error m ev :
  error_count (Stdout (error_line m) :: ev) = S (error_count ev).
Proof. reflexivity. Qed.

Lemma error_count_skip e ev : is_error e = false -> error_count (e :: ev) = error_count ev.
Proof. unfold error_count. cbn [List.filter]. by intros ->. Qed.

Ltac count_errors :=
  repeat first
    [ rewrite error_count_app
    | rewrite error_count_error
    | rewrite error_count_skip by reflexivity
    | match goal with
      | H : quiet ?l |- context [error_count ?l] => rewrite (error_count_quiet l H)
      end ];
  change (error_count []) with 0%nat.

(** the error reports of a run of [create_vm], counted *)
Lemma create_vm_account env vm_name distro username password w :
  exists ev,
    trace (snd (create_vm env vm_name distro username password w)) = ev ++ trace w
    /\ (fst (create_vm env vm_name distro username password w) = 0
        \/ fst (create_vm env vm_name distro username password w) = 1)
    /\ Z.of_nat (error_count ev) = fst (create_vm env vm_name distro username password w)
    /\ (fst (create_vm env vm_name distro username password w) = 0 ->
        In (Stdout created_line) ev /\ In (Sleep 60) ev
        /\ exists vm_mac, In (System (qemu_cmd vm_mac (vm_dir_of env vm_name)) 0) ev).
Proof.
  destruct (create_vm env vm_name distro username password w) as [r w1] eqn:H.
  apply create_vm_inv in H as (ev & Ht & Ho). cbn [fst snd]. exists ev.
  split; [exact Ht |].
  destruct Ho as [msg body _ -> -> Hq | p body -> -> Hq | body -> -> Hq _
                 | st st' body _ -> -> Hq | b vm_mac post pre -> Hq _ Hs _].
  - split; [by right |]. split; [by count_errors | discriminate].
  - split; [by right |]. split; [by count_errors | discriminate].
  - split; [by right |]. split; [by count_errors | discriminate].
  - split; [by right |]. split; [by count_errors | discriminate].
  - destruct Hs as (b' & st & mid & -> & [(Hst & -> & ->) | (-> & -> & prints & st2 & Hp & ->)]).
    + split; [by right |]. split; [by count_errors | discriminate].
    + split; [by left |]. split; [by count_errors |].
      intros _. split; [| split].
      * apply in_or_app. right. by left.
      * apply in_or_app. left. apply in_or_app. right. by left.
      * exists vm_mac. apply in_or_app. left. apply in_or_app. right.
        cbn [In]. tauto.
Qed.

(** X12.  The exit code of [create_vm] counts its error reports: it is 0 or
    1, and the run printed exactly that many [ERROR] lines.  A run that
    returns 0 printed the line that closes provisioning, started the
    hypervisor with exit status 0 and waited the sixty seconds. *)
Theorem create_vm_exit_code env vm_name distro username password w :
  exists ev,
    trace (snd (create_vm env vm_name distro username password w)) = ev ++ trace w
    /\ (fst (create_vm env vm_name distro username password w) = 0
        \/ fst (create_vm env vm_name distro username password w) = 1)
    /\ Z.of_nat (error_count ev) = fst (create_vm env vm_name distro username password w)
    /\ (fst (create_vm env vm_name distro username password w) = 0 ->
        In (Stdout created_line) ev /\ In (Sleep 60) ev
        /\ exists vm_mac, In (System (qemu_cmd vm_mac (vm_dir_of env vm_name)) 0) ev).
Proof. apply create_vm_account. Qed.

Example create_vm_exit_codes :
  map (fun env => fst (create_vm env "demo1" "debian12" "alice" "secret123" Sim.fresh))
    [Sim.fair; Sim.offline; Sim.hash_fails; Sim.iso_fails; Sim.qemu_fails]
  = [0; 1; 1; 1; 1].
Proof. vm_compute. reflexivity. Qed.

Ltac norm_app := repeat (rewrite <- ?app_assoc; cbn [app]); reflexivity.

(** X13.  [main] ends with 0 or 1, and with 0 exactly when the run reported no
    error: every path that returns 1 has printed an [ERROR] line, and
    no path prints one and then returns 0. *)
Theorem main_exit_code env argv w :
  exists ev,
    trace (snd (main env argv w)) = ev ++ trace w
    /\ (fst (main env argv w) = 0 \/ fst (main env argv w) = 1)
    /\ (fst (main env argv w) = 0 <-> error_count ev = 0%nat).
Proof.
  unfold main.
  destruct (parse_args (tl argv) _) as [o | |] eqn:Hp.
  - destruct (main_defaults_frame env o w) as (n & p & w2 & ev0 & Hd & F & C & T & Hev).
    assert (E0 : error_count ev0 = 0%nat) by (destruct Hev as [-> | ->]; reflexivity).
    unfold bind in Hd |- *.
    destruct ((if Nat.eqb (String.length (o_name o)) 0
               then generate_vm_name env MAX_NAME else ret (o_name o)) w) as [n' w1].
    destruct ((if Nat.eqb (String.length (o_password o)) 0
               then generate_password env (o_password o) MAX_NAME
               else ret (o_password o)) w1) as [p' w2'].
    unfold ret in Hd. injection Hd as -> -> ->.
    unfold check_root. destruct (Z.eqb_spec (euid env) 0) as [Hroot | Hroot]; cbn [negb].
    + unfold ret. cbn [Z.eqb negb].
      destruct (init_dirs env w2) as [u w3] eqn:Hi.
      apply init_dirs_inv in Hi as (s1 & s2 & s3 & _ & _ & T3 & _).
      assert (Hds : exists ds, trace w3 = ds ++ trace w2 /\ error_count ds = 0%nat)
        by (eexists [_; _; _]; split; [exact T3 | reflexivity]).
      clear T3. destruct Hds as (ds & T3 & Eds).
      destruct (system env qemu_check_cmd w3) as [st w4] eqn:Hs.
      apply system_inv in Hs as (-> & _).
      destruct (Z.eqb_spec st 0) as [-> | Hst]; cbn [negb].
      * destruct (create_vm_account env n (o_distro o) (o_username o) p
                    (World (sh env qemu_check_cmd (fs w3)).2 (prng w3) (clock w3)
                       (System qemu_check_cmd 0 :: trace w3)))
          as (ev & Ht & Hr & Hc & _).
        destruct (create_vm env n (o_distro o) (o_username o) p _) as [c w5].
        cbn [fst snd trace] in *.
        exists (ev ++ System qemu_check_cmd 0 :: ds ++ ev0).
        split.
        { destruct (negb (c =? 0)); cbn [snd]; rewrite Ht, T3, T; norm_app. }
        rewrite error_count_app, error_count_skip by reflexivity.
        rewrite error_count_app, E0.
        rewrite Eds.
        destruct Hr as [-> | ->]; cbn [Z.eqb negb fst].
        -- split; [by left |]. split; [lia | done].
        -- split; [by right |]. split; [discriminate | lia].
      * unfold log_error, printf, emit. cbn [fst snd trace].
        exists (Stdout (error_line "  brew install qemu")
                  :: Stdout (error_line "QEMU not found. Please install QEMU:")
                  :: System qemu_check_cmd st
                  :: ds ++ ev0).
        split; [rewrite T3, T; norm_app |].
        split; [by right |]. split; [discriminate |].
        rewrite !error_count_error. discriminate.
    + unfold bind, log_error, log_info, printf, emit, ret. cbn [fst snd trace Z.eqb negb].
      exists (Stdout (info_line "Please run with sudo")
                :: Stdout (error_line "This script requires sudo privileges for vmnet-bridged networking")
                :: ev0).
      split; [rewrite T; reflexivity |].
      split; [by right |]. split; [discriminate |].
      rewrite error_count_skip by reflexivity. rewrite error_count_error. discriminate.
  - unfold bind. rewrite printf_all_run. unfold ret. cbn [fst snd trace].
    exists (rev (map Stdout (usage (hd EmptyString argv)))).
    split; [reflexivity |]. split; [by left |]. split; [reflexivity | done].
  - exists [Stdout (error_line "Unknown option")].
    split; [reflexivity |]. split; [by right |]. split; discriminate.
Qed.

(** X14.  When [main] returns 0 on a command line without [--help], a machine
    was launched: the user is root, the hypervisor was found, provisioning
    was closed, the hypervisor started with exit status 0 under the
    chosen or generated name, and the sixty seconds were waited. *)
Theorem main_success_means_launched env argv o w :
  parse_args (tl argv) (Options EmptyString DEFAULT_DISTRO DEFAULT_USER EmptyString) = Parsed o ->
  fst (main env argv w) = 0 ->
  euid env = 0
  /\ exists ev,
       trace (snd (main env argv w)) = ev ++ trace w
       /\ In (System qemu_check_cmd 0) ev
       /\ In (Stdout created_line) ev
       /\ In (Sleep 60) ev
       /\ exists vm_name vm_mac,
            In (System (qemu_cmd vm_mac (vm_dir_of env vm_name)) 0) ev
            /\ (o_name o <> EmptyString -> vm_name = o_name o).
Proof.
  intros Hp. unfold main. rewrite Hp.
  destruct (main_defaults_frame env o w) as (n & p & w2 & ev0 & Hd & F & C & T & Hev).
  assert (Hn : o_name o <> EmptyString -> n = o_name o).
  { intros Hne. unfold bind in Hd.
    destruct (o_name o) as [|c s] eqn:E; [done |]. cbn [String.length Nat.eqb] in Hd.
    unfold ret at 1 in Hd.
    destruct ((if Nat.eqb (String.length (o_password o)) 0
               then generate_password env (o_password o) MAX_NAME
               else ret (o_password o)) w) as [p' w2'].
    unfold ret in Hd. by injection Hd as -> _ _. }
  unfold bind in Hd |- *.
  destruct ((if Nat.eqb (String.length (o_name o)) 0
             then generate_vm_name env MAX_NAME else ret (o_name o)) w) as [n' w1].
  destruct ((if Nat.eqb (String.length (o_password o)) 0
             then generate_password env (o_password o) MAX_NAME
             else ret (o_password o)) w1) as [p' w2'].
  unfold ret in Hd. injection Hd as -> -> ->.
  unfold check_root. destruct (Z.eqb_spec (euid env) 0) as [Hroot | Hroot]; cbn [negb].
  2: { unfold bind, log_error, log_info, printf, emit, ret. cbn [fst snd Z.eqb negb]. discriminate. }
  unfold ret. cbn [Z.eqb negb].
  destruct (init_dirs env w2) as [u w3] eqn:Hi.
  apply init_dirs_inv in Hi as (s1 & s2 & s3 & _ & _ & T3 & _).
  assert (Hds : exists ds, trace w3 = ds ++ trace w2)
    by (eexists [_; _; _]; exact T3).
  clear T3. destruct Hds as (ds & T3).
  destruct (system env qemu_check_cmd w3) as [st w4] eqn:Hs.
  apply system_inv in Hs as (-> & _).
  destruct (Z.eqb_spec st 0) as [-> | Hst]; cbn [negb].
  2: { unfold log_error, printf, emit. cbn [fst]. discriminate. }
  destruct (create_vm_account env n (o_distro o) (o_username o) p
              (World (sh env qemu_check_cmd (fs w3)).2 (prng w3) (clock w3)
                 (System qemu_check_cmd 0 :: trace w3)))
    as (ev & Ht & Hr & _ & Hl).
  destruct (create_vm env n (o_distro o) (o_username o) p _) as [c w5].
  cbn [fst snd trace] in *.
  destruct Hr as [-> | ->]; cbn [Z.eqb negb fst snd]; [| discriminate].
  intros _. split; [exact Hroot |].
  destruct (Hl eq_refl) as (Hc & Hsl & mac & Hq).
  exists (ev ++ System qemu_check_cmd 0 :: ds ++ ev0).
  split; [rewrite Ht, T3, T; norm_app |].
  split; [apply in_or_app; right; by left |].
  split; [apply in_or_app; by left |].
  split; [apply in_or_app; by left |].
  exists n, mac. split; [apply in_or_app; by left | exact Hn].
Qed.

Lemma main_success_means_launched_witness :
  euid Sim.fair = 0
  /\ exists ev,
       trace (snd (main Sim.fair ["v4m"; "--name"; "demo1"]%string Sim.fresh))
       = ev ++ trace Sim.fresh
       /\ In (System qemu_check_cmd 0) ev
       /\ In (Stdout created_line) ev
       /\ In (Sleep 60) ev
       /\ exists vm_name vm_mac,
            In (System (qemu_cmd vm_mac (vm_dir_of Sim.fair vm_name)) 0) ev
            /\ (o_name (Options "demo1" DEFAULT_DISTRO DEFAULT_USER "") <> EmptyString ->
                vm_name = o_name (Options "demo1" DEFAULT_DISTRO DEFAULT_USER "")).
Proof.
  apply (main_success_means_launched Sim.fair ["v4m"; "--name"; "demo1"]%string
           (Options "demo1" DEFAULT_DISTRO DEFAULT_USER "") Sim.fresh).
  - reflexivity.
  - vm_compute. reflexivity.
Defined.

(** *** The image cache after a failed download *)

Lemma ensure_distro_miss env distro url w res w1 :
  get_distro_url distro = Some url ->
  (forall c, fs w !! cache_path env distro url <> Some (File c)) ->
  ensure_distro env distro MAX_PATH w = (res, w1) ->
  exists st d,
    let pre := System (download_cmd env distro url) st
                 :: Mkdir (snprintf MAX_PATH
                             (snprintf MAX_PATH (HOME env +:+ "/.v4m")
                                +:+ "/distros/" +:+ distro)) d
                 :: Stdout (info_line "Downloading distro...") :: trace w in
    (st = 0 /\ res = Some (cache_path env distro url)
     /\ trace w1 = Stdout (success_line "Downloaded distro") :: pre)
    \/ (st <> 0 /\ res = None
        /\ trace w1 = Remove (cache_path env distro url)
                        :: Stdout (error_line "Failed to download distro") :: pre
        /\ forall c, fs w1 !! cache_path env distro url <> Some (File c)).
Proof.
  intros Hu Hno H.
  unfold ensure_distro in H. rewrite Hu in H.
  fold (basename url) in H. fold (cache_path env distro url) in H.
  fold (download_cmd env distro url) in H.
  bind_step H e w2 H1. prim H1.
  destruct (fs w !! cache_path env distro url) as [[c|]|] eqn:E.
  { by destruct (Hno c). }
  all: bind_step H a w3 H1; prim H1.
  all: bind_step H st1 w4 H1; apply mkdir_inv in H1 as (f & -> & _).
  all: bind_step H st w5 H1; apply system_inv in H1 as (-> & Est).
  all: cbn [fs prng clock trace] in *.
  all: exists st, st1.
  all: destruct (Z.eqb_spec st 0) as [E0|Ne]; cbn [negb] in H.
  1,3: bind_step H a1 w6 H1; prim H1; prim H; left; rewrite E0; done.
  all: bind_step H a1 w6 H1; prim H1;
    bind_step H a2 w7 H1; apply remove_inv in H1 as (f' & -> & Hf');
    prim H; right; done.
Qed.

(** X15.  A download that fails is not cached.  When [ensure_distro] returns
    NULL for a catalogued distro, the download command ended with a
    status other than 0, the failure was reported and the partial file
    was removed: no file is left at the cache path.  The next call
    therefore does not take it for a cached image and runs the download
    again. *)
Theorem failed_download_is_retried env distro url w w1 :
  get_distro_url distro = Some url ->
  ensure_distro env distro MAX_PATH w = (None, w1) ->
  (exists st body,
      st <> 0
      /\ trace w1
         = Remove (cache_path env distro url)
             :: Stdout (error_line "Failed to download distro")
             :: System (download_cmd env distro url) st :: body ++ trace w)
  /\ (forall c, fs w1 !! cache_path env distro url <> Some (File c))
  /\ exists ev st' body',
       trace (snd (ensure_distro env distro MAX_PATH w1))
       = ev ++ System (download_cmd env distro url) st' :: body' ++ trace w1
       /\ quiet body'.
Proof.
  intros Hu H.
  destruct (ensure_distro_known env distro url w Hu)
    as [(_ & Hk) | [(_ & w' & f & Hk & _) | (Hno & _)]]; [congruence | congruence |].
  destruct (ensure_distro_miss env distro url w None w1 Hu Hno H)
    as (st & d & [(_ & [=] & _) | (Hst & _ & Ht & Hf)]).
  split; [exists st; eexists [_; _]; split; [exact Hst | exact Ht] |].
  split; [exact Hf |].
  destruct (ensure_distro env distro MAX_PATH w1) as [res w2] eqn:H2.
  destruct (ensure_distro_miss env distro url w1 res w2 Hu Hf H2)
    as (st' & d' & [(_ & _ & Ht') | (_ & _ & Ht' & _)]); cbn [snd]; rewrite Ht'.
  - eexists [_], st', [_; _]. split; [reflexivity |]. quiet_tac.
  - eexists [_; _], st', [_; _]. split; [reflexivity |]. quiet_tac.
Qed.

Lemma failed_download_is_retried_witness :
  (exists st body,
      st <> 0
      /\ trace (snd (ensure_distro Sim.offline "debian12" MAX_PATH Sim.fresh))
         = Remove (cache_path Sim.offline "debian12" "https://cloud.debian.org/images/cloud/bookworm/latest/debian-12-generic-arm64.qcow2")
             :: Stdout (error_line "Failed to download distro")
             :: System (download_cmd Sim.offline "debian12" "https://cloud.debian.org/images/cloud/bookworm/latest/debian-12-generic-arm64.qcow2") st
             :: body ++ trace Sim.fresh)
  /\ (forall c, fs (snd (ensure_distro Sim.offline "debian12" MAX_PATH Sim.fresh))
                  !! cache_path Sim.offline "debian12" "https://cloud.debian.org/images/cloud/bookworm/latest/debian-12-generic-arm64.qcow2" <> Some (File c))
  /\ exists ev st' body',
       trace (snd (ensure_distro Sim.offline "debian12" MAX_PATH
                     (snd (ensure_distro Sim.offline "debian12" MAX_PATH Sim.fresh))))
       = ev ++ System (download_cmd Sim.offline "debian12" "https://cloud.debian.org/images/cloud/bookworm/latest/debian-12-generic-arm64.qcow2") st'
            :: body' ++ trace (snd (ensure_distro Sim.offline "debian12" MAX_PATH Sim.fresh))
       /\ quiet body'.
Proof.
  apply (failed_download_is_retried Sim.offline "debian12" "https://cloud.debian.org/images/cloud/bookworm/latest/debian-12-generic-arm64.qcow2" Sim.fresh
           (snd (ensure_distro Sim.offline "debian12" MAX_PATH Sim.fresh))).
  - reflexivity.
  - vm_compute. reflexivity.
Defined.

(** *** The files of [create_cloud_init] *)

Lemma append_nil_r (s : string) : s +:+ "" = s.
Proof.
  induction s as [|c s IH]; [reflexivity |].
  change (String c (s +:+ "") = String c s). by rewrite IH.
Qed.

Lemma create_cloud_init_fs env vm_name username password vm_dir w r w1 :
  create_cloud_init env vm_name username password vm_dir w = (r, w1) ->
  (r = 1 /\ pipe_out env (hash_cmd password) (fs w) = None /\ fs w1 = fs w)
  \/ (r = 1 /\ fs w1 = pipe_fs env (hash_cmd password) (fs w))
  \/ (r = 1
      /\ can_write env (snprintf MAX_PATH (vm_dir +:+ "/meta-data")) (fs w1) = false
      /\ exists h,
           fs w1 = <[snprintf MAX_PATH (vm_dir +:+ "/user-data")
                       := File (cat (user_data_lines vm_name username h))]>
                     (pipe_fs env (hash_cmd password) (fs w)))
  \/ (r = 0
      /\ exists h,
           fs w1 = <[snprintf MAX_PATH (vm_dir +:+ "/meta-data")
                       := File (cat (meta_data_lines vm_name (clock w)))]>
                     (<[snprintf MAX_PATH (vm_dir +:+ "/user-data")
                          := File (cat (user_data_lines vm_name username h))]>
                        (pipe_fs env (hash_cmd password) (fs w)))).
Proof.
  unfold create_cloud_init, hash_password. fold (hash_cmd password). intros H.
  bind_step H h w2 H1. bind_step H1 fp w3 H2. apply popen_inv in H2 as (Hfp & ->).
  destruct fp as [out|].
  2: { prim H1. bind_step H a w4 H3. prim H3. prim H. cbn [fs]. left. by rewrite <- Hfp. }
  right.
  assert (Hh : fs w2 = pipe_fs env (hash_cmd password) (fs w) /\ clock w2 = clock w).
  { destruct (fgets _ _) as [[line rest]|]; prim H1; done. }
  destruct Hh as [Hfs Hck]. clear H1.
  destruct h as [hashed|].
  2: { bind_step H a w4 H3. prim H3. prim H. cbn [fs]. by left. }
  bind_step H ud w4 H3. apply fopen_w_inv in H3 as (_ & f & -> & Hf).
  destruct ud; cbn [negb] in H.
  2: { bind_step H a w5 H3. prim H3. prim H. cbn [fs]. left. by rewrite Hf. }
  bind_step H a w5 H3.
  eapply fprintf_all_content in H3 as Hc; [| cbn [fs]; rewrite Hf; apply lookup_insert_eq].
  apply fprintf_all_inv in H3 as (_ & Hck5 & _).
  cbn [fs clock] in Hc, Hck5. rewrite Hf, insert_insert_eq, Hfs in Hc.
  bind_step H md w6 H3. apply fopen_w_inv in H3 as (Hcw & f' & -> & Hf').
  destruct md; cbn [negb] in H.
  2: { bind_step H a1 w7 H3. prim H3. prim H. cbn [fs]. right; left.
       rewrite Hf'. split; [done |]. split; [by rewrite <- Hcw | by eexists]. }
  bind_step H now w7 H3. prim H3. cbn [clock] in H.
  bind_step H a1 w8 H3.
  eapply fprintf_all_content in H3 as Hc'; [| cbn [fs]; rewrite Hf'; apply lookup_insert_eq].
  cbn [fs] in Hc'. rewrite Hf', insert_insert_eq, Hc in Hc'.
  prim H. right; right. split; [done |]. exists hashed.
  rewrite Hc'. cbn [append]. by rewrite Hck5, Hck.
Qed.

(** X16.  When [create_cloud_init] returns 0, the meta-data file of the
    directory holds two lines: the instance id, which is the VM name, a
    hyphen and the time of the call in seconds, and the local host name,
    which is the VM name.  The program itself has written the two files
    [user-data] and [meta-data] of the directory and nothing else: every
    other path is as the hashing command, a shell on a line that holds
    the password, left it. *)
Theorem meta_data_document env vm_name username password vm_dir w w' :
  create_cloud_init env vm_name username password vm_dir w = (0, w') ->
  fs w' !! snprintf MAX_PATH (vm_dir +:+ "/meta-data")
  = Some (File ("instance-id: " +:+ vm_name +:+ "-" +:+ fmt_d (clock w) +:+ nl
                  +:+ "local-hostname: " +:+ vm_name +:+ nl))
  /\ forall q,
       q <> snprintf MAX_PATH (vm_dir +:+ "/user-data") ->
       q <> snprintf MAX_PATH (vm_dir +:+ "/meta-data") ->
       fs w' !! q = pipe_fs env (hash_cmd password) (fs w) !! q.
Proof.
  intros H. apply create_cloud_init_fs in H
    as [(? & _) | [(? & _) | [(? & _) | (_ & h & ->)]]]; [discriminate | discriminate
                                                            | discriminate |].
  split.
  - rewrite lookup_insert_eq. unfold meta_data_lines. cbn [cat].
    by rewrite append_nil_r, !append_assoc.
  - intros q Hu Hm. by rewrite !lookup_insert_ne.
Qed.

Lemma meta_data_document_witness :
  fs (snd (create_cloud_init Sim.fair "demo1" "alice" "secret123" "/home/u/.v4m/vms/demo1"
             Sim.taken))
    !! snprintf MAX_PATH ("/home/u/.v4m/vms/demo1" +:+ "/meta-data")
  = Some (File ("instance-id: " +:+ "demo1" +:+ "-" +:+ fmt_d (clock Sim.taken) +:+ nl
                  +:+ "local-hostname: " +:+ "demo1" +:+ nl))
  /\ forall q,
       q <> snprintf MAX_PATH ("/home/u/.v4m/vms/demo1" +:+ "/user-data") ->
       q <> snprintf MAX_PATH ("/home/u/.v4m/vms/demo1" +:+ "/meta-data") ->
       fs (snd (create_cloud_init Sim.fair "demo1" "alice" "secret123" "/home/u/.v4m/vms/demo1"
                  Sim.taken)) !! q
       = pipe_fs Sim.fair (hash_cmd "secret123") (fs Sim.taken) !! q.
Proof.
  apply (meta_data_document Sim.fair "demo1" "alice" "secret123" "/home/u/.v4m/vms/demo1"
           Sim.taken).
  vm_compute. reflexivity.
Defined.

(** X17.  A failure of [create_cloud_init] is not rolled back.  When it
    returns 1, the program itself has either written nothing, so that
    the file system is the one it found (the pipe could not be opened)
    or the one the hashing command left (no hash came, or the user-data
    file could not be opened); or the meta-data file could not be
    opened, and the user-data file, written in full before, stays where
    it is, every other path being as the hashing command left it. *)
Theorem cloud_init_failure_leftover env vm_name username password vm_dir w w' :
  create_cloud_init env vm_name username password vm_dir w = (1, w') ->
  (pipe_out env (hash_cmd password) (fs w) = None /\ fs w' = fs w)
  \/ fs w' = pipe_fs env (hash_cmd password) (fs w)
  \/ (can_write env (snprintf MAX_PATH (vm_dir +:+ "/meta-data")) (fs w') = false
      /\ exists h,
           fs w' !! snprintf MAX_PATH (vm_dir +:+ "/user-data")
           = Some (File (cat (user_data_lines vm_name username h)))
           /\ forall q, q <> snprintf MAX_PATH (vm_dir +:+ "/user-data") ->
                        fs w' !! q = pipe_fs env (hash_cmd password) (fs w) !! q).
Proof.
  intros H. apply create_cloud_init_fs in H
    as [(_ & ? & ?) | [(_ & ?) | [(_ & Hcw & h & Hf) | (? & _)]]];
    [by left | by right; left | | discriminate].
  right; right. split; [exact Hcw |]. exists h. rewrite Hf. split.
  - apply lookup_insert_eq.
  - intros q Hq. by rewrite lookup_insert_ne.
Qed.

Lemma cloud_init_failure_leftover_witness :
  (pipe_out Sim.meta_fails (hash_cmd "secret123") (fs Sim.taken) = None
   /\ fs (snd (create_cloud_init Sim.meta_fails "demo1" "alice" "secret123"
                 "/home/u/.v4m/vms/demo1" Sim.taken))
      = fs Sim.taken)
  \/ fs (snd (create_cloud_init Sim.meta_fails "demo1" "alice" "secret123"
                "/home/u/.v4m/vms/demo1" Sim.taken))
     = pipe_fs Sim.meta_fails (hash_cmd "secret123") (fs Sim.taken)
  \/ (can_write Sim.meta_fails (snprintf MAX_PATH ("/home/u/.v4m/vms/demo1" +:+ "/meta-data"))
        (fs (snd (create_cloud_init Sim.meta_fails "demo1" "alice" "secret123"
                    "/home/u/.v4m/vms/demo1" Sim.taken)))
      = false
      /\ exists h,
           fs (snd (create_cloud_init Sim.meta_fails "demo1" "alice" "secret123"
                      "/home/u/.v4m/vms/demo1" Sim.taken))
             !! snprintf MAX_PATH ("/home/u/.v4m/vms/demo1" +:+ "/user-data")
           = Some (File (cat (user_data_lines "demo1" "alice" h)))
           /\ forall q, q <> snprintf MAX_PATH ("/home/u/.v4m/vms/demo1" +:+ "/user-data") ->
                        fs (snd (create_cloud_init Sim.meta_fails "demo1" "alice" "secret123"
                                   "/home/u/.v4m/vms/demo1" Sim.taken)) !! q
                        = pipe_fs Sim.meta_fails (hash_cmd "secret123") (fs Sim.taken) !! q).
Proof.
  apply (cloud_init_failure_leftover Sim.meta_fails "demo1" "alice" "secret123"
           "/home/u/.v4m/vms/demo1" Sim.taken).
  vm_compute. reflexivity.
Defined.

Example meta_data_failure_leaves_user_data :
  fst (create_cloud_init Sim.meta_fails "demo1" "alice" "secret123"
         "/home/u/.v4m/vms/demo1" Sim.taken) = 1
  /\ is_Some (fs (snd (create_cloud_init Sim.meta_fails "demo1" "alice" "secret123"
                         "/home/u/.v4m/vms/demo1" Sim.taken))
               !! "/home/u/.v4m/vms/demo1/user-data"%string)
  /\ fs Sim.taken !! "/home/u/.v4m/vms/demo1/user-data"%string = None.
Proof. vm_compute. split; [reflexivity |]. split; [by eexists | reflexivity]. Qed.

(** *** The record of a VM, written and read back *)

Lemma scan_vm_info_step fuel stream st :
  scan_vm_info (S fuel) stream st
  = match fgets MAX_LINE stream with
    | None => st
    | Some (line, rest) => scan_vm_info fuel rest (scan_line line st)
    end.
Proof.
  cbn [scan_vm_info]. destruct (fgets MAX_LINE stream) as [[line rest]|]; [| reflexivity].
  destruct st as [[u p] m]. reflexivity.
Qed.

Lemma fgets_go_line n body rest :
  all_chars not_nl body = true ->
  (String.length body < n)%nat ->
  fgets_go n ((body +:+ nl) +:+ rest) = (body +:+ nl, rest).
Proof.
  revert n. induction body as [|c body IH]; intros n Hb Hn.
  - destruct n as [|n]; [lia |]. reflexivity.
  - destruct n as [|n]; [cbn in Hn; lia |].
    unfold all_chars in Hb. cbn in Hb. apply andb_prop in Hb as [Hc Hb].
    change ((String c body +:+ nl) +:+ rest) with (String c ((body +:+ nl) +:+ rest)).
    cbn [fgets_go]. unfold not_nl in Hc. apply negb_true_iff in Hc. rewrite Hc.
    rewrite (IH n Hb) by (cbn in Hn; lia). reflexivity.
Qed.

Lemma fgets_line body rest :
  all_chars not_nl body = true ->
  (String.length body < MAX_LINE - 1)%nat ->
  fgets MAX_LINE ((body +:+ nl) +:+ rest) = Some (body +:+ nl, rest).
Proof.
  intros Hb Hn.
  assert (E : MAX_LINE = S (S (MAX_LINE - 2))) by (vm_compute; reflexivity).
  assert (E1 : (MAX_LINE - 1)%nat = S (MAX_LINE - 2)) by (vm_compute; reflexivity).
  rewrite E1 in Hn. rewrite E at 1. rewrite fgets_big.
  rewrite (fgets_go_line _ body rest Hb Hn).
  destruct body; reflexivity.
Qed.

Lemma all_chars_app test a b :
  all_chars test (a +:+ b) = all_chars test a && all_chars test b.
Proof.
  unfold all_chars. induction a as [|c a IH]; [reflexivity |].
  change (String c a +:+ b) with (String c (a +:+ b)). cbn. by rewrite IH, andb_assoc.
Qed.

Lemma scan_not_dq_value v t :
  all_chars not_dq v = true -> scan_not_dq ((v +:+ dq) +:+ t) = v.
Proof.
  induction v as [|c v IH]; intros Hv; [reflexivity |].
  unfold all_chars in Hv. cbn in Hv. apply andb_prop in Hv as [Hc Hv].
  change ((String c v +:+ dq) +:+ t) with (String c ((v +:+ dq) +:+ t)).
  cbn [scan_not_dq]. unfold not_dq in Hc. apply negb_true_iff in Hc. rewrite Hc.
  by rewrite (IH Hv).
Qed.

(** a quoted word is found at the opening quote of a quote-free value
    only when the value is that word *)
Lemma prefix_quoted_value s v t :
  all_chars not_dq s = true -> all_chars not_dq v = true ->
  String.prefix (s +:+ dq) ((v +:+ dq) +:+ t) = true -> v = s.
Proof.
  revert v. induction s as [|a s IH]; intros v Hs Hv H.
  - destruct v as [|c v]; [reflexivity |]. exfalso.
    unfold all_chars in Hv. cbn in Hv. apply andb_prop in Hv as [Hc _].
    change (String.prefix (String "034"%char "") (String c ((v +:+ dq) +:+ t)) = true) in H.
    cbn [String.prefix] in H. destruct (Ascii.ascii_dec "034"%char c) as [<- |]; discriminate.
  - unfold all_chars in Hs. cbn in Hs. apply andb_prop in Hs as [Ha Hs].
    change (String a s +:+ dq) with (String a (s +:+ dq)) in H.
    destruct v as [|c v].
    + exfalso. change (("" +:+ dq) +:+ t) with (String "034"%char t) in H.
      cbn [String.prefix] in H.
      destruct (Ascii.ascii_dec a "034"%char) as [-> |]; discriminate.
    + unfold all_chars in Hv. cbn in Hv. apply andb_prop in Hv as [_ Hv].
      change ((String c v +:+ dq) +:+ t) with (String c ((v +:+ dq) +:+ t)) in H.
      cbn [String.prefix] in H. destruct (Ascii.ascii_dec a c) as [<- |]; [| discriminate].
      f_equal. by apply IH.
Qed.

(** past the opening quote of a quote-free value, no quoted word is
    found *)
Lemma strstr_past_value x k v :
  all_chars not_dq v = true ->
  x <> ","%char ->
  strstr ((v +:+ dq) +:+ ("," +:+ nl)) (String "034"%char (String x k)) = false.
Proof.
  intros Hv Hx. induction v as [|c v IH].
  - change (("" +:+ dq) +:+ ("," +:+ nl))
      with (String "034"%char (String "," (String "010"%char ""))).
    cbn [strstr String.prefix].
    destruct (Ascii.ascii_dec "034"%char "034"%char); [| done].
    destruct (Ascii.ascii_dec x ","%char); [done |].
    destruct (Ascii.ascii_dec "034"%char ","%char); [discriminate |].
    destruct (Ascii.ascii_dec "034"%char "010"%char); [discriminate |]. reflexivity.
  - unfold all_chars in Hv. cbn in Hv. apply andb_prop in Hv as [Hc Hv].
    change ((String c v +:+ dq) +:+ ("," +:+ nl))
      with (String c ((v +:+ dq) +:+ ("," +:+ nl))).
    cbn [strstr String.prefix]. rewrite (IH Hv).
    destruct (Ascii.ascii_dec "034"%char c) as [<- |]; [discriminate | reflexivity].
Qed.

Lemma strstr_cons needle c hay :
  strstr (String c hay) needle = String.prefix needle (String c hay) || strstr hay needle.
Proof. reflexivity. Qed.

(** the line of a key that [show_vm_info] does not look for leaves the
    three buffers as they are *)
Lemma scan_line_other line st :
  sscanf_field "username" line = None ->
  sscanf_field "password" line = None ->
  sscanf_field "mac" line = None ->
  scan_line line st = st.
Proof.
  intros Hu Hp Hm. destruct st as [[u p] m]. unfold scan_line.
  rewrite Hu, Hp, Hm. by repeat destruct (strstr _ _).
Qed.

Lemma scan_line_username v u p m :
  all_chars not_dq v = true ->
  scan_line (json_field "username" v +:+ "," +:+ nl) (u, p, m)
  = (match v with EmptyString => u | _ => v end, p, m).
Proof.
  intros Hv. unfold scan_line.
  replace (strstr (json_field "username" v +:+ "," +:+ nl) (quoted "username")) with true
    by reflexivity.
  change (sscanf_field "username" (json_field "username" v +:+ "," +:+ nl))
    with (match scan_not_dq ((v +:+ dq) +:+ ("," +:+ nl)) with
          | EmptyString => None
          | s => Some s
          end).
  rewrite (scan_not_dq_value v _ Hv). by destruct v.
Qed.

Lemma scan_line_password v u p m :
  all_chars not_dq v = true ->
  v <> "username"%string ->
  scan_line (json_field "password" v +:+ "," +:+ nl) (u, p, m)
  = (u, match v with EmptyString => p | _ => v end, m).
Proof.
  intros Hv Hne. unfold scan_line.
  assert (Hno : strstr (json_field "password" v +:+ "," +:+ nl) (quoted "username") = false).
  { change (strstr (json_field "password" v +:+ "," +:+ nl) (quoted "username"))
      with (String.prefix ("username" +:+ dq) ((v +:+ dq) +:+ ("," +:+ nl))
            || strstr ((v +:+ dq) +:+ ("," +:+ nl)) (quoted "username")).
    pose proof (strstr_past_value "u" ("sername" +:+ dq) v Hv ltac:(discriminate)) as Hs.
    change (String "034"%char (String "u" ("sername" +:+ dq)))
      with (quoted "username") in Hs.
    rewrite Hs.
    destruct (String.prefix _ _) eqn:E; [| reflexivity].
    apply prefix_quoted_value in E; [done | reflexivity | exact Hv]. }
  rewrite Hno.
  replace (strstr (json_field "password" v +:+ "," +:+ nl) (quoted "password")) with true
    by reflexivity.
  change (sscanf_field "password" (json_field "password" v +:+ "," +:+ nl))
    with (match scan_not_dq ((v +:+ dq) +:+ ("," +:+ nl)) with
          | EmptyString => None
          | s => Some s
          end).
  rewrite (scan_not_dq_value v _ Hv). by destruct v.
Qed.

Lemma scan_line_mac v u p m :
  exists m', scan_line (json_field "mac" v +:+ "," +:+ nl) (u, p, m) = (u, p, m').
Proof.
  unfold scan_line.
  replace (sscanf_field "username" (json_field "mac" v +:+ "," +:+ nl)) with (@None string)
    by reflexivity.
  replace (sscanf_field "password" (json_field "mac" v +:+ "," +:+ nl)) with (@None string)
    by reflexivity.
  repeat destruct (strstr _ _); by eexists.
Qed.

Lemma short_line body :
  (String.length body <= 300)%nat -> (String.length body < MAX_LINE - 1)%nat.
Proof.
  intros H. apply (Nat.le_lt_trans _ 300); [exact H |].
  apply Nat.ltb_lt. vm_compute. reflexivity.
Qed.

Lemma scan_vm_info_step_eq fuel stream st :
  scan_vm_info fuel stream st
  = match fuel with
    | O => st
    | S fuel' =>
        match fgets MAX_LINE stream with
        | None => st
        | Some (line, rest) => scan_vm_info fuel' rest (scan_line line st)
        end
    end.
Proof. destruct fuel; [reflexivity | apply scan_vm_info_step]. Qed.

Lemma scan_feed fuel line body rest st :
  line = body +:+ nl ->
  all_chars not_nl body = true ->
  (String.length body < MAX_LINE - 1)%nat ->
  (String.length (line +:+ rest) < fuel)%nat ->
  exists fuel',
    (String.length rest < fuel')%nat
    /\ scan_vm_info fuel (line +:+ rest) st = scan_vm_info fuel' rest (scan_line line st).
Proof.
  intros -> Hb Hn Hf. pose proof (fgets_line body rest Hb Hn) as Hg. clear Hb Hn.
  rewrite !length_append in Hf. change (String.length nl) with 1%nat in Hf.
  destruct fuel as [|fuel]; [lia |]. exists fuel. split; [lia |].
  by rewrite scan_vm_info_step, Hg.
Qed.

Lemma field_line key v :
  all_chars not_nl key = true ->
  all_chars not_nl v = true ->
  (String.length key + String.length v <= 280)%nat ->
  json_field key v +:+ "," +:+ nl = (json_field key v +:+ ",") +:+ nl
  /\ all_chars not_nl (json_field key v +:+ ",") = true
  /\ (String.length (json_field key v +:+ ",") < MAX_LINE - 1)%nat
  /\ all_chars not_nl (json_field key v) = true
  /\ (String.length (json_field key v) < MAX_LINE - 1)%nat.
Proof.
  intros Hk Hv Hl. split; [by rewrite append_assoc |].
  assert (Hn : all_chars not_nl (json_field key v) = true).
  { unfold json_field, quoted. rewrite !all_chars_app, Hk, Hv. reflexivity. }
  assert (Hlen : String.length (json_field key v) = (String.length key + String.length v + 10)%nat).
  { unfold json_field, quoted. rewrite !length_append.
    change (String.length dq) with 1%nat. change (String.length "    ") with 4%nat.
    change (String.length ": ") with 2%nat. lia. }
  split; [rewrite all_chars_app, Hn; reflexivity |].
  split; [apply short_line; rewrite length_append, Hlen; change (String.length ",") with 1%nat; lia |].
  split; [exact Hn |]. apply short_line. rewrite Hlen. lia.
Qed.

(** what the loop of [show_vm_info] finds in the record that [create_vm]
    writes, given what the round over the password line finds *)
Lemma scan_vm_info_record vm_name distro username password vm_mac created shown :
  all_chars not_nl vm_name = true -> all_chars not_nl distro = true ->
  all_chars not_nl username = true -> all_chars not_nl password = true ->
  all_chars not_nl vm_mac = true -> all_chars not_nl created = true ->
  all_chars not_dq username = true ->
  (String.length vm_name <= MAX_NAME - 1)%nat ->
  (String.length distro <= MAX_NAME - 1)%nat ->
  (String.length username <= MAX_NAME - 1)%nat ->
  (String.length password <= MAX_NAME - 1)%nat ->
  (String.length vm_mac <= 17)%nat ->
  (String.length created <= 63)%nat ->
  scan_line (json_field "password" password +:+ "," +:+ nl)
    (username, EmptyString, EmptyString)
  = (username, shown, EmptyString) ->
  exists mac,
    scan_vm_info
      (S (String.length (cat (vm_info_lines vm_name distro username password vm_mac created))))
      (cat (vm_info_lines vm_name distro username password vm_mac created))
      (EmptyString, EmptyString, EmptyString)
    = (username, shown, mac).
Proof.
  intros Nn Nd Nu Np Nm Nc Qu Ln Ld Lu Lp Lm Lc Hpw.
  change (MAX_NAME - 1)%nat with 255%nat in *.
  unfold vm_info_lines. cbn [cat].
  match goal with |- context [scan_vm_info (S (String.length ?c))] =>
    generalize (Nat.lt_succ_diag_r (String.length c)); generalize (S (String.length c))
  end.
  intros fuel Hf.
  (* the opening brace *)
  destruct (scan_feed fuel _ "{" _ (EmptyString, EmptyString, EmptyString)
              eq_refl eq_refl (short_line "{" ltac:(cbn; lia)) Hf) as (f1 & Hf1 & ->). clear Hf.
  rewrite scan_line_other by reflexivity.
  (* name *)
  destruct (field_line "name" vm_name eq_refl Nn ltac:(cbn; lia)) as (E & B & L & _ & _).
  destruct (scan_feed f1 _ _ _ (EmptyString, EmptyString, EmptyString) E B L Hf1)
    as (f2 & Hf2 & ->). clear Hf1 E B L.
  rewrite scan_line_other by reflexivity.
  (* distro *)
  destruct (field_line "distro" distro eq_refl Nd ltac:(cbn; lia)) as (E & B & L & _ & _).
  destruct (scan_feed f2 _ _ _ (EmptyString, EmptyString, EmptyString) E B L Hf2)
    as (f3 & Hf3 & ->). clear Hf2 E B L.
  rewrite scan_line_other by reflexivity.
  (* username *)
  destruct (field_line "username" username eq_refl Nu ltac:(cbn; lia)) as (E & B & L & _ & _).
  destruct (scan_feed f3 _ _ _ (EmptyString, EmptyString, EmptyString) E B L Hf3)
    as (f4 & Hf4 & ->). clear Hf3 E B L.
  rewrite (scan_line_username username _ _ _ Qu).
  replace (match username with EmptyString => EmptyString | _ => username end)
    with username by (by destruct username).
  (* password *)
  destruct (field_line "password" password eq_refl Np ltac:(cbn; lia)) as (E & B & L & _ & _).
  destruct (scan_feed f4 _ _ _ (username, EmptyString, EmptyString) E B L Hf4)
    as (f5 & Hf5 & ->). clear Hf4 E B L.
  rewrite Hpw.
  (* mac *)
  destruct (field_line "mac" vm_mac eq_refl Nm ltac:(cbn; lia)) as (E & B & L & _ & _).
  destruct (scan_feed f5 _ _ _ (username, shown, EmptyString) E B L Hf5)
    as (f6 & Hf6 & ->). clear Hf5 E B L.
  destruct (scan_line_mac vm_mac username shown EmptyString) as (mac & ->).
  exists mac.
  (* memory, cpus, disk_size *)
  destruct (field_line "memory" DEFAULT_MEMORY eq_refl eq_refl ltac:(cbn; lia)) as (E & B & L & _ & _).
  destruct (scan_feed f6 _ _ _ (username, shown, mac) E B L Hf6)
    as (f7 & Hf7 & ->). clear Hf6 E B L.
  rewrite scan_line_other by reflexivity.
  destruct (field_line "cpus" DEFAULT_CPUS eq_refl eq_refl ltac:(cbn; lia)) as (E & B & L & _ & _).
  destruct (scan_feed f7 _ _ _ (username, shown, mac) E B L Hf7)
    as (f8 & Hf8 & ->). clear Hf7 E B L.
  rewrite scan_line_other by reflexivity.
  destruct (field_line "disk_size" DEFAULT_DISK_SIZE eq_refl eq_refl ltac:(cbn; lia))
    as (E & B & L & _ & _).
  destruct (scan_feed f8 _ _ _ (username, shown, mac) E B L Hf8)
    as (f9 & Hf9 & ->). clear Hf8 E B L.
  rewrite scan_line_other by reflexivity.
  (* created, which has no comma *)
  destruct (field_line "created" created eq_refl Nc ltac:(cbn; lia)) as (_ & _ & _ & B & L).
  destruct (scan_feed f9 _ (json_field "created" created) _ (username, shown, mac)
              eq_refl B L Hf9) as (f10 & Hf10 & ->). clear Hf9 B L.
  rewrite scan_line_other by reflexivity.
  (* the closing brace and the end of the file *)
  destruct (scan_feed f10 _ "}" _ (username, shown, mac)
              eq_refl eq_refl (short_line "}" ltac:(cbn; lia)) Hf10) as (f11 & Hf11 & ->). clear Hf10.
  rewrite scan_line_other by reflexivity.
  destruct f11 as [|f11]; [cbn in Hf11; lia |]. reflexivity.
Qed.

Lemma show_vm_info_run vm_name vm_dir w c u p m :
  fs w !! snprintf MAX_PATH (vm_dir +:+ "/vm-info.json") = Some (File c) ->
  scan_vm_info (S (String.length c)) c (EmptyString, EmptyString, EmptyString) = (u, p, m) ->
  fs (snd (show_vm_info vm_name vm_dir w)) = fs w
  /\ exists pre post,
       trace (snd (show_vm_info vm_name vm_dir w))
       = post
           ++ Stdout ("  SSH: ssh " +:+ u +:+ "@" +:+ vm_name +:+ ".local" +:+ nl)
           :: Stdout ("  Root password: " +:+ p +:+ " (same as user)" +:+ nl)
           :: Stdout ("  Password: " +:+ p +:+ nl)
           :: Stdout ("  Username: " +:+ u +:+ nl)
           :: pre ++ trace w
       /\ quiet pre /\ quiet post.
Proof.
  intros Hc Hs. destruct (show_vm_info vm_name vm_dir w) as [u0 w1] eqn:H. cbn [snd].
  unfold show_vm_info in H. bind_step H fp w2 H1. prim H1. rewrite Hc, Hs in H.
  repeat (let H' := fresh in
          apply bind_inv in H as (? & ? & H' & H); prim H').
  prim H. cbn [fs trace]. split; [reflexivity |].
  eexists [_; _; _; _; _; _; _; _], [_; _; _]. split; [reflexivity |].
  split; repeat (apply Forall_cons_2; [reflexivity |]); apply Forall_nil_2.
Qed.

(** X18.  The record of a VM is read back as it was written.  When the file
    [vm-info.json] of the directory holds what [create_vm] writes for a
    user name and a password that are free of double quotes, and no
    field holds a newline or is longer than its buffer, [show_vm_info]
    prints that user name and that password, and leaves the file system
    as it is.  The password must not be the word [username], which is
    not read back. *)
Theorem vm_info_round_trip vm_name distro username password vm_mac created vm_dir w :
  fs w !! snprintf MAX_PATH (vm_dir +:+ "/vm-info.json")
  = Some (File (cat (vm_info_lines vm_name distro username password vm_mac created))) ->
  all_chars not_nl vm_name = true -> all_chars not_nl distro = true ->
  all_chars not_nl username = true -> all_chars not_nl password = true ->
  all_chars not_nl vm_mac = true -> all_chars not_nl created = true ->
  all_chars not_dq username = true -> all_chars not_dq password = true ->
  (String.length vm_name <= MAX_NAME - 1)%nat ->
  (String.length distro <= MAX_NAME - 1)%nat ->
  (String.length username <= MAX_NAME - 1)%nat ->
  (String.length password <= MAX_NAME - 1)%nat ->
  (String.length vm_mac <= 17)%nat ->
  (String.length created <= 63)%nat ->
  password <> "username"%string ->
  fs (snd (show_vm_info vm_name vm_dir w)) = fs w
  /\ exists pre post,
       trace (snd (show_vm_info vm_name vm_dir w))
       = post
           ++ Stdout ("  SSH: ssh " +:+ username +:+ "@" +:+ vm_name +:+ ".local" +:+ nl)
           :: Stdout ("  Root password: " +:+ password +:+ " (same as user)" +:+ nl)
           :: Stdout ("  Password: " +:+ password +:+ nl)
           :: Stdout ("  Username: " +:+ username +:+ nl)
           :: pre ++ trace w
       /\ quiet pre /\ quiet post.
Proof.
  intros Hc Nn Nd Nu Np Nm Nc Qu Qp Ln Ld Lu Lp Lm Lc Hne.
  destruct (scan_vm_info_record vm_name distro username password vm_mac created password)
    as (mac & Hs); try assumption.
  { rewrite (scan_line_password password _ _ _ Qp Hne). by destruct password. }
  exact (show_vm_info_run vm_name vm_dir w _ username password mac Hc Hs).
Qed.

Lemma vm_info_round_trip_witness :
  fs (snd (show_vm_info "demo1" "/home/u/.v4m/vms/demo1" (recorded "secret123")))
  = fs (recorded "secret123")
  /\ exists pre post,
       trace (snd (show_vm_info "demo1" "/home/u/.v4m/vms/demo1" (recorded "secret123")))
       = post
           ++ Stdout ("  SSH: ssh " +:+ "alice" +:+ "@" +:+ "demo1" +:+ ".local" +:+ nl)
           :: Stdout ("  Root password: " +:+ "secret123" +:+ " (same as user)" +:+ nl)
           :: Stdout ("  Password: " +:+ "secret123" +:+ nl)
           :: Stdout ("  Username: " +:+ "alice" +:+ nl)
           :: pre ++ trace (recorded "secret123")
       /\ quiet pre /\ quiet post.
Proof.
  apply (vm_info_round_trip "demo1" "debian12" "alice" "secret123" "52:54:00:12:34:56"
           "2023-11-14T22:13:20Z" "/home/u/.v4m/vms/demo1" (recorded "secret123")).
  - reflexivity.
  - reflexivity.
  - reflexivity.
  - reflexivity.
  - reflexivity.
  - reflexivity.
  - reflexivity.
  - reflexivity.
  - reflexivity.
  - vm_compute. lia.
  - vm_compute. lia.
  - vm_compute. lia.
  - vm_compute. lia.
  - vm_compute. lia.
  - vm_compute. lia.
  - discriminate.
Defined.

(** X19.  A password that is the word [username] is not read back.  Its line
    in the record holds the quoted key of the user name, so the loop of
    [show_vm_info] takes it for the line of the user name, fails to scan
    it and never tries it as the line of the password: the password is
    printed empty. *)
Theorem password_username_is_not_shown vm_name distro username vm_mac created vm_dir w :
  fs w !! snprintf MAX_PATH (vm_dir +:+ "/vm-info.json")
  = Some (File (cat (vm_info_lines vm_name distro username "username" vm_mac created))) ->
  all_chars not_nl vm_name = true -> all_chars not_nl distro = true ->
  all_chars not_nl username = true ->
  all_chars not_nl vm_mac = true -> all_chars not_nl created = true ->
  all_chars not_dq username = true ->
  (String.length vm_name <= MAX_NAME - 1)%nat ->
  (String.length distro <= MAX_NAME - 1)%nat ->
  (String.length username <= MAX_NAME - 1)%nat ->
  (String.length vm_mac <= 17)%nat ->
  (String.length created <= 63)%nat ->
  exists pre post,
    trace (snd (show_vm_info vm_name vm_dir w))
    = post
        ++ Stdout ("  SSH: ssh " +:+ username +:+ "@" +:+ vm_name +:+ ".local" +:+ nl)
        :: Stdout ("  Root password: " +:+ "" +:+ " (same as user)" +:+ nl)
        :: Stdout ("  Password: " +:+ "" +:+ nl)
        :: Stdout ("  Username: " +:+ username +:+ nl)
        :: pre ++ trace w
    /\ quiet pre /\ quiet post.
Proof.
  intros Hc Nn Nd Nu Nm Nc Qu Ln Ld Lu Lm Lc.
  destruct (scan_vm_info_record vm_name distro username "username" vm_mac created "")
    as (mac & Hs); try assumption; try reflexivity.
  { cbn. lia. }
  exact (proj2 (show_vm_info_run vm_name vm_dir w _ username "" mac Hc Hs)).
Qed.

Lemma password_username_is_not_shown_witness :
  exists pre post,
    trace (snd (show_vm_info "demo1" "/home/u/.v4m/vms/demo1" (recorded "username")))
    = post
        ++ Stdout ("  SSH: ssh " +:+ "alice" +:+ "@" +:+ "demo1" +:+ ".local" +:+ nl)
        :: Stdout ("  Root password: " +:+ "" +:+ " (same as user)" +:+ nl)
        :: Stdout ("  Password: " +:+ "" +:+ nl)
        :: Stdout ("  Username: " +:+ "alice" +:+ nl)
        :: pre ++ trace (recorded "username")
    /\ quiet pre /\ quiet post.
Proof.
  apply (password_username_is_not_shown "demo1" "debian12" "alice" "52:54:00:12:34:56"
           "2023-11-14T22:13:20Z" "/home/u/.v4m/vms/demo1" (recorded "username")).
  - reflexivity.
  - reflexivity.
  - reflexivity.
  - reflexivity.
  - reflexivity.
  - reflexivity.
  - reflexivity.
  - vm_compute. lia.
  - vm_compute. lia.
  - vm_compute. lia.
  - vm_compute. lia.
  - vm_compute. lia.
Defined.

Example password_username_run :
  In (Stdout ("  Password: " +:+ nl))
    (trace (snd (create_vm Sim.fair "demo1" "debian12" "alice" "username" Sim.fresh)))
  /\ In (Stdout ("  Password: " +:+ "secret123" +:+ nl))
       (trace (snd (create_vm Sim.fair "demo1" "debian12" "alice" "secret123" Sim.fresh))).
Proof. vm_compute. tauto. Qed.

(** *** The steps of a run that succeeds *)

(** X20.  A run of [create_vm] that returns 0 went through every checked step
    with exit status 0, in this order: the copy of the image to the disk
    of the VM, the resize of that disk right after it, the making of the
    ISO, the line that closes provisioning, and the start of the
    hypervisor.  Between and after these, nothing reported an error and
    the sixty seconds were waited after the start. *)
Theorem success_path env vm_name distro username password w w1 :
  create_vm env vm_name distro username password w = (0, w1) ->
  exists image vm_mac s1 s2 s3 s4 s5,
    trace w1
    = s5 ++ System (qemu_cmd vm_mac (vm_dir_of env vm_name)) 0
        :: s4 ++ Stdout created_line
        :: s3 ++ System (iso_cmd env vm_name) 0
        :: s2 ++ System (resize_cmd env vm_name) 0
        :: System (copy_cmd image (disk_of env vm_name)) 0
        :: s1 ++ trace w
    /\ quiet s1 /\ quiet s2 /\ quiet s3 /\ quiet s4 /\ quiet s5
    /\ In (Sleep 60) s5.
Proof.
  unfold create_vm. fold (vm_dir_of env vm_name). fold (disk_of env vm_name). intros H.
  bind_step H a w2 H1. prim H1.
  bind_step H ex w3 H1. prim H1. cbn [fs] in H.
  destruct (match fs w !! _ with Some Dir => true | _ => false end).
  { bind_step H a1 w4 H1. prim H1. unfold ret in H. discriminate H. }
  bind_step H st0 w4 H1. apply mkdir_inv in H1 as (f0 & -> & _).
  bind_step H found w5 H1. apply ensure_distro_inv in H1 as (ev1 & Ht5 & Hd).
  cbn [trace] in Ht5.
  destruct Hd as [[-> ->] | [[[dp ->] Hq1] | (-> & p & body & -> & Hq1)]].
  1,3: unfold ret in H; discriminate H.
  bind_step H a1 w6 H1. prim H1.
  bind_step H copied w7 H1. unfold copy_file in H1. apply system_inv in H1 as (-> & _).
  fold (copy_cmd dp (disk_of env vm_name)) in H.
  cbn [fs prng clock trace] in *.
  destruct (Z.eqb_spec copied 0) as [E0|Ne]; cbn [negb] in H.
  2: { bind_step H a2 w8 H1. prim H1. unfold ret in H. discriminate H. }
  subst copied. fold (resize_cmd env vm_name) in H.
  bind_step H resized w8 H1. apply system_inv in H1 as (-> & _).
  cbn [fs prng clock trace] in *.
  destruct (Z.eqb_spec resized 0) as [E0|Ne]; cbn [negb] in H.
  2: { bind_step H a2 w9 H1. prim H1. unfold ret in H. discriminate H. }
  subst resized.
  bind_step H vm_mac w9 H1. apply generate_mac_inv in H1. rename H1 into Ht9. cbn [trace] in Ht9.
  bind_step H efi w10 H1. apply system_inv in H1 as (-> & _).
  bind_step H a2 w11 H1. prim H1. cbn [fs prng clock trace] in *.
  bind_step H ci w12 H1. apply create_cloud_init_inv in H1 as (ev2 & Ht12 & Hc).
  cbn [trace] in Ht12. rewrite Ht9, Ht5 in Ht12.
  destruct Hc as [(-> & -> & Hfs12) | [(-> & msg & body & Hin & -> & Hq2) | [-> Hq2]]].
  1,2: unfold ret in H; discriminate H.
  cbn [Z.eqb negb] in H. fold (temp_dir_of env) in H.
  bind_step H st1 w13 H1. apply mkdir_inv in H1 as (f1 & -> & _).
  bind_step H c1 w14 H1. unfold copy_file in H1. apply system_inv in H1 as (-> & _).
  bind_step H c2 w15 H1. unfold copy_file in H1. apply system_inv in H1 as (-> & _).
  fold (iso_cmd env vm_name) in H.
  bind_step H iso w16 H1. apply system_inv in H1 as (-> & _).
  cbn [fs prng clock trace] in *. rewrite Ht12 in H.
  destruct (Z.eqb_spec iso 0) as [E0|Ne]; cbn [negb] in H.
  2: { bind_step H a3 w17 H1. prim H1.
       bind_step H st' w18 H1. apply system_inv in H1 as (-> & _).
       unfold ret in H. discriminate H. }
  subst iso.
  bind_step H st2 w17 H1. apply system_inv in H1 as (-> & _).
  bind_step H vi w18 H1. apply fopen_w_inv in H1 as (Hvi & f2 & -> & _).
  cbn [fs prng clock trace] in *.
  bind_step H a3 w19 H1.
  assert (Ht19 : exists s3, trace w19
            = s3 ++ System (iso_cmd env vm_name) 0
                :: ([System (copy_cmd (snprintf MAX_PATH (vm_dir_of env vm_name +:+ "/meta-data"))
                               (snprintf MAX_PATH (temp_dir_of env +:+ "/meta-data"))) c2;
                     System (copy_cmd (snprintf MAX_PATH (vm_dir_of env vm_name +:+ "/user-data"))
                               (snprintf MAX_PATH (temp_dir_of env +:+ "/user-data"))) c1;
                     Mkdir (temp_dir_of env) st1]
                    ++ ev2 ++ [Stdout (info_line "Configuring cloud-init...");
                               System (efi_cmd env vm_name) efi])
                ++ System (resize_cmd env vm_name) 0
                :: System (copy_cmd dp (disk_of env vm_name)) 0
                :: (Stdout (info_line "Setting up VM disk...")
                      :: ev1 ++ [Mkdir (vm_dir_of env vm_name) st0;
                                 Stdout (info_line "Creating VM...")])
                ++ trace w
            /\ quiet s3).
  { exists [FopenW (vm_info_path env vm_name) vi;
             System (snprintf MAX_PATH (rm_temp_fmt (temp_dir_of env))) st2].
    split; [| by destruct vi; quiet_tac].
    destruct vi.
    - bind_step H1 now w20 H2. prim H2. apply fprintf_all_inv in H1 as (_ & _ & ->).
      cbn [trace]. norm_app.
    - prim H1. cbn [trace]. norm_app. }
  clear H1. destruct Ht19 as (s3 & Ht19 & Hq3).
  bind_step H a4 w20 H1. prim H1.
  apply start_vm_inv in H as (post & Ht & Hs & _). cbn [trace] in Ht. rewrite Ht19 in Ht.
  destruct Hs as (b & st & mid & -> & [(_ & [=] & _) | (-> & _ & prints & st2' & Hp & ->)]).
  exists dp, vm_mac.
  exists (Stdout (info_line "Setting up VM disk...")
            :: ev1 ++ [Mkdir (vm_dir_of env vm_name) st0; Stdout (info_line "Creating VM...")]).
  exists ([System (copy_cmd (snprintf MAX_PATH (vm_dir_of env vm_name +:+ "/meta-data"))
                     (snprintf MAX_PATH (temp_dir_of env +:+ "/meta-data"))) c2;
           System (copy_cmd (snprintf MAX_PATH (vm_dir_of env vm_name +:+ "/user-data"))
                     (snprintf MAX_PATH (temp_dir_of env +:+ "/user-data"))) c1;
           Mkdir (temp_dir_of env) st1]
            ++ ev2 ++ [Stdout (info_line "Configuring cloud-init...");
                       System (efi_cmd env vm_name) efi]).
  exists s3.
  exists [Remove (snprintf MAX_PATH (vm_dir_of env vm_name +:+ "/monitor.sock"));
          FopenW (snprintf MAX_PATH (vm_dir_of env vm_name +:+ "/console.log")) b;
          Stdout (info_line "Starting VM...")].
  exists (prints ++ [Sleep 60; Stdout (info_line "Waiting for VM to boot...");
                     Stdout (success_line "VM started");
                     System (snprintf MAX_PATH
                               (pid_fmt (snprintf MAX_PATH (vm_dir_of env vm_name +:+ "/vm.pid"))))
                       st2']).
  split; [rewrite Ht; norm_app |].
  split; [quiet_tac |]. split; [quiet_tac |]. split; [exact Hq3 |].
  split; [quiet_tac |]. split; [quiet_tac |].
  apply in_or_app. right. by left.
Qed.

Lemma success_path_witness :
  exists image vm_mac s1 s2 s3 s4 s5,
    trace (snd (create_vm Sim.fair "demo1" "debian12" "alice" "secret123" Sim.fresh))
    = s5 ++ System (qemu_cmd vm_mac (vm_dir_of Sim.fair "demo1")) 0
        :: s4 ++ Stdout created_line
        :: s3 ++ System (iso_cmd Sim.fair "demo1") 0
        :: s2 ++ System (resize_cmd Sim.fair "demo1") 0
        :: System (copy_cmd image (disk_of Sim.fair "demo1")) 0
        :: s1 ++ trace Sim.fresh
    /\ quiet s1 /\ quiet s2 /\ quiet s3 /\ quiet s4 /\ quiet s5
    /\ In (Sleep 60) s5.
Proof.
  apply (success_path Sim.fair "demo1" "debian12" "alice" "secret123" Sim.fresh
           (snd (create_vm Sim.fair "demo1" "debian12" "alice" "secret123" Sim.fresh))).
  vm_compute. reflexivity.
Defined.

(** *** The file name of a cached image *)

Lemma strrchr_spec c s :
  match strrchr c s with
  | None => all_chars (fun a => negb (Ascii.eqb a c)) s = true
  | Some r =>
      exists pre t,
        s = pre +:+ String c t /\ r = String c t
        /\ all_chars (fun a => negb (Ascii.eqb a c)) t = true
  end.
Proof.
  induction s as [|a s IH]; [reflexivity |].
  cbn [strrchr]. destruct (strrchr c s) as [r|].
  - destruct IH as (pre & t & -> & -> & Ht). by exists (String a pre), t.
  - destruct (Ascii.eqb_spec a c) as [-> | Hne].
    + by exists EmptyString, s.
    + unfold all_chars in *. cbn. rewrite IH.
      by destruct (Ascii.eqb_spec a c).
Qed.

(** X21.  The file name under which [ensure_distro] caches an image is what
    follows the last slash of the URL: it holds no slash itself, so the
    file is an entry of the directory of the distro and of no other, and
    the URL is some prefix, a slash and that name (or the name alone,
    when the URL has no slash).  The path that [ensure_distro] hands out
    for a catalogued distro ends in that name, after a download as well
    as on a cache hit. *)
Theorem cached_file_name env distro url w :
  get_distro_url distro = Some url ->
  all_chars not_slash (basename url) = true
  /\ ((exists pre, url = pre +:+ "/" +:+ basename url) \/ basename url = url)
  /\ (forall p, fst (ensure_distro env distro MAX_PATH w) = Some p ->
                p = cache_path env distro url).
Proof.
  intros Hu. split; [| split].
  - unfold basename. pose proof (strrchr_spec "/" url) as H.
    destruct (strrchr "/" url) as [r|]; [| exact H].
    destruct H as (pre & t & _ & -> & Ht).
    cbn [String.length Nat.sub substring]. rewrite Nat.sub_0_r.
    by rewrite substring_all.
  - unfold basename. pose proof (strrchr_spec "/" url) as H.
    destruct (strrchr "/" url) as [r|]; [| by right].
    destruct H as (pre & t & -> & -> & Ht). left. exists pre.
    cbn [String.length Nat.sub substring]. rewrite Nat.sub_0_r.
    by rewrite substring_all.
  - intros p Hp.
    destruct (ensure_distro_known env distro url w Hu)
      as [(_ & Hk) | [(_ & w' & f & Hk & _) | (_ & w' & Hk & _)]];
      rewrite Hk in Hp; cbn [fst] in Hp; congruence.
Qed.

Lemma cached_file_name_witness :
  all_chars not_slash
    (basename "https://cloud.debian.org/images/cloud/bookworm/latest/debian-12-generic-arm64.qcow2")
  = true
  /\ ((exists pre,
         "https://cloud.debian.org/images/cloud/bookworm/latest/debian-12-generic-arm64.qcow2"%string
         = pre +:+ "/"
             +:+ basename "https://cloud.debian.org/images/cloud/bookworm/latest/debian-12-generic-arm64.qcow2")
      \/ basename "https://cloud.debian.org/images/cloud/bookworm/latest/debian-12-generic-arm64.qcow2"
         = "https://cloud.debian.org/images/cloud/bookworm/latest/debian-12-generic-arm64.qcow2"%string)
  /\ (forall p, fst (ensure_distro Sim.fair "debian12" MAX_PATH Sim.fresh) = Some p ->
                p = cache_path Sim.fair "debian12"
                      "https://cloud.debian.org/images/cloud/bookworm/latest/debian-12-generic-arm64.qcow2").
Proof.
  apply (cached_file_name Sim.fair "debian12"
           "https://cloud.debian.org/images/cloud/bookworm/latest/debian-12-generic-arm64.qcow2"
           Sim.fresh).
  reflexivity.
Defined.

(** *** The helper that [main] never reaches *)




(** a buffer of one byte is emptied and the exit status returned, also
    when the command printed nothing *)
Example execute_command_one_byte :
  pipe_out Sim.fair "true" (fs Sim.fresh) = Some EmptyString
  /\ fst (execute_command Sim.fair (fun _ _ => 768) "true" (Some "old"%string) 1 Sim.fresh)
     = (3, Some EmptyString)
  /\ fst (execute_command Sim.fair (fun _ _ => 768) "true" (Some "old"%string) 2 Sim.fresh)
     = (-1, Some "old"%string).
Proof. vm_compute. done. Qed.

(** *** What is seeded by the clock *)

Lemma generate_vm_name_eq env size (w : world) :
  exists r1 r2 r3 s,
    generate_vm_name env size w
    = (snprintf size
         (word_at adjectives (Z.rem r1 10) +:+ "-" +:+ word_at nouns (Z.rem r2 10)
            +:+ "-" +:+ fmt_d (Z.rem r3 100)),
       World (fs w) s (clock w) (trace w))
    /\ r1 = fst (rand_step env (clock w mod 2 ^ 32))
    /\ r2 = fst (rand_step env (snd (rand_step env (clock w mod 2 ^ 32))))
    /\ r3 = fst (rand_step env
                   (snd (rand_step env (snd (rand_step env (clock w mod 2 ^ 32))))))
    /\ s = snd (rand_step env
                  (snd (rand_step env (snd (rand_step env (clock w mod 2 ^ 32)))))).
Proof.
  unfold generate_vm_name, bind, time, srand, rand, ret. cbn [fs prng clock trace].
  destruct (rand_step env (clock w mod 2 ^ 32)) as [v1 s1]. cbn [fs prng clock trace fst snd].
  destruct (rand_step env s1) as [v2 s2]. cbn [fs prng clock trace fst snd].
  destruct (rand_step env s2) as [v3 s3]. cbn [fs prng clock trace fst snd].
  exists v1, v2, v3, s3. done.
Qed.

Lemma in_order_Permutation {A} o (v1 v2 v3 a b c : A) :
  in_order o v1 v2 v3 = (a, b, c) -> Permutation [a; b; c] [v1; v2; v3].
Proof.
  destruct o; intros [= <- <- <-].
  - reflexivity.
  - apply perm_skip, perm_swap.
  - apply perm_swap.
  - etrans; [apply perm_skip, perm_swap | apply perm_swap].
  - etrans; [apply perm_swap | apply perm_skip, perm_swap].
  - etrans; [apply perm_swap |]. etrans; [apply perm_skip, perm_swap |]. apply perm_swap.
Qed.

(** X23.  The generated name and the MAC address are functions of the second
    in which they are made.  Both functions seed the generator with the
    time and draw three numbers: two calls in the same second give the
    same name, respectively the same address, whatever the generator was
    before, and a name and an address made in the same second come from
    the same three numbers.  The name takes them in the order in which
    they are drawn; which of them becomes which octet of the address is
    for the build to choose, the three calls being arguments of one
    call: the octets are the three numbers modulo 256 in the order in
    which the build evaluates arguments. *)
Theorem name_and_mac_follow_the_clock env w1 w2 :
  clock w1 = clock w2 ->
  fst (generate_vm_name env MAX_NAME w1) = fst (generate_vm_name env MAX_NAME w2)
  /\ fst (generate_mac env 18 w1) = fst (generate_mac env 18 w2)
  /\ exists r1 r2 r3 a b c,
       fst (generate_vm_name env MAX_NAME w1)
       = snprintf MAX_NAME
           (word_at adjectives (Z.rem r1 10) +:+ "-" +:+ word_at nouns (Z.rem r2 10)
              +:+ "-" +:+ fmt_d (Z.rem r3 100))
       /\ fst (generate_mac env 18 w2)
          = snprintf 18
              ("52:54:00:" +:+ fmt_02x a +:+ ":" +:+ fmt_02x b +:+ ":" +:+ fmt_02x c)
       /\ in_order (args env) (Z.rem r1 256) (Z.rem r2 256) (Z.rem r3 256) = (a, b, c)
       /\ Permutation [a; b; c] [Z.rem r1 256; Z.rem r2 256; Z.rem r3 256].
Proof.
  intros Hc.
  destruct (generate_vm_name_eq env MAX_NAME w1) as (a1 & a2 & a3 & s & Hn1 & -> & -> & -> & _).
  destruct (generate_vm_name_eq env MAX_NAME w2) as (b1 & b2 & b3 & s' & Hn2 & -> & -> & -> & _).
  destruct (generate_mac_eq env 18 w1)
    as (c1 & c2 & c3 & t & x & y & z & Hm1 & Ho1 & -> & -> & -> & _).
  destruct (generate_mac_eq env 18 w2)
    as (d1 & d2 & d3 & t' & a & b & c & Hm2 & Ho2 & -> & -> & -> & _).
  rewrite Hn1, Hn2, Hm1, Hm2. cbn [fst]. rewrite Hc in *.
  rewrite Ho2 in Ho1. injection Ho1 as <- <- <-.
  split; [reflexivity |]. split; [reflexivity |].
  eexists _, _, _, a, b, c. split; [reflexivity |]. split; [reflexivity |].
  split; [exact Ho2 |]. exact (in_order_Permutation _ _ _ _ _ _ _ Ho2).
Qed.

Lemma name_and_mac_follow_the_clock_witness :
  fst (generate_vm_name Sim.fair MAX_NAME Sim.fresh)
  = fst (generate_vm_name Sim.fair MAX_NAME (World (fs Sim.cached) 77 (clock Sim.fresh) []))
  /\ fst (generate_mac Sim.fair 18 Sim.fresh)
     = fst (generate_mac Sim.fair 18 (World (fs Sim.cached) 77 (clock Sim.fresh) []))
  /\ exists r1 r2 r3 a b c,
       fst (generate_vm_name Sim.fair MAX_NAME Sim.fresh)
       = snprintf MAX_NAME
           (word_at adjectives (Z.rem r1 10) +:+ "-" +:+ word_at nouns (Z.rem r2 10)
              +:+ "-" +:+ fmt_d (Z.rem r3 100))
       /\ fst (generate_mac Sim.fair 18 (World (fs Sim.cached) 77 (clock Sim.fresh) []))
          = snprintf 18
              ("52:54:00:" +:+ fmt_02x a +:+ ":" +:+ fmt_02x b +:+ ":" +:+ fmt_02x c)
       /\ in_order (args Sim.fair) (Z.rem r1 256) (Z.rem r2 256) (Z.rem r3 256) = (a, b, c)
       /\ Permutation [a; b; c] [Z.rem r1 256; Z.rem r2 256; Z.rem r3 256].
Proof.
  apply (name_and_mac_follow_the_clock Sim.fair Sim.fresh
           (World (fs Sim.cached) 77 (clock Sim.fresh) [])).
  reflexivity.
Defined.

(** the same second and the same generator on two builds: one name, two
    addresses, the octets of the one being those of the other in
    reverse *)
Example mac_depends_on_the_build :
  fst (generate_vm_name Sim.fair MAX_NAME Sim.fresh)
  = fst (generate_vm_name Sim.right_to_left MAX_NAME Sim.fresh)
  /\ fst (generate_mac Sim.fair 18 Sim.fresh) = "52:54:00:39:7e:df"%string
  /\ fst (generate_mac Sim.right_to_left 18 Sim.fresh) = "52:54:00:df:7e:39"%string.
Proof. vm_compute. done. Qed.

(** *** What [start_vm] clears before the launch *)

(** X24.  Whatever an earlier run left behind, the hypervisor is started on a
    clean slate: when the command line of QEMU runs, no file is left at
    the path of the monitor socket, the console log is an empty file
    (when it could be opened and its path is not that of the socket),
    and nothing else on the file system has been touched by [start_vm]. *)
Theorem start_vm_clears_stale_files env vm_name vm_mac vm_dir w :
  exists f0 b st post,
    trace (snd (start_vm env vm_name vm_mac vm_dir w))
    = post ++ System (qemu_cmd vm_mac vm_dir) st
        :: Remove (snprintf MAX_PATH (vm_dir +:+ "/monitor.sock"))
        :: FopenW (snprintf MAX_PATH (vm_dir +:+ "/console.log")) b
        :: Stdout (info_line "Starting VM...") :: trace w
    /\ st = fst (sh env (qemu_cmd vm_mac vm_dir) f0)
    /\ b = can_write env (snprintf MAX_PATH (vm_dir +:+ "/console.log")) (fs w)
    /\ (forall c, f0 !! snprintf MAX_PATH (vm_dir +:+ "/monitor.sock") <> Some (File c))
    /\ (b = true ->
        snprintf MAX_PATH (vm_dir +:+ "/console.log")
        <> snprintf MAX_PATH (vm_dir +:+ "/monitor.sock") ->
        f0 !! snprintf MAX_PATH (vm_dir +:+ "/console.log") = Some (File EmptyString))
    /\ (forall q,
          q <> snprintf MAX_PATH (vm_dir +:+ "/console.log") ->
          q <> snprintf MAX_PATH (vm_dir +:+ "/monitor.sock") ->
          f0 !! q = fs w !! q).
Proof.
  destruct (start_vm env vm_name vm_mac vm_dir w) as [r w1] eqn:H. cbn [snd].
  unfold start_vm in H. fold (qemu_cmd vm_mac vm_dir) in H.
  bind_step H a w2 H1. prim H1.
  bind_step H b w3 H1. apply fopen_w_inv in H1 as (Hb & f & -> & Hf).
  bind_step H a1 w4 H1.
  assert (Hrm : exists f', w4 = World f' (prng w) (clock w)
                  (Remove (snprintf MAX_PATH (vm_dir +:+ "/monitor.sock"))
                     :: FopenW (snprintf MAX_PATH (vm_dir +:+ "/console.log")) b
                     :: Stdout (info_line "Starting VM...") :: trace w)
                /\ (forall c, f' !! snprintf MAX_PATH (vm_dir +:+ "/monitor.sock") <> Some (File c))
                /\ (forall q, q <> snprintf MAX_PATH (vm_dir +:+ "/monitor.sock") ->
                              f' !! q = f !! q)).
  { unfold remove, bind, get_fs, put_fs, emit, ret in H1. cbn [fs prng clock trace fst snd] in H1.
    destruct (f !! snprintf MAX_PATH (vm_dir +:+ "/monitor.sock")) as [[c|]|] eqn:E;
      [| destruct (has_entries _ _) |]; cbn [fs prng clock trace fst snd] in H1;
      injection H1 as <- <-; eexists; (split; [reflexivity |]); split.
    all: try (intros c'; rewrite ?lookup_delete_eq, ?E; done).
    all: intros q Hq; rewrite ?lookup_delete_ne by done; reflexivity. }
  clear H1. destruct Hrm as (f' & -> & Hsock & Hother).
  bind_step H st w5 H1. apply system_inv in H1 as (-> & Hst). cbn [fs prng clock trace] in *.
  assert (Hpost : exists post, trace w1
            = post ++ System (qemu_cmd vm_mac vm_dir) st
                :: Remove (snprintf MAX_PATH (vm_dir +:+ "/monitor.sock"))
                :: FopenW (snprintf MAX_PATH (vm_dir +:+ "/console.log")) b
                :: Stdout (info_line "Starting VM...") :: trace w).
  { destruct (negb (st =? 0)).
    - bind_step H a2 w6 H1. prim H1. prim H. cbn [trace]. by eexists [_].
    - bind_step H st2 w6 H1. apply system_inv in H1 as (-> & _).
      bind_step H a2 w7 H1. prim H1.
      bind_step H a3 w8 H1. prim H1.
      bind_step H a4 w9 H1. prim H1.
      bind_step H a5 w10 H1. apply show_vm_info_inv in H1 as (prints & Ht & _).
      prim H. rewrite Ht. cbn [trace].
      exists (prints ++ [Sleep 60; Stdout (info_line "Waiting for VM to boot...");
                         Stdout (success_line "VM started");
                         System (snprintf MAX_PATH
                                   (pid_fmt (snprintf MAX_PATH (vm_dir +:+ "/vm.pid")))) st2]).
      rewrite <- app_assoc. reflexivity. }
  destruct Hpost as (post & Hpost).
  exists f', b, st, post. split; [exact Hpost |]. split; [exact Hst |].
  split; [exact Hb |]. split; [exact Hsock |]. split.
  - intros -> Hne. rewrite Hother by exact Hne. rewrite Hf. apply lookup_insert_eq.
  - intros q Hl Hs. rewrite Hother by exact Hs.
    destruct b; rewrite Hf; [by rewrite lookup_insert_ne | reflexivity].
Qed.
